(** * markdown-it-editor: the editor components and their browser substrate

    A shallow embedding of the four React components of the repository
    (the plain-text [MarkdownEditor], the file-list [MarkdownEditor], the
    [EChartsEditor] and the [MultiContentEditor]) together with the parts of
    the browser they call: strings, [JSON], [localStorage], timers,
    [requestAnimationFrame], the DOM containers of the preview and the
    chart library's instance registry.

    Conventions.
    - A JavaScript string is a Rocq [string]: the bytes of its UTF-8 form.
    - A thrown exception is the [Throw] case of [result].
    - [Date.now()] is an explicit argument [now : Z] (milliseconds).
    - A [useState] cell is a field of the component's state record; a
      handler or an effect is a function on that record and the world. *)

From Stdlib Require Import String Ascii List ZArith QArith Bool Lia Arith.
From Stdlib Require Import DecimalString DecimalN DecimalZ DecimalFacts.
From Stdlib Require Import Sorting.Sorted Sorting.Permutation Lqa.
Import ListNotations.

Set Warnings "-register-all".

Open Scope string_scope.
Open Scope Z_scope.

(* ================================================================== *)
(** * Part I: definitions                                              *)
(* ================================================================== *)

(** ** Exceptions and results *)

Inductive exn : Type :=
| SyntaxError (message : string)
| TypeError (message : string)
| Error (message : string).

Definition message (e : exn) : string :=
  match e with
  | SyntaxError m | TypeError m | Error m => m
  end.

Inductive result (A : Type) : Type :=
| Ok (a : A)
| Throw (e : exn).
Arguments Ok {A} a.
Arguments Throw {A} e.

Definition bind {A B : Type} (r : result A) (k : A -> result B) : result B :=
  match r with
  | Ok a => k a
  | Throw e => Throw e
  end.

Notation "x <- r ;; k" := (bind r (fun x => k))
  (at level 61, r at next level, right associativity).

Definition is_ok {A : Type} (r : result A) : bool :=
  match r with Ok _ => true | Throw _ => false end.

(** ** JavaScript values and strings *)

Module JS.

(** The values [JSON.parse] can build, and [undefined] for a property
    that is not there.  A number is the exact value of its literal,
    which is the number JavaScript holds for every integer below 2^53,
    the times of [Date.now()] among them. *)
Inductive value : Type :=
| Undefined
| Null
| Bool (b : bool)
| Number (q : Q)
| Str (s : string)
| Array (items : list value)
| Object (members : list (string * value)).

(** The result of an arithmetic expression: a number, or the exception
    that the conversion of an operand throws. *)
Inductive number : Type :=
| NaN
| Fin (q : Q)
| Infinite (negative : bool)
| Abrupt (e : exn).

(** ToBoolean. *)
Definition truthy (v : value) : bool :=
  match v with
  | Undefined | Null => false
  | Bool b => b
  | Number q => negb (Qeq_bool q 0)
  | Str s => negb (s =? "")%string
  | Array _ | Object _ => true
  end.

(** [a || b]. *)
Definition or_else (a b : value) : value := if truthy a then a else b.

(** Own-property lookup in an object literal; with a repeated key
    [JSON.parse] keeps the last. *)
Fixpoint lookup (k : string) (members : list (string * value)) : value :=
  match members with
  | [] => Undefined
  | (k', v) :: rest =>
      match lookup k rest with
      | Undefined => if (k =? k')%string then v else Undefined
      | found => found
      end
  end.

(** [v.k] for a key [k] that no prototype defines ([kind], [data],
    [text], [lastModified], [filename]). *)
Definition get (v : value) (k : string) : result value :=
  match v with
  | Undefined => Throw (TypeError ("Cannot read properties of undefined (reading '" ++ k ++ "')"))
  | Null => Throw (TypeError ("Cannot read properties of null (reading '" ++ k ++ "')"))
  | Object members => Ok (lookup k members)
  | _ => Ok Undefined
  end.

(** [v?.k]. *)
Definition get_opt (v : value) (k : string) : value :=
  match v with
  | Object members => lookup k members
  | _ => Undefined
  end.

(** [v === s] for a string literal [s]. *)
Definition is_string (v : value) (s : string) : bool :=
  match v with
  | Str s' => (s' =? s)%string
  | _ => false
  end.

(** The double quote, and a string with its apostrophes turned into
    double quotes: JSON text is written with apostrophes below. *)
Definition dquote : ascii := ascii_of_nat 34.

Fixpoint dq (s : string) : string :=
  match s with
  | EmptyString => EmptyString
  | String c s' => String (if Ascii.eqb c "'" then dquote else c) (dq s')
  end.

(** [s.endsWith(suffix)]. *)
Fixpoint endsWith (s suffix : string) : bool :=
  if (s =? suffix)%string then true
  else match s with
       | EmptyString => false
       | String _ s' => endsWith s' suffix
       end.

(** [s.startsWith(p)]. *)
Definition startsWith (s p : string) : bool := prefix p s.

Fixpoint drop (n : nat) (s : string) : string :=
  match n, s with
  | O, _ => s
  | S n', String _ s' => drop n' s'
  | S _, EmptyString => EmptyString
  end.

(** [s.replace(pattern, replacement)] with a string pattern: the first
    occurrence only. *)
Fixpoint replace (pattern replacement s : string) : string :=
  if prefix pattern s then replacement ++ drop (String.length pattern) s
  else match s with
       | EmptyString => EmptyString
       | String c s' => String c (replace pattern replacement s')
       end.

(** The white space and line terminators [trim] strips, as UTF-8. *)
Definition white_space : list string :=
  let b (n : nat) := ascii_of_nat n in
  let s1 (x : nat) := String (b x) "" in
  let s2 (x y : nat) := String (b x) (String (b y) "") in
  let s3 (x y z : nat) := String (b x) (String (b y) (String (b z) "")) in
  [ s1 9; s1 10; s1 11; s1 12; s1 13; s1 32;
    s2 194 160; s3 225 154 128;
    s3 226 128 128; s3 226 128 129; s3 226 128 130; s3 226 128 131;
    s3 226 128 132; s3 226 128 133; s3 226 128 134; s3 226 128 135;
    s3 226 128 136; s3 226 128 137; s3 226 128 138;
    s3 226 128 168; s3 226 128 169; s3 226 128 175;
    s3 226 129 159; s3 227 128 128; s3 239 187 191 ]%nat.

Fixpoint strip_one (ws : list string) (s : string) : option string :=
  match ws with
  | [] => None
  | w :: ws' => if prefix w s then Some (drop (String.length w) s)
                else strip_one ws' s
  end.

Fixpoint trimStart_fuel (fuel : nat) (s : string) : string :=
  match fuel with
  | O => s
  | S fuel' => match strip_one white_space s with
               | Some s' => trimStart_fuel fuel' s'
               | None => s
               end
  end.

Definition trimStart (s : string) : string := trimStart_fuel (String.length s) s.

Definition reverse (s : string) : string :=
  string_of_list_ascii (rev (list_ascii_of_string s)).

Fixpoint trimEnd_fuel (fuel : nat) (r : string) : string :=
  match fuel with
  | O => r
  | S fuel' => match strip_one (map reverse white_space) r with
               | Some r' => trimEnd_fuel fuel' r'
               | None => r
               end
  end.

Definition trimEnd (s : string) : string :=
  reverse (trimEnd_fuel (String.length s) (reverse s)).

(** [s.trim()]. *)
Definition trim (s : string) : string := trimEnd (trimStart s).

(** *** ToNumber and subtraction *)

Definition is_digit (c : ascii) : bool :=
  let n := nat_of_ascii c in ((48 <=? n) && (n <=? 57))%nat.

Fixpoint span_digits (s : string) : string * string :=
  match s with
  | String c s' =>
      if is_digit c then let (d, r) := span_digits s' in (String c d, r)
      else (EmptyString, s)
  | EmptyString => (EmptyString, EmptyString)
  end.

(** The value of a run of decimal digits, zero for the empty run. *)
Definition decimal_value (d : string) : Q :=
  match NilEmpty.uint_of_string d with
  | Some u => inject_Z (Z.of_N (N.of_uint u))
  | None => 0
  end.

(** The value of a character as a digit of a radix. *)
Definition digit_of (radix : N) (c : ascii) : option N :=
  let n := N_of_ascii c in
  let d := if ((48 <=? n) && (n <=? 57))%N then Some (n - 48)%N
           else if ((97 <=? n) && (n <=? 102))%N then Some (n - 87)%N
           else if ((65 <=? n) && (n <=? 70))%N then Some (n - 55)%N
           else None in
  match d with
  | Some v => if (v <? radix)%N then Some v else None
  | None => None
  end.

Fixpoint radix_value (radix acc : N) (s : string) : option N :=
  match s with
  | EmptyString => Some acc
  | String c s' =>
      match digit_of radix c with
      | Some d => radix_value radix (radix * acc + d)%N s'
      | None => None
      end
  end.

(** NonDecimalIntegerLiteral: [0x], [0o] or [0b] and at least one digit. *)
Definition non_decimal (s : string) : option Q :=
  match s with
  | String "0" (String c (String d rest)) =>
      let radix := if (Ascii.eqb c "x" || Ascii.eqb c "X")%bool then Some 16%N
                   else if (Ascii.eqb c "o" || Ascii.eqb c "O")%bool then Some 8%N
                   else if (Ascii.eqb c "b" || Ascii.eqb c "B")%bool then Some 2%N
                   else None in
      match radix with
      | Some r => option_map (fun n => inject_Z (Z.of_N n)) (radix_value r 0 (String d rest))
      | None => None
      end
  | _ => None
  end.

(** ExponentPart, or nothing: the power of ten. *)
Definition exponent (s : string) : option Z :=
  match s with
  | EmptyString => Some 0
  | String c r =>
      if (Ascii.eqb c "e" || Ascii.eqb c "E")%bool then
        let (negative, r1) := match r with
                              | String "-" r' => (true, r')
                              | String "+" r' => (false, r')
                              | _ => (false, r)
                              end in
        match span_digits r1 with
        | (EmptyString, _) => None
        | (digits, EmptyString) =>
            match NilEmpty.uint_of_string digits with
            | Some u => Some (if negative then - Z.of_N (N.of_uint u) else Z.of_N (N.of_uint u))
            | None => None
            end
        | (_, String _ _) => None
        end
      else None
  end.

(** StrUnsignedDecimalLiteral but for [Infinity]: digits with an
    optional fraction, or a fraction alone, and an optional exponent. *)
Definition unsigned_decimal (s : string) : option Q :=
  let (int_part, s1) := span_digits s in
  let (fraction, s2) := match s1 with
                        | String "." r => span_digits r
                        | _ => (EmptyString, s1)
                        end in
  if ((int_part =? "") && (fraction =? ""))%bool%string then None
  else match exponent s2 with
       | Some e =>
           Some ((decimal_value int_part
                  + decimal_value fraction * Qpower (10 # 1) (- Z.of_nat (String.length fraction)))
                 * Qpower (10 # 1) e)%Q
       | None => None
       end.

(** StringToNumber: white space is stripped as [trim] strips it; the
    value of a literal is exact, as for a number of the JSON text. *)
Definition string_to_number (s : string) : number :=
  let t := trim s in
  if (t =? "")%string then Fin 0
  else match non_decimal t with
       | Some q => Fin q
       | None =>
           let (negative, body) := match t with
                                   | String "+" r => (false, r)
                                   | String "-" r => (true, r)
                                   | _ => (false, t)
                                   end in
           if (body =? "Infinity")%string then Infinite negative
           else match unsigned_decimal body with
                | Some q => Fin (if negative then - q else q)%Q
                | None => NaN
                end
       end.

Definition has_key (k : string) (members : list (string * value)) : bool :=
  existsb (fun m => (fst m =? k)%string) members.

Definition cannot_convert : exn := TypeError "Cannot convert object to primitive value".

(** Whether ToString throws on a value [JSON.parse] built.  An object
    with a property [toString] of its own has no callable [toString],
    and the [valueOf] it has or inherits gives no primitive; an array
    joins the strings of its items. *)
Fixpoint unprintable (v : value) : bool :=
  match v with
  | Object members => has_key "toString" members
  | Array items => existsb unprintable items
  | _ => false
  end.

(** ToNumber, on the values [JSON.parse] builds and [undefined].  An
    array goes through the string [join] gives it: empty for no item
    and for a [null] item, the item's own string for one item, a string
    with a comma, which is no number, for more.  An object goes through
    ["[object Object]"] unless it has a [toString] of its own. *)
Fixpoint to_number (v : value) : number :=
  match v with
  | Undefined => NaN
  | Null => Fin 0
  | Bool true => Fin 1
  | Bool false => Fin 0
  | Number q => Fin q
  | Str s => string_to_number s
  | Object members => if has_key "toString" members then Abrupt cannot_convert else NaN
  | Array [] => Fin 0
  | Array [item] =>
      match item with
      | Undefined | Null => Fin 0
      | Bool _ => NaN
      | Number q => Fin q
      | Str s => string_to_number s
      | Array _ => to_number item
      | Object members => if has_key "toString" members then Abrupt cannot_convert else NaN
      end
  | Array items => if existsb unprintable items then Abrupt cannot_convert else NaN
  end.

(** The difference of two numbers. *)
Definition minus (x y : number) : number :=
  match x, y with
  | Fin a, Fin b => Fin (a - b)
  | Fin _, Infinite n => Infinite (negb n)
  | Infinite n, Fin _ => Infinite n
  | Infinite n, Infinite m => if Bool.eqb n m then NaN else Infinite n
  | _, _ => NaN
  end.

(** [a - b]: the left operand is converted first. *)
Definition sub (a b : value) : number :=
  match to_number a with
  | Abrupt e => Abrupt e
  | x => match to_number b with
         | Abrupt e => Abrupt e
         | y => minus x y
         end
  end.

End JS.

(** ** The built-in [JSON] object *)

Module JSON.

Import JS.

Inductive token : Type :=
| TLBrace | TRBrace | TLBracket | TRBracket | TColon | TComma
| TStr (s : string)
| TNum (q : Q)
| TTrue | TFalse | TNull.

(** *** Number literals: an optional minus sign, an integer part with no
    leading zero, an optional fraction and an optional exponent. *)

Definition is_digit (c : ascii) : bool :=
  let n := nat_of_ascii c in ((48 <=? n) && (n <=? 57))%nat.

Fixpoint span_digits (s : string) : string * string :=
  match s with
  | String c s' =>
      if is_digit c then let (d, r) := span_digits s' in (String c d, r)
      else (EmptyString, s)
  | EmptyString => (EmptyString, EmptyString)
  end.

Definition digits_value (d : string) : option N :=
  match d with
  | EmptyString => None
  | _ => option_map N.of_uint (NilEmpty.uint_of_string d)
  end.

(** The integer part has no leading zero. *)
Definition int_part_ok (d : string) : bool :=
  match d with
  | EmptyString => false
  | String "0" EmptyString => true
  | String "0" _ => false
  | _ => true
  end.

Definition signed (neg : bool) (n : N) : Z :=
  if neg then - Z.of_N n else Z.of_N n.

Definition pow10 (e : Z) : Q := Qpower (10 # 1) e.

Definition number_of_literal (lit : string) : option Q :=
  let (neg, s1) := match lit with
                   | String "-" r => (true, r)
                   | _ => (false, lit)
                   end in
  let (ip, s2) := span_digits s1 in
  if negb (int_part_ok ip) then None else
  match digits_value ip with
  | None => None
  | Some i =>
      match s2 with
      | EmptyString => Some (inject_Z (signed neg i))
      | _ =>
          let (frac, s3) :=
            match s2 with
            | String "." r => let (f, r') := span_digits r in (Some f, r')
            | _ => (None, s2)
            end in
          let (expo, s4) :=
            match s3 with
            | String c r =>
                if (Ascii.eqb c "e" || Ascii.eqb c "E")%bool then
                  let (eneg, r1) := match r with
                                    | String "-" r' => (true, r')
                                    | String "+" r' => (false, r')
                                    | _ => (false, r)
                                    end in
                  let (e, r2) := span_digits r1 in (Some (eneg, e), r2)
                else (None, s3)
            | EmptyString => (None, s3)
            end in
          let fq : option Q :=
            match frac with
            | None => Some 0%Q
            | Some f => option_map
                          (fun n => (inject_Z (Z.of_N n) * pow10 (- Z.of_nat (String.length f)))%Q)
                          (digits_value f)
            end in
          let eq : option Z :=
            match expo with
            | None => Some 0
            | Some (eneg, e) => option_map (signed eneg) (digits_value e)
            end in
          match s4, fq, eq with
          | EmptyString, Some f, Some e =>
              let mag := ((inject_Z (Z.of_N i) + f) * pow10 e)%Q in
              Some (if neg then (- mag)%Q else mag)
          | _, _, _ => None
          end
      end
  end.

(** *** Lexer: one pass over the characters *)

Inductive mode : Type :=
| LNormal
| LString (acc : string)
| LEscape (acc : string)
| LUnicode (acc : string) (read : nat) (code : N)
| LNumber (lit : string)
| LWord (lit : string).

Definition is_ws (c : ascii) : bool :=
  let n := nat_of_ascii c in
  ((n =? 32) || (n =? 9) || (n =? 10) || (n =? 13))%nat.

Definition is_number_char (c : ascii) : bool :=
  (is_digit c || Ascii.eqb c "-" || Ascii.eqb c "+" || Ascii.eqb c "."
   || Ascii.eqb c "e" || Ascii.eqb c "E")%bool.

Definition is_lower (c : ascii) : bool :=
  let n := nat_of_ascii c in ((97 <=? n) && (n <=? 122))%nat.

Definition hex_digit (c : ascii) : option N :=
  let n := N_of_ascii c in
  if ((48 <=? n) && (n <=? 57))%N then Some (n - 48)%N
  else if ((97 <=? n) && (n <=? 102))%N then Some (n - 87)%N
  else if ((65 <=? n) && (n <=? 70))%N then Some (n - 55)%N
  else None.

Definition snoc (s : string) (c : ascii) : string := s ++ String c EmptyString.

(** The UTF-8 form of one UTF-16 code unit (a surrogate keeps its
    three-byte form). *)
Definition utf8 (cu : N) : string :=
  let b (n : N) := ascii_of_N n in
  if (cu <? 128)%N then String (b cu) ""
  else if (cu <? 2048)%N then
    String (b (192 + cu / 64)%N) (String (b (128 + cu mod 64)%N) "")
  else
    String (b (224 + cu / 4096)%N)
      (String (b (128 + (cu / 64) mod 64)%N) (String (b (128 + cu mod 64)%N) "")).

Definition keyword (lit : string) : option token :=
  if (lit =? "true")%string then Some TTrue
  else if (lit =? "false")%string then Some TFalse
  else if (lit =? "null")%string then Some TNull
  else None.

Definition unexpected (c : ascii) : exn :=
  SyntaxError ("Unexpected token '" ++ String c "'").

(** A character met outside any literal. *)
Definition lex_normal (c : ascii) : result (mode * list token) :=
  if is_ws c then Ok (LNormal, [])
  else if Ascii.eqb c "{" then Ok (LNormal, [TLBrace])
  else if Ascii.eqb c "}" then Ok (LNormal, [TRBrace])
  else if Ascii.eqb c "[" then Ok (LNormal, [TLBracket])
  else if Ascii.eqb c "]" then Ok (LNormal, [TRBracket])
  else if Ascii.eqb c ":" then Ok (LNormal, [TColon])
  else if Ascii.eqb c "," then Ok (LNormal, [TComma])
  else if Ascii.eqb c dquote then Ok (LString "", [])
  else if (Ascii.eqb c "-" || is_digit c)%bool then Ok (LNumber (String c ""), [])
  else if is_lower c then Ok (LWord (String c ""), [])
  else Throw (unexpected c).

Definition lex_step (m : mode) (c : ascii) : result (mode * list token) :=
  match m with
  | LNormal => lex_normal c
  | LString acc =>
      if Ascii.eqb c dquote then Ok (LNormal, [TStr acc])
      else if Ascii.eqb c "\" then Ok (LEscape acc, [])
      else if (nat_of_ascii c <? 32)%nat
           then Throw (SyntaxError "Bad control character in string literal")
      else Ok (LString (snoc acc c), [])
  | LEscape acc =>
      if Ascii.eqb c dquote then Ok (LString (snoc acc dquote), [])
      else if Ascii.eqb c "\" then Ok (LString (snoc acc "\"), [])
      else if Ascii.eqb c "/" then Ok (LString (snoc acc "/"), [])
      else if Ascii.eqb c "b" then Ok (LString (snoc acc (ascii_of_nat 8)), [])
      else if Ascii.eqb c "f" then Ok (LString (snoc acc (ascii_of_nat 12)), [])
      else if Ascii.eqb c "n" then Ok (LString (snoc acc (ascii_of_nat 10)), [])
      else if Ascii.eqb c "r" then Ok (LString (snoc acc (ascii_of_nat 13)), [])
      else if Ascii.eqb c "t" then Ok (LString (snoc acc (ascii_of_nat 9)), [])
      else if Ascii.eqb c "u" then Ok (LUnicode acc 0 0%N, [])
      else Throw (SyntaxError "Bad escaped character")
  | LUnicode acc read code =>
      match hex_digit c with
      | None => Throw (SyntaxError "Bad Unicode escape")
      | Some h =>
          let code' := (16 * code + h)%N in
          if (read =? 3)%nat then Ok (LString (acc ++ utf8 code'), [])
          else Ok (LUnicode acc (S read) code', [])
      end
  | LNumber lit =>
      if is_number_char c then Ok (LNumber (snoc lit c), [])
      else match number_of_literal lit with
           | None => Throw (SyntaxError "No number after minus sign")
           | Some q => r <- lex_normal c ;; Ok (fst r, TNum q :: snd r)
           end
  | LWord lit =>
      if is_lower c then Ok (LWord (snoc lit c), [])
      else match keyword lit with
           | None => Throw (SyntaxError ("Unexpected token '" ++ lit ++ "'"))
           | Some t => r <- lex_normal c ;; Ok (fst r, t :: snd r)
           end
  end.

(** The end of the input. *)
Definition lex_end (m : mode) : result (list token) :=
  match m with
  | LNormal => Ok []
  | LString _ | LEscape _ | LUnicode _ _ _ =>
      Throw (SyntaxError "Unterminated string in JSON")
  | LNumber lit =>
      match number_of_literal lit with
      | None => Throw (SyntaxError "No number after minus sign")
      | Some q => Ok [TNum q]
      end
  | LWord lit =>
      match keyword lit with
      | None => Throw (SyntaxError ("Unexpected token '" ++ lit ++ "'"))
      | Some t => Ok [t]
      end
  end.

Fixpoint lex (m : mode) (s : string) : result (list token) :=
  match s with
  | EmptyString => lex_end m
  | String c s' =>
      r <- lex_step m c ;;
      rest <- lex (fst r) s' ;;
      Ok (snd r ++ rest)%list
  end.

(** *** Parser: a stack of the containers still open *)

Inductive frame : Type :=
| FArray (done : list value)
| FObject (done : list (string * value)) (key : string).

Inductive pstate : Type :=
| PValue (stack : list frame)
| PArrayStart (stack : list frame)
| PObjectStart (stack : list frame)
| PKey (stack : list frame) (done : list (string * value))
| PColon (stack : list frame) (done : list (string * value)) (key : string)
| PAfter (stack : list frame) (v : value).

Definition unexpected_token : exn := SyntaxError "Unexpected token in JSON".

Definition start_value (stack : list frame) (t : token) : result pstate :=
  match t with
  | TLBracket => Ok (PArrayStart stack)
  | TLBrace => Ok (PObjectStart stack)
  | TStr s => Ok (PAfter stack (Str s))
  | TNum q => Ok (PAfter stack (Number q))
  | TTrue => Ok (PAfter stack (Bool true))
  | TFalse => Ok (PAfter stack (Bool false))
  | TNull => Ok (PAfter stack Null)
  | TRBrace | TRBracket | TColon | TComma => Throw unexpected_token
  end.

Definition parse_step (st : pstate) (t : token) : result pstate :=
  match st with
  | PValue stack => start_value stack t
  | PArrayStart stack =>
      match t with
      | TRBracket => Ok (PAfter stack (Array []))
      | _ => start_value (FArray [] :: stack) t
      end
  | PObjectStart stack =>
      match t with
      | TRBrace => Ok (PAfter stack (Object []))
      | TStr k => Ok (PColon stack [] k)
      | _ => Throw unexpected_token
      end
  | PKey stack done =>
      match t with
      | TStr k => Ok (PColon stack done k)
      | _ => Throw unexpected_token
      end
  | PColon stack done k =>
      match t with
      | TColon => Ok (PValue (FObject done k :: stack))
      | _ => Throw unexpected_token
      end
  | PAfter stack v =>
      match stack, t with
      | FArray done :: stack', TComma => Ok (PValue (FArray (done ++ [v])%list :: stack'))
      | FArray done :: stack', TRBracket => Ok (PAfter stack' (Array (done ++ [v])%list))
      | FObject done k :: stack', TComma => Ok (PKey stack' (done ++ [(k, v)])%list)
      | FObject done k :: stack', TRBrace => Ok (PAfter stack' (Object (done ++ [(k, v)])%list))
      | _, _ => Throw unexpected_token
      end
  end.

Fixpoint parse_tokens (st : pstate) (ts : list token) : result value :=
  match ts with
  | [] =>
      match st with
      | PAfter [] v => Ok v
      | _ => Throw (SyntaxError "Unexpected end of JSON input")
      end
  | t :: ts' => st' <- parse_step st t ;; parse_tokens st' ts'
  end.

(** [JSON.parse(text)]: the value, or a [SyntaxError] whose message is
    the engine's. *)
Definition parse (text : string) : result value :=
  ts <- lex LNormal text ;; parse_tokens (PValue []) ts.

(** *** [JSON.stringify] of the record the editors store *)

Definition hex_char (n : N) : ascii :=
  if (n <? 10)%N then ascii_of_N (48 + n)%N else ascii_of_N (87 + n)%N.

(** QuoteJSONString, one character. *)
Definition quote_char (c : ascii) : string :=
  let n := N_of_ascii c in
  if Ascii.eqb c dquote then dq "\'"
  else if Ascii.eqb c "\" then "\\"
  else if (n =? 8)%N then "\b"
  else if (n =? 12)%N then "\f"
  else if (n =? 10)%N then "\n"
  else if (n =? 13)%N then "\r"
  else if (n =? 9)%N then "\t"
  else if (n <? 32)%N then
    "\u00" ++ String (hex_char (n / 16)%N) (String (hex_char (n mod 16)%N) "")
  else String c "".

Fixpoint quote_chars (s : string) : string :=
  match s with
  | EmptyString => EmptyString
  | String c s' => quote_char c ++ quote_chars s'
  end.

Definition quote (s : string) : string :=
  String dquote (quote_chars s ++ String dquote "").

(** The decimal form of an integer number. *)
Definition string_of_Z (z : Z) : string := NilZero.string_of_int (Z.to_int z).

(** The record [{ text, lastModified }] the editors store. *)
Record content : Type := { text : string; lastModified : Z }.

(** [JSON.stringify(content)]. *)
Definition stringify (c : content) : string :=
  dq "{'text':" ++ quote (text c) ++ dq ",'lastModified':"
  ++ string_of_Z (lastModified c) ++ "}".

End JSON.

(** ** [localStorage] *)

Module Storage.

(** The entries in the order [key(i)] enumerates them.  The order is
    the browser's to choose: here a new key goes last and [setItem]
    keeps the place of a key that is already there, so a key that
    occurs once stays so. *)
Definition t : Type := list (string * string).

Fixpoint getItem (s : t) (k : string) : option string :=
  match s with
  | [] => None
  | (k', v) :: rest => if (k' =? k)%string then Some v else getItem rest k
  end.

Fixpoint setItem (s : t) (k v : string) : t :=
  match s with
  | [] => [(k, v)]
  | (k', v') :: rest =>
      if (k' =? k)%string then (k, v) :: rest else (k', v') :: setItem rest k v
  end.

Fixpoint removeItem (s : t) (k : string) : t :=
  match s with
  | [] => []
  | (k', v') :: rest =>
      if (k' =? k)%string then removeItem rest k else (k', v') :: removeItem rest k
  end.

Definition length (s : t) : nat := List.length s.

Definition key (s : t) (i : nat) : option string := nth_error (map fst s) i.

Definition keys (s : t) : list string := map fst s.

End Storage.

(** ** Timers *)

Module Timers.

(** The callbacks the editors hand to [setTimeout]. *)
Inductive callback : Type :=
| ClearSaveStatus.   (* () => setSaveStatus('') *)

Record timer : Type := { id : nat; due : Z; run : callback }.

Record t : Type := { pending : list timer; next_id : nat }.

Definition empty : t := {| pending := []; next_id := 0 |}.

(** [setTimeout(cb, delay)] called at time [now]: the timer's id and
    the timers after the call. *)
Definition setTimeout (cb : callback) (delay now : Z) (ts : t) : nat * t :=
  (next_id ts,
   {| pending := (pending ts ++ [{| id := next_id ts; due := now + delay; run := cb |}])%list;
      next_id := S (next_id ts) |}).

(** [clearTimeout(id)]. *)
Definition clearTimeout (i : nat) (ts : t) : t :=
  {| pending := filter (fun tm => negb (id tm =? i)%nat) (pending ts);
     next_id := next_id ts |}.

(** The timers due at time [now], in the order they were set, and the
    timers left. *)
Definition due_at (now : Z) (ts : t) : list timer * t :=
  (filter (fun tm => due tm <=? now) (pending ts),
   {| pending := filter (fun tm => negb (due tm <=? now)) (pending ts);
      next_id := next_id ts |}).

End Timers.

(** ** The list of saved files *)

Module Files.

Import JS.

(** [{ name: filename, lastModified }]. *)
Record file : Type := { name : string; lastModified : value }.

(** [f.k]: a file record has the two properties above and no other. *)
Definition prop (f : file) (k : string) : value :=
  if (k =? "name")%string then Str (name f)
  else if (k =? "lastModified")%string then lastModified f
  else Undefined.

(** A comparator result above zero puts its first argument after its
    second; zero and [NaN] leave the order alone. *)
Definition positive (n : number) : bool :=
  match n with
  | Fin q => negb (Qle_bool q 0)
  | Infinite negative => negb negative
  | NaN | Abrupt _ => false
  end.

Fixpoint insert (compare : file -> file -> number) (x : file) (l : list file)
  : result (list file) :=
  match l with
  | [] => Ok [x]
  | y :: l' =>
      match compare x y with
      | Abrupt e => Throw e
      | n => if positive n then (rest <- insert compare x l' ;; Ok (y :: rest))
             else Ok (x :: l)
      end
  end.

(** [files.sort(compare)]: the sort is stable, so for a consistent
    comparator the result is the one any stable sort gives.  An
    exception of the comparator leaves the sort.  An array of one file
    is sorted without a call of the comparator; with two files or more
    every file is an argument of some call, so the comparator of
    [lastModified] below, which throws when one of its two arguments
    cannot be converted, throws then whatever the order of the calls. *)
Fixpoint sort (compare : file -> file -> number) (l : list file) : result (list file) :=
  match l with
  | [] => Ok []
  | x :: l' => sorted <- sort compare l' ;; insert compare x sorted
  end.

(** [(a, b) => b.lastModified - a.lastModified] *)
Definition by_lastModified (a b : file) : number :=
  sub (prop b "lastModified") (prop a "lastModified").

(** [(a, b) => b.filename - a.filename] *)
Definition by_filename (a b : file) : number :=
  sub (prop b "filename") (prop a "filename").

Section Listing.

Variable BASE_STORAGE_KEY : string.
Variable compare : file -> file -> number.

(** The body of the [for] loop of [loadSavedFiles], over the keys
    [localStorage.key(i)] still to visit. *)
Fixpoint visit (storage : Storage.t) (now : Z) (keys : list string) : result (list file) :=
  match keys with
  | [] => Ok []
  | key :: keys' =>
      if (startsWith key BASE_STORAGE_KEY && negb (endsWith key "last-filename"))%bool then
        let filename := replace (BASE_STORAGE_KEY ++ "-") "" key in
        let content := match Storage.getItem storage key with
                       | Some c => c
                       | None => "null"
                       end in
        parsed <- JSON.parse content ;;
        let lastModified := or_else (get_opt parsed "lastModified") (Number (inject_Z now)) in
        files <- visit storage now keys' ;;
        Ok ({| name := filename; lastModified := lastModified |} :: files)
      else visit storage now keys'
  end.

(** [loadSavedFiles]: the array handed to [setSavedFiles], or the
    exception that leaves the function. *)
Definition loadSavedFiles (storage : Storage.t) (now : Z) : result (list file) :=
  files <- visit storage now (Storage.keys storage) ;;
  sort compare files.

End Listing.

End Files.

(** ** The elements of the preview *)

Module DOM.

(** An element that can carry an id of the form [chart-k]: the inner
    [div] of the box of a block, or an element of the markup set into
    the inner [div] of a markdown block.  Elements are numbered in the
    order they are made, so an element made anew is another element
    than the one it replaces.  [Inside serial k] is the first element
    with the id [chart-k] in the markup numbered [serial]. *)
Inductive node : Type :=
| Inner (serial : nat)
| Inside (serial : nat) (k : nat).

Definition eqb (a b : node) : bool :=
  match a, b with
  | Inner x, Inner y => (x =? y)%nat
  | Inside x i, Inside y j => ((x =? y)%nat && (i =? j)%nat)%bool
  | _, _ => false
  end.

(** What the inner [div] of a box shows: the container of a chart,
    which carries the id [chart-p] of its position [p]; the markup of a
    markdown block, numbered when it is set; the marker of an unknown
    kind. *)
Inductive face : Type :=
| Chart
| Markup (html : string) (serial : nat)
| Marker.

Record slot : Type := { inner : nat; shows : face }.

(** The boxes of the preview in document order, and the number the next
    new element gets. *)
Record t : Type := { slots : list slot; next : nat }.

Definition empty : t := {| slots := []; next := 0 |}.

End DOM.

(** ** The chart library: instances bound to containers *)

Module ECharts.

(** A chart instance and the element it was initialised on.  [pass] is
    a ghost field: the number of the deferred callback that made the
    instance. *)
Record instance : Type := { id : nat; dom : DOM.node; pass : nat }.

(** The instances not yet disposed.  [trace] is ghost: the live set
    after every change, oldest first. *)
Record registry : Type :=
  { live : list instance; next_id : nat; epoch : nat; trace : list (list instance) }.

Definition empty : registry :=
  {| live := []; next_id := 0; epoch := 0; trace := [] |}.

(** [echarts.getInstanceByDom(container)] *)
Definition getInstanceByDom (container : DOM.node) (r : registry) : option instance :=
  find (fun i => DOM.eqb (dom i) container) (live r).

(** [echarts.init(container)]: a new instance, whatever the container
    already holds. *)
Definition init (container : DOM.node) (r : registry) : instance * registry :=
  let i := {| id := next_id r; dom := container; pass := epoch r |} in
  let l := (live r ++ [i])%list in
  (i, {| live := l; next_id := S (next_id r); epoch := epoch r;
         trace := (trace r ++ [l])%list |}).

(** [chart.dispose()]; on an instance already disposed it only warns. *)
Definition dispose (i : instance) (r : registry) : registry :=
  if existsb (fun j => (id j =? id i)%nat) (live r) then
    let l := filter (fun j => negb (id j =? id i)%nat) (live r) in
    {| live := l; next_id := next_id r; epoch := epoch r;
       trace := (trace r ++ [l])%list |}
  else r.

Definition dispose_all (cs : list instance) (r : registry) : registry :=
  fold_left (fun r' c => dispose c r') cs r.

(** Ghost: a deferred callback starts. *)
Definition begin_pass (r : registry) : registry :=
  {| live := live r; next_id := next_id r; epoch := S (epoch r); trace := trace r |}.

End ECharts.

(** ** The browser state the components act on *)

Record world : Type :=
  { storage : Storage.t;
    timers : Timers.t;
    registry : ECharts.registry;
    frames : list JS.value;  (* callbacks handed to requestAnimationFrame, by the
                                [parsedContent] each closed over *)
    document : DOM.t         (* the preview as the last frame found it *) }.

Definition set_storage (s : Storage.t) (w : world) : world :=
  {| storage := s; timers := timers w; registry := registry w; frames := frames w;
     document := document w |}.

Definition set_timers (t : Timers.t) (w : world) : world :=
  {| storage := storage w; timers := t; registry := registry w; frames := frames w;
     document := document w |}.

Definition set_registry (r : ECharts.registry) (w : world) : world :=
  {| storage := storage w; timers := timers w; registry := r; frames := frames w;
     document := document w |}.

Definition set_frames (f : list JS.value) (w : world) : world :=
  {| storage := storage w; timers := timers w; registry := registry w; frames := f;
     document := document w |}.

Definition set_document (d : DOM.t) (w : world) : world :=
  {| storage := storage w; timers := timers w; registry := registry w; frames := frames w;
     document := d |}.

(** What a handler or an effect leaves behind.  Writes made before an
    exception stay; an exception that leaves an effect unmounts the
    component. *)
Record outcome (S : Type) : Type :=
  { state_of : S; world_of : world; thrown : option exn }.
Arguments state_of {S} o.
Arguments world_of {S} o.
Arguments thrown {S} o.

(** ** The plain-text markdown editor (MarkdownEditor.js, first component) *)

Module PlainMarkdownEditor.

Definition BASE_STORAGE_KEY : string := "markdown-editor-content".

(** The cells of the component; [cleanup] is the timer the last run of
    the effect returned its [clearTimeout] for.  The preview
    [md.render(markdown)] is left out. *)
Record state : Type :=
  { filename : string; markdown : string; saveStatus : string; cleanup : option nat }.

(** [useEffect(..., [markdown, filename])]: the clean-up of the run
    before, then the body. *)
Definition saveEffect (now : Z) (st : state) (w : world) : state * world :=
  let timers0 := match cleanup st with
                 | Some timer => Timers.clearTimeout timer (timers w)
                 | None => timers w
                 end in
  let storage1 := Storage.setItem (storage w) (BASE_STORAGE_KEY ++ "-" ++ filename st) (markdown st) in
  let storage2 := Storage.setItem storage1 (BASE_STORAGE_KEY ++ "-last-filename") (filename st) in
  let (timer, timers1) := Timers.setTimeout Timers.ClearSaveStatus 2000 now timers0 in
  ({| filename := filename st; markdown := markdown st; saveStatus := "Saved!";
      cleanup := Some timer |},
   set_timers timers1 (set_storage storage2 w)).

Definition handleEditorChange (value : string) (st : state) : state :=
  {| filename := filename st; markdown := value; saveStatus := saveStatus st;
     cleanup := cleanup st |}.

(** [localStorage.setItem(key, currentContent)] stores the string form
    of its argument, ["null"] for [null]. *)
Definition handleFilenameChange (value : string) (st : state) (w : world) : state * world :=
  let newFilename := JS.trim value in
  if negb (newFilename =? "")%string then
    let currentContent :=
      match Storage.getItem (storage w) (BASE_STORAGE_KEY ++ "-" ++ filename st) with
      | Some c => c
      | None => "null"
      end in
    let storage1 := Storage.setItem (storage w) (BASE_STORAGE_KEY ++ "-" ++ newFilename) currentContent in
    let storage2 := Storage.removeItem storage1 (BASE_STORAGE_KEY ++ "-" ++ filename st) in
    ({| filename := newFilename; markdown := markdown st; saveStatus := saveStatus st;
        cleanup := cleanup st |},
     set_storage storage2 w)
  else (st, w).

Definition fire (tm : Timers.timer) (st : state) : state :=
  match Timers.run tm with
  | Timers.ClearSaveStatus =>
      {| filename := filename st; markdown := markdown st; saveStatus := "";
         cleanup := cleanup st |}
  end.

(** Time passes to [now]: the timers due run. *)
Definition elapse (now : Z) (st : state) (w : world) : state * world :=
  let (due, rest) := Timers.due_at now (timers w) in
  (fold_left (fun s tm => fire tm s) due st, set_timers rest w).

(** An edit at time [now]: the handler, then the effect. *)
Definition edit (value : string) (now : Z) (st : state) (w : world) : state * world :=
  saveEffect now (handleEditorChange value st) w.

(** The initialiser of [filename],
    [localStorage.getItem(`${BASE_STORAGE_KEY}-last-filename`) || 'untitled']. *)
Definition initialFilename (s : Storage.t) : string :=
  match Storage.getItem s (BASE_STORAGE_KEY ++ "-last-filename") with
  | Some name => if (name =? "")%string then "untitled" else name
  | None => "untitled"
  end.

(** The template literal [`+++ Hello\nABC\n+++`], whose [\n] are line
    feeds. *)
Definition defaultMarkdown : string :=
  "+++ Hello" ++ String (ascii_of_nat 10) ("ABC" ++ String (ascii_of_nat 10) "+++").

(** The initialiser of [markdown], [savedContent || default]. *)
Definition initialMarkdown (s : Storage.t) (name : string) : string :=
  match Storage.getItem s (BASE_STORAGE_KEY ++ "-" ++ name) with
  | Some savedContent => if (savedContent =? "")%string then defaultMarkdown else savedContent
  | None => defaultMarkdown
  end.

(** The cells of the first render. *)
Definition initialState (s : Storage.t) : state :=
  {| filename := initialFilename s;
     markdown := initialMarkdown s (initialFilename s);
     saveStatus := "";
     cleanup := None |}.

(** Mounting at time [now]: the first render, then the effect. *)
Definition mount (now : Z) (w : world) : state * world :=
  saveEffect now (initialState (storage w)) w.

(** [handleClear]; [confirm] is the answer given to [window.confirm]. *)
Definition handleClear (confirm : bool) (st : state) (w : world) : state * world :=
  if confirm then
    ({| filename := filename st; markdown := ""; saveStatus := saveStatus st;
        cleanup := cleanup st |},
     set_storage (Storage.removeItem (storage w) (BASE_STORAGE_KEY ++ "-" ++ filename st)) w)
  else (st, w).

(** The render that follows a handler: the effect runs again when one
    of its dependencies [markdown] and [filename] changed, and not
    otherwise. *)
Definition rerender (now : Z) (before : state) (r : state * world) : state * world :=
  if ((filename (fst r) =? filename before)%string
      && (markdown (fst r) =? markdown before)%string)%bool
  then r
  else saveEffect now (fst r) (snd r).

(** A change or blur event of the filename field at time [now]. *)
Definition onFilenameChange (value : string) (now : Z) (st : state) (w : world)
  : state * world :=
  rerender now st (handleFilenameChange value st w).

(** A click on Clear All at time [now]. *)
Definition onClear (confirm : bool) (now : Z) (st : state) (w : world) : state * world :=
  rerender now st (handleClear confirm st w).

End PlainMarkdownEditor.

(** ** What the three file-list editors share

    The file-list [MarkdownEditor], the [EChartsEditor] and the
    [MultiContentEditor] keep the same cells and the same storage code;
    they differ in the key prefix, in the default text, in the
    comparator [loadSavedFiles] sorts with, and in what their effects do
    besides: the markdown editor renders the text, the chart editor
    runs the text as code, the multi-content editor parses it and makes
    the charts.  This module holds the shared code; the effects of each
    editor are in its own module. *)

Module FileList.

Import JS.

(** [codeInput] is [markdown] in the markdown editor. *)
Record state : Type :=
  { filename : string;
    codeInput : string;
    saveStatus : string;
    savedFiles : list Files.file;
    lastEditTime : Z }.

Definition setSaveStatus (v : string) (st : state) : state :=
  {| filename := filename st; codeInput := codeInput st; saveStatus := v;
     savedFiles := savedFiles st; lastEditTime := lastEditTime st |}.

Definition setSavedFiles (v : list Files.file) (st : state) : state :=
  {| filename := filename st; codeInput := codeInput st; saveStatus := saveStatus st;
     savedFiles := v; lastEditTime := lastEditTime st |}.

Definition setFilename (v : string) (st : state) : state :=
  {| filename := v; codeInput := codeInput st; saveStatus := saveStatus st;
     savedFiles := savedFiles st; lastEditTime := lastEditTime st |}.

Definition setCodeInput (v : string) (st : state) : state :=
  {| filename := filename st; codeInput := v; saveStatus := saveStatus st;
     savedFiles := savedFiles st; lastEditTime := lastEditTime st |}.

Definition setLastEditTime (v : Z) (st : state) : state :=
  {| filename := filename st; codeInput := codeInput st; saveStatus := saveStatus st;
     savedFiles := savedFiles st; lastEditTime := v |}.

(** What the user does in an editor: a change of the text to another
    text, a change of the filename field, a click on a file of the list,
    on New File, on the delete button of a file, with the answer given
    to [window.confirm]. *)
Inductive action : Type :=
| Edit (value : string)
| Rename (value : string)
| Open (file : Files.file)
| New
| Delete (confirm : bool) (file : Files.file).

Section Editor.

Variable BASE_STORAGE_KEY : string.
Variable defaultContent : string.
Variable compare : Files.file -> Files.file -> number.

(** [`${BASE_STORAGE_KEY}-${name}`] *)
Definition storage_key (name : string) : string := BASE_STORAGE_KEY ++ "-" ++ name.

Definition last_filename_key : string := BASE_STORAGE_KEY ++ "-last-filename".

(** [localStorage.getItem(`${BASE_STORAGE_KEY}-last-filename`) || 'untitled'] *)
Definition initialFilename (s : Storage.t) : string :=
  match Storage.getItem s last_filename_key with
  | Some name => if (name =? "")%string then "untitled" else name
  | None => "untitled"
  end.

(** The initialiser of [codeInput]: the saved text, or the default when
    nothing is saved or the payload cannot be read. *)
Definition initialContent (s : Storage.t) (name : string) : value :=
  match Storage.getItem s (storage_key name) with
  | Some savedContent =>
      if (savedContent =? "")%string then Str defaultContent
      else match (parsed <- JSON.parse savedContent ;; get parsed "text") with
           | Ok t => or_else t (Str defaultContent)
           | Throw _ => Str defaultContent
           end
  | None => Str defaultContent
  end.

Definition loadSavedFiles (s : Storage.t) (now : Z) : result (list Files.file) :=
  Files.loadSavedFiles BASE_STORAGE_KEY compare s now.

(** [localStorage.setItem(`${BASE_STORAGE_KEY}-${name}`, JSON.stringify(content))],
    the write of [saveContent], of the interval, of [handleNewFile] and
    of [handleFilenameChange]. *)
Definition put (name text : string) (now : Z) (s : Storage.t) : Storage.t :=
  Storage.setItem s (storage_key name)
    (JSON.stringify {| JSON.text := text; JSON.lastModified := now |}).

(** [saveContent()], which the save effect defines and calls first.
    The function it returns is dropped by the effect, so the timer is
    never cleared. *)
Definition saveContent (now : Z) (st : state) (w : world) : outcome state :=
  let storage1 := put (filename st) (codeInput st) now (storage w) in
  let storage2 := Storage.setItem storage1 last_filename_key (filename st) in
  match loadSavedFiles storage2 now with
  | Throw e => {| state_of := st; world_of := set_storage storage2 w; thrown := Some e |}
  | Ok files =>
      let (timer, timers1) := Timers.setTimeout Timers.ClearSaveStatus 2000 now (timers w) in
      {| state_of := setSaveStatus "Saved!" (setSavedFiles files st);
         world_of := set_timers timers1 (set_storage storage2 w);
         thrown := None |}
  end.

(** The callback of [setInterval(..., 30000)]. *)
Definition autoSave (now : Z) (st : state) (w : world) : state * world :=
  if now - lastEditTime st <? 30000 then
    let storage1 := put (filename st) (codeInput st) now (storage w) in
    let (timer, timers1) := Timers.setTimeout Timers.ClearSaveStatus 2000 now (timers w) in
    (setSaveStatus "Auto-saved!" st, set_timers timers1 (set_storage storage1 w))
  else (st, w).

Definition handleEditorChange (value : string) (now : Z) (st : state) : state :=
  setLastEditTime now (setCodeInput value st).

Definition handleFilenameChange (value : string) (now : Z) (st : state) (w : world)
  : outcome state :=
  let newFilename := trim value in
  if (negb (newFilename =? "")%string && negb (newFilename =? filename st)%string)%bool then
    let storage1 := put newFilename (codeInput st) now (storage w) in
    let storage2 := Storage.removeItem storage1 (storage_key (filename st)) in
    let st1 := setFilename newFilename st in
    match loadSavedFiles storage2 now with
    | Ok files => {| state_of := setSavedFiles files st1;
                     world_of := set_storage storage2 w; thrown := None |}
    | Throw e => {| state_of := st1; world_of := set_storage storage2 w; thrown := Some e |}
    end
  else {| state_of := st; world_of := w; thrown := None |}.

Definition fire (tm : Timers.timer) (st : state) : state :=
  match Timers.run tm with
  | Timers.ClearSaveStatus => setSaveStatus "" st
  end.

(** Time passes to [now]: the timers due run. *)
Definition elapse (now : Z) (st : state) (w : world) : state * world :=
  let (due, rest) := Timers.due_at now (timers w) in
  (fold_left (fun s tm => fire tm s) due st, set_timers rest w).

(** An edit at time [now] as far as the code is shared: the handler,
    then [saveContent()] of the save effect, whose dependencies are
    [codeInput] and [filename]. *)
Definition edit (value : string) (now : Z) (st : state) (w : world) : outcome state :=
  saveContent now (handleEditorChange value now st) w.

(** A call of [loadSavedFiles()] on its own, as in the effect that runs
    on mount. *)
Definition listFiles (now : Z) (st : state) (w : world) : outcome state :=
  match loadSavedFiles (storage w) now with
  | Ok files => {| state_of := setSavedFiles files st; world_of := w; thrown := None |}
  | Throw e => {| state_of := st; world_of := w; thrown := Some e |}
  end.

(** The cells of the first render at time [now].  The text cell is a
    string in this model: where the stored [text] is a truthy value of
    another type the initialiser would put that value in the cell, and
    the model gives [None]. *)
Definition initialState (s : Storage.t) (now : Z) : option state :=
  match initialContent s (initialFilename s) with
  | Str text => Some {| filename := initialFilename s; codeInput := text;
                        saveStatus := ""; savedFiles := []; lastEditTime := now |}
  | _ => None
  end.

(** [handleNewFile]; the clock stands still within a handler, so the
    three calls of [Date.now()] give one time. *)
Definition handleNewFile (now : Z) (st : state) (w : world) : outcome state :=
  let newFilename := "untitled-" ++ JSON.string_of_Z now in
  let storage1 := put newFilename defaultContent now (storage w) in
  let st1 := setLastEditTime now (setCodeInput defaultContent (setFilename newFilename st)) in
  match loadSavedFiles storage1 now with
  | Ok files => {| state_of := setSavedFiles files st1;
                   world_of := set_storage storage1 w; thrown := None |}
  | Throw e => {| state_of := st1; world_of := set_storage storage1 w; thrown := Some e |}
  end.

(** [JSON.parse(localStorage.getItem(key) || '{}')], the first
    statement of [handleFileClick]. *)
Definition clickedContent (s : Storage.t) (name : string) : result value :=
  JSON.parse match Storage.getItem s (storage_key name) with
             | Some c => if (c =? "")%string then "{}" else c
             | None => "{}"
             end.

(** [handleFileClick]: the parse, then [setFilename], then the read of
    [content.text], which throws when [content] is [null], then the
    two other setters.  The text cell is a string in this model: where
    the stored [text] is a truthy value of another type the handler
    would put that value in the cell, and the model gives [None]. *)
Definition handleFileClick (selectedFile : Files.file) (now : Z) (st : state) (w : world)
  : option (outcome state) :=
  match clickedContent (storage w) (Files.name selectedFile) with
  | Throw e => Some {| state_of := st; world_of := w; thrown := Some e |}
  | Ok content =>
      let st1 := setFilename (Files.name selectedFile) st in
      match get content "text" with
      | Throw e => Some {| state_of := st1; world_of := w; thrown := Some e |}
      | Ok text =>
          match or_else text (Str defaultContent) with
          | Str shown =>
              Some {| state_of := setLastEditTime now (setCodeInput shown st1);
                      world_of := w; thrown := None |}
          | _ => None
          end
      end
  end.

(** [handleDeleteFile]; [confirm] is the answer given to
    [window.confirm].  An exception that leaves [handleNewFile] leaves
    the handler before its own call of [loadSavedFiles]. *)
Definition handleDeleteFile (confirm : bool) (fileToDelete : Files.file) (now : Z)
    (st : state) (w : world) : outcome state :=
  if confirm then
    let w1 := set_storage (Storage.removeItem (storage w)
                             (storage_key (Files.name fileToDelete))) w in
    let o := if (Files.name fileToDelete =? filename st)%string
             then handleNewFile now st w1
             else {| state_of := st; world_of := w1; thrown := None |} in
    match thrown o with
    | Some _ => o
    | None =>
        match loadSavedFiles (storage (world_of o)) now with
        | Ok files => {| state_of := setSavedFiles files (state_of o);
                         world_of := world_of o; thrown := None |}
        | Throw e => {| state_of := state_of o; world_of := world_of o; thrown := Some e |}
        end
    end
  else {| state_of := st; world_of := w; thrown := None |}.

(** The render that follows a handler, as far as the code is shared:
    [saveContent()] of the save effect runs again when one of the
    dependencies [codeInput] and [filename] changed, and not otherwise.
    An exception of the handler has been reported by then and the cells
    it had set are set; the clock stands still between the handler and
    the effect.  What the effects of an editor do besides is added in
    the module of that editor ([saveEffect] and [rerender] there). *)
Definition rerender (now : Z) (before : state) (o : outcome state) : outcome state :=
  if ((filename (state_of o) =? filename before)%string
      && (codeInput (state_of o) =? codeInput before)%string)%bool
  then o
  else saveContent now (state_of o) (world_of o).

(** The events of the file panel and of the filename field at time
    [now], each with the render that follows. *)
Definition onNewFile (now : Z) (st : state) (w : world) : outcome state :=
  rerender now st (handleNewFile now st w).

Definition onFileClick (selectedFile : Files.file) (now : Z) (st : state) (w : world)
  : option (outcome state) :=
  option_map (rerender now st) (handleFileClick selectedFile now st w).

Definition onDeleteFile (confirm : bool) (fileToDelete : Files.file) (now : Z)
    (st : state) (w : world) : outcome state :=
  rerender now st (handleDeleteFile confirm fileToDelete now st w).

Definition onFilenameChange (value : string) (now : Z) (st : state) (w : world)
  : outcome state :=
  rerender now st (handleFilenameChange value now st w).

End Editor.

End FileList.

(** ** The file-list markdown editor (MarkdownEditor.jsx) *)

Module MarkdownEditor.

Import JS.

Definition BASE_STORAGE_KEY : string := "markdown-editor-content".
Definition defaultContent : string := "".

Definition loadSavedFiles := FileList.loadSavedFiles BASE_STORAGE_KEY Files.by_filename.
Definition saveContent := FileList.saveContent BASE_STORAGE_KEY Files.by_filename.
Definition autoSave := FileList.autoSave BASE_STORAGE_KEY.
Definition handleEditorChange := FileList.handleEditorChange.
Definition handleFilenameChange := FileList.handleFilenameChange BASE_STORAGE_KEY Files.by_filename.
Definition elapse := FileList.elapse.
Definition handleNewFile :=
  FileList.handleNewFile BASE_STORAGE_KEY defaultContent Files.by_filename.
Definition handleFileClick := FileList.handleFileClick BASE_STORAGE_KEY defaultContent.
Definition handleDeleteFile :=
  FileList.handleDeleteFile BASE_STORAGE_KEY defaultContent Files.by_filename.

(** [initializeMarkdownIt()], as far as it can throw: it parses the
    stored payload of the open document,
    [JSON.parse(localStorage.getItem(key) || '{}')], and renders
    [content?.text || markdown], which has to be a string; the renderer
    is total on strings.  The cells it sets ([html] and the two
    counters) are left out. *)
Definition initializeMarkdownIt (st : FileList.state) (w : world) : option exn :=
  match FileList.clickedContent BASE_STORAGE_KEY (storage w) (FileList.filename st) with
  | Throw e => Some e
  | Ok content =>
      match or_else (get_opt content "text") (Str (FileList.codeInput st)) with
      | Str _ => None
      | _ => Some (Error "Input data should be a String")
      end
  end.

(** The save effect, [saveContent(); initializeMarkdownIt();]. *)
Definition saveEffect (now : Z) (st : FileList.state) (w : world) : outcome FileList.state :=
  let o := saveContent now st w in
  match thrown o with
  | Some _ => o
  | None => {| state_of := state_of o; world_of := world_of o;
               thrown := initializeMarkdownIt (state_of o) (world_of o) |}
  end.

(** The effect that runs on mount,
    [loadSavedFiles(); initializeMarkdownIt();]. *)
Definition mountEffect (now : Z) (st : FileList.state) (w : world) : outcome FileList.state :=
  let o := FileList.listFiles BASE_STORAGE_KEY Files.by_filename now st w in
  match thrown o with
  | Some _ => o
  | None => {| state_of := state_of o; world_of := world_of o;
               thrown := initializeMarkdownIt (state_of o) (world_of o) |}
  end.

(** Mounting at time [now]: the first render, the effect that runs on
    mount, then the save effect; an exception that leaves an effect
    unmounts the component before the effects after it run.  [None]
    where the first render has no string for the text cell. *)
Definition mount (now : Z) (w : world) : option (outcome FileList.state) :=
  match FileList.initialState BASE_STORAGE_KEY defaultContent (storage w) now with
  | Some st =>
      let o := mountEffect now st w in
      Some match thrown o with
           | Some _ => o
           | None => saveEffect now (state_of o) (world_of o)
           end
  | None => None
  end.

(** The render that follows a handler: the save effect runs again when
    [markdown] or [filename] changed. *)
Definition rerender (now : Z) (before : FileList.state) (o : outcome FileList.state)
  : outcome FileList.state :=
  if ((FileList.filename (state_of o) =? FileList.filename before)%string
      && (FileList.codeInput (state_of o) =? FileList.codeInput before)%string)%bool
  then o
  else saveEffect now (state_of o) (world_of o).

(** The events at time [now], each with the render that follows. *)
Definition edit (value : string) (now : Z) (st : FileList.state) (w : world)
  : outcome FileList.state :=
  saveEffect now (handleEditorChange value now st) w.

Definition onNewFile (now : Z) (st : FileList.state) (w : world) : outcome FileList.state :=
  rerender now st (handleNewFile now st w).

Definition onFileClick (selectedFile : Files.file) (now : Z) (st : FileList.state) (w : world)
  : option (outcome FileList.state) :=
  option_map (rerender now st) (handleFileClick selectedFile now st w).

Definition onDeleteFile (confirm : bool) (fileToDelete : Files.file) (now : Z)
    (st : FileList.state) (w : world) : outcome FileList.state :=
  rerender now st (handleDeleteFile confirm fileToDelete now st w).

Definition onFilenameChange (value : string) (now : Z) (st : FileList.state) (w : world)
  : outcome FileList.state :=
  rerender now st (handleFilenameChange value now st w).

Definition act (a : FileList.action) (now : Z) (st : FileList.state) (w : world)
  : option (outcome FileList.state) :=
  match a with
  | FileList.Edit value => Some (edit value now st w)
  | FileList.Rename value => Some (onFilenameChange value now st w)
  | FileList.Open file => onFileClick file now st w
  | FileList.New => Some (onNewFile now st w)
  | FileList.Delete confirm file => Some (onDeleteFile confirm file now st w)
  end.

End MarkdownEditor.

(** ** The chart editor (EChartsEditor.jsx) *)

Module EChartsEditor.

Definition BASE_STORAGE_KEY : string := "echarts-editor-content".

(** The single chart of the preview is left out: [echarts.init] in
    the effect that runs on mount, and the effect that hands the
    options evaluated to [chart.setOption] in the render after the save
    effect.  Neither reads or writes a cell of the file list, the
    storage or a timer; an exception of [setOption] unmounts the
    editor, after which no event reaches it, so that the editor modelled
    here only has more events than the one in the browser. *)
Definition loadSavedFiles := FileList.loadSavedFiles BASE_STORAGE_KEY Files.by_lastModified.
Definition saveContent := FileList.saveContent BASE_STORAGE_KEY Files.by_lastModified.
Definition autoSave := FileList.autoSave BASE_STORAGE_KEY.
Definition handleEditorChange := FileList.handleEditorChange.
Definition handleFilenameChange := FileList.handleFilenameChange BASE_STORAGE_KEY Files.by_lastModified.
Definition elapse := FileList.elapse.

(** The template literal [defaultOptions]. *)
Definition defaultOptions : string :=
"{
  xAxis: {},
  yAxis: {},
  series: [{
    symbolSize: 20,
    data: [[10.0, 8.04], [8.07, 6.95]],
    type: 'scatter'
  }]
}".

Definition handleNewFile :=
  FileList.handleNewFile BASE_STORAGE_KEY defaultOptions Files.by_lastModified.
Definition handleFileClick := FileList.handleFileClick BASE_STORAGE_KEY defaultOptions.
Definition handleDeleteFile :=
  FileList.handleDeleteFile BASE_STORAGE_KEY defaultOptions Files.by_lastModified.

(** The cells of the component: those of the file list and
    [parseError]. *)
Record state : Type := { cells : FileList.state; parseError : string }.

Definition lift (o : outcome FileList.state) (st : state) : outcome state :=
  {| state_of := {| cells := state_of o; parseError := parseError st |};
     world_of := world_of o; thrown := thrown o |}.

Section Evaluation.

(** [new Function(`return ${codeInput}`)()]: the text of the editor run
    as code.  The code can do to the browser whatever code can do, call
    [localStorage] and the timers among the rest; [evaluate] gives the
    exception it throws, if any, and the browser state it leaves.  A
    text that does not return is outside the model. *)
Variable evaluate : string -> world -> option exn * world.

(** The save effect: [saveContent()], then the evaluation in its
    [try], whose [catch] sets the error. *)
Definition saveEffect (now : Z) (st : state) (w : world) : outcome state :=
  let o := saveContent now (cells st) w in
  match thrown o with
  | Some _ => lift o st
  | None =>
      let (e, w1) := evaluate (FileList.codeInput (state_of o)) (world_of o) in
      {| state_of := {| cells := state_of o;
                        parseError := match e with
                                      | Some _ => "Invalid ECharts configuration"
                                      | None => ""
                                      end |};
         world_of := w1; thrown := None |}
  end.

(** The effect that runs on mount, as far as the files go:
    [loadSavedFiles()]. *)
Definition mountEffect (now : Z) (st : state) (w : world) : outcome state :=
  lift (FileList.listFiles BASE_STORAGE_KEY Files.by_lastModified now (cells st) w) st.

(** Mounting at time [now]: the first render, the effect that runs on
    mount, then the save effect.  [None] where the first render has no
    string for the text cell. *)
Definition mount (now : Z) (w : world) : option (outcome state) :=
  match FileList.initialState BASE_STORAGE_KEY defaultOptions (storage w) now with
  | Some c =>
      let o := mountEffect now {| cells := c; parseError := "" |} w in
      Some match thrown o with
           | Some _ => o
           | None => saveEffect now (state_of o) (world_of o)
           end
  | None => None
  end.

(** The render that follows a handler: the save effect runs again when
    [codeInput] or [filename] changed. *)
Definition rerender (now : Z) (before : state) (o : outcome state) : outcome state :=
  if ((FileList.filename (cells (state_of o)) =? FileList.filename (cells before))%string
      && (FileList.codeInput (cells (state_of o))
          =? FileList.codeInput (cells before))%string)%bool
  then o
  else saveEffect now (state_of o) (world_of o).

(** The events at time [now], each with the render that follows. *)
Definition edit (value : string) (now : Z) (st : state) (w : world) : outcome state :=
  saveEffect now {| cells := handleEditorChange value now (cells st);
                    parseError := parseError st |} w.

Definition onNewFile (now : Z) (st : state) (w : world) : outcome state :=
  rerender now st (lift (handleNewFile now (cells st) w) st).

Definition onFileClick (selectedFile : Files.file) (now : Z) (st : state) (w : world)
  : option (outcome state) :=
  option_map (fun o => rerender now st (lift o st))
             (handleFileClick selectedFile now (cells st) w).

Definition onDeleteFile (confirm : bool) (fileToDelete : Files.file) (now : Z)
    (st : state) (w : world) : outcome state :=
  rerender now st (lift (handleDeleteFile confirm fileToDelete now (cells st) w) st).

Definition onFilenameChange (value : string) (now : Z) (st : state) (w : world)
  : outcome state :=
  rerender now st (lift (handleFilenameChange value now (cells st) w) st).

Definition act (a : FileList.action) (now : Z) (st : state) (w : world)
  : option (outcome state) :=
  match a with
  | FileList.Edit value => Some (edit value now st w)
  | FileList.Rename value => Some (onFilenameChange value now st w)
  | FileList.Open file => onFileClick file now st w
  | FileList.New => Some (onNewFile now st w)
  | FileList.Delete confirm file => Some (onDeleteFile confirm file now st w)
  end.

End Evaluation.

Definition setCells (c : FileList.state) (st : state) : state :=
  {| cells := c; parseError := parseError st |}.

End EChartsEditor.

(** ** The multi-content editor (MarkdownEditor.js, second component) *)

Module MultiContentEditor.

Import JS.

Definition BASE_STORAGE_KEY : string := "multi-content-editor".

(** What one block of the preview renders to, inside its bordered box. *)
Inductive element : Type :=
| ChartContainer (index : nat)
  (* <div id={`chart-${index}`} className="w-full h-64" /> *)
| Prose (html : string)
  (* <div className="prose max-w-none" dangerouslySetInnerHTML=... /> *)
| UnknownType (label : string) (kind : value).
  (* <div className="text-red-500">Unknown content type: {item.kind}</div> *)

(** React renders a string, a number or an array of such as a child, and
    nothing for [undefined], [null] and booleans; it refuses an object. *)
Fixpoint valid_child (v : value) : bool :=
  match v with
  | Object _ => false
  | Array items => forallb valid_child items
  | _ => true
  end.

(** The cells of the component: those of the file list, then
    [contentList], [parseError] and [charts]. *)
Record state : Type :=
  { cells : FileList.state;
    contentList : value;
    parseError : string;
    charts : list ECharts.instance }.

Definition setCells (c : FileList.state) (st : state) : state :=
  {| cells := c; contentList := contentList st; parseError := parseError st;
     charts := charts st |}.

Definition setContentList (v : value) (st : state) : state :=
  {| cells := cells st; contentList := v; parseError := parseError st;
     charts := charts st |}.

Definition setParseError (v : string) (st : state) : state :=
  {| cells := cells st; contentList := contentList st; parseError := v;
     charts := charts st |}.

Definition codeInput (st : state) : string := FileList.codeInput (cells st).

Definition loadSavedFiles := FileList.loadSavedFiles BASE_STORAGE_KEY Files.by_lastModified.

Definition handleFilenameChange (value : string) (now : Z) (st : state) (w : world)
  : outcome state :=
  let o := FileList.handleFilenameChange BASE_STORAGE_KEY Files.by_lastModified
             value now (cells st) w in
  {| state_of := setCells (state_of o) st; world_of := world_of o; thrown := thrown o |}.

Definition handleEditorChange (value : string) (now : Z) (st : state) : state :=
  setCells (FileList.handleEditorChange value now (cells st)) st.

(** The auto-save effect, [useEffect(..., [codeInput, filename, loadSavedFiles])]. *)
Definition saveContent (now : Z) (st : state) (w : world) : outcome state :=
  let o := FileList.saveContent BASE_STORAGE_KEY Files.by_lastModified now (cells st) w in
  {| state_of := setCells (state_of o) st; world_of := world_of o; thrown := thrown o |}.

Section Rendering.

(** [md.render], total on strings. *)
Variable md_render : string -> string.

(** Whether [chart.setOption(data)] throws: the chart library's choice. *)
Variable setOption_throws : value -> bool.

(** The numbers [k] of the ids [chart-k] that elements of a markup
    carry, in document order: the browser's reading of the markup that
    [dangerouslySetInnerHTML] hands it.  The renderer is made with
    [html: true], so the markup of a markdown block can hold any
    element.  Markup set through [innerHTML] runs no [script] element;
    the handlers it can attach to elements run on later events, which
    are outside the passes modelled here. *)
Variable ids_of_markup : string -> list nat.

(** The body of [contentList.map((item, index) => ...)]. *)
Definition render_item (index : nat) (item : value) : result element :=
  kind <- get item "kind" ;;
  if is_string kind "chart" then Ok (ChartContainer index)
  else if is_string kind "markdown" then
    data <- get item "data" ;;
    text <- get data "text" ;;
    match text with
    | Str src => Ok (Prose (md_render src))
    | _ => Throw (Error "Input data should be a String")
    end
  else if valid_child kind then Ok (UnknownType "Unknown content type: " kind)
  else Throw (Error "Objects are not valid as a React child").

Fixpoint render_items (index : nat) (items : list value) : result (list element) :=
  match items with
  | [] => Ok []
  | item :: rest =>
      e <- render_item index item ;;
      es <- render_items (S index) rest ;;
      Ok (e :: es)
  end.

(** The preview pane for a value of [contentList]. *)
Definition render (contentList : value) : result (list element) :=
  match contentList with
  | Array items => render_items 0 items
  | _ => Throw (TypeError "contentList.map is not a function")
  end.

(** The blocks on the page: an exception while rendering unmounts the
    whole tree. *)
Definition view (contentList : value) : list element :=
  match render contentList with
  | Ok elements => elements
  | Throw _ => []
  end.

(** What a commit makes of the inner [div] at a position.  The three
    branches of the render all give a [div], which React updates in
    place; it sets the markup again when it differs from the markup set
    before, and clears it when the block is no markdown block any more. *)
Definition face_of (old : option DOM.slot) (e : element) (fresh : nat) : DOM.face :=
  match e with
  | ChartContainer _ => DOM.Chart
  | UnknownType _ _ => DOM.Marker
  | Prose html =>
      match option_map DOM.shows old with
      | Some (DOM.Markup html' serial) =>
          if (html' =? html)%string then DOM.Markup html serial else DOM.Markup html fresh
      | _ => DOM.Markup html fresh
      end
  end.

(** The boxes are keyed by their position: a box that was there keeps
    its elements, a new position gets new ones, the boxes past the end
    of the page are removed. *)
Fixpoint commit_slots (page : list element) (old : list DOM.slot) (fresh : nat)
  : list DOM.slot :=
  match page with
  | [] => []
  | e :: page' =>
      {| DOM.inner := match old with
                      | s :: _ => DOM.inner s
                      | [] => fresh
                      end;
         DOM.shows := face_of (hd_error old) e (S fresh) |}
      :: commit_slots page' (tl old) (S (S fresh))
  end.

(** React commits a page. *)
Definition commit (page : list element) (d : DOM.t) : DOM.t :=
  {| DOM.slots := commit_slots page (DOM.slots d) (DOM.next d);
     DOM.next := (DOM.next d + 2 * List.length page)%nat |}.

(** The first element in document order with the id [chart-k], from
    the box at [position] on: the container of a chart block at
    position [k], or an element of the markup of a markdown block. *)
Fixpoint find_id (k position : nat) (slots : list DOM.slot) : option DOM.node :=
  match slots with
  | [] => None
  | s :: rest =>
      match DOM.shows s with
      | DOM.Chart =>
          if (position =? k)%nat then Some (DOM.Inner (DOM.inner s))
          else find_id k (S position) rest
      | DOM.Markup html serial =>
          if existsb (Nat.eqb k) (ids_of_markup html) then Some (DOM.Inside serial k)
          else find_id k (S position) rest
      | DOM.Marker => find_id k (S position) rest
      end
  end.

(** [document.getElementById(`chart-${index}`)] *)
Definition getElementById (index : nat) (d : DOM.t) : option DOM.node :=
  find_id index 0 (DOM.slots d).

(** [setCharts(next)]; the effect keyed on [charts] then disposes the
    array it had closed over. *)
Definition setCharts (next : list ECharts.instance) (st : state) (w : world) : state * world :=
  ({| cells := cells st; contentList := contentList st; parseError := parseError st;
      charts := next |},
   set_registry (ECharts.dispose_all (charts st) (registry w)) w).

(** The charts management effect, [useEffect(..., [codeInput])], up to
    the call of [requestAnimationFrame]. *)
Definition chartsEffect (st : state) (w : world) : state * world :=
  let w1 := set_registry (ECharts.dispose_all (charts st) (registry w)) w in
  let (st1, w2) := setCharts [] st w1 in
  match JSON.parse (codeInput st) with
  | Ok parsedContent =>
      (setParseError "" (setContentList parsedContent st1),
       set_frames (frames w2 ++ [parsedContent])%list w2)
  | Throw e =>
      (setParseError ("Invalid configuration: " ++ message e) st1, w2)
  end.

(** The body of [parsedContent.forEach((item, index) => ...)] over the
    items still to visit. *)
Fixpoint forEach (page : DOM.t) (index : nat) (items : list value)
    (newCharts : list ECharts.instance) (r : ECharts.registry)
  : result (list ECharts.instance) * ECharts.registry :=
  match items with
  | [] => (Ok newCharts, r)
  | item :: rest =>
      match get item "kind" with
      | Throw e => (Throw e, r)
      | Ok kind =>
          if is_string kind "chart" then
            match getElementById index page with
            | Some container =>
                let r1 := match ECharts.getInstanceByDom container r with
                          | Some existingChart => ECharts.dispose existingChart r
                          | None => r
                          end in
                let (chart, r2) := ECharts.init container r1 in
                if setOption_throws (get_opt item "data")
                then forEach page (S index) rest newCharts r2
                else forEach page (S index) rest (newCharts ++ [chart])%list r2
            | None => forEach page (S index) rest newCharts r
            end
          else forEach page (S index) rest newCharts r
      end
  end.

(** The callback handed to [requestAnimationFrame], run when React has
    committed the current [contentList]. *)
Definition initCharts (parsedContent : value) (st : state) (w : world) : state * world :=
  let page := commit (view (contentList st)) (document w) in
  let w0 := set_document page w in
  let r0 := ECharts.begin_pass (registry w) in
  match parsedContent with
  | Array items =>
      match forEach page 0 items [] r0 with
      | (Ok newCharts, r) => setCharts newCharts st (set_registry r w0)
      | (Throw _, r) => (st, set_registry r w0)
      end
  | _ => (st, set_registry r0 w0)
  end.

Fixpoint run_callbacks (callbacks : list value) (st : state) (w : world) : state * world :=
  match callbacks with
  | [] => (st, w)
  | parsedContent :: rest =>
      let (st1, w1) := initCharts parsedContent st w in
      run_callbacks rest st1 w1
  end.

(** The commits since the last frame: every run of the charts
    management effect that queued a callback set [contentList] to the
    value that callback closed over, and React committed it before the
    next event. *)
Definition replay (committed : list value) (d : DOM.t) : DOM.t :=
  fold_left (fun d' contentList => commit (view contentList) d') committed d.

(** The next animation frame: the callbacks queued run in order. *)
Definition animationFrame (st : state) (w : world) : state * world :=
  run_callbacks (frames w) st
    (set_frames [] (set_document (replay (frames w) (document w)) w)).

(** A change of the text at time [now] up to the end of the charts
    management effect. *)
Definition onCodeInput (value : string) (now : Z) (st : state) (w : world) : state * world :=
  chartsEffect (handleEditorChange value now st) w.

(** One render pass: the change of the text and the next frame. *)
Definition render_pass (value : string) (now : Z) (st : state) (w : world) : state * world :=
  let (st1, w1) := onCodeInput value now st w in
  animationFrame st1 w1.

(** An edit at time [now]: the handler, the charts management effect,
    the auto-save effect. *)
Definition edit (value : string) (now : Z) (st : state) (w : world) : outcome state :=
  let (st1, w1) := onCodeInput value now st w in
  saveContent now st1 w1.

End Rendering.

Definition fire (tm : Timers.timer) (st : state) : state :=
  setCells (FileList.fire tm (cells st)) st.

(** Time passes to [now]: the timers due run. *)
Definition elapse (now : Z) (st : state) (w : world) : state * world :=
  let (due, rest) := Timers.due_at now (timers w) in
  (fold_left (fun s tm => fire tm s) due st, set_timers rest w).

(** The template literal [defaultContent]; its [\\n] is a backslash
    and an [n], an escape of the JSON text. *)
Definition defaultContent : string := dq
"[
  {
    'kind': 'chart',
    'data': {
      'xAxis': {},
      'yAxis': {},
      'series': [{
        'symbolSize': 20,
        'data': [[10.0, 8.04], [8.07, 6.95]],
        'type': 'scatter'
      }]
    }
  },
  {
    'kind': 'markdown',
    'data': {
      'text': '## Analysis\nThis scatter plot shows...'
    }
  }
]".

Definition lift (o : outcome FileList.state) (st : state) : outcome state :=
  {| state_of := setCells (state_of o) st; world_of := world_of o; thrown := thrown o |}.

Definition handleNewFile (now : Z) (st : state) (w : world) : outcome state :=
  lift (FileList.handleNewFile BASE_STORAGE_KEY defaultContent Files.by_lastModified
          now (cells st) w) st.

Definition handleFileClick (selectedFile : Files.file) (now : Z) (st : state) (w : world)
  : option (outcome state) :=
  option_map (fun o => lift o st)
    (FileList.handleFileClick BASE_STORAGE_KEY defaultContent selectedFile now (cells st) w).

Definition handleDeleteFile (confirm : bool) (fileToDelete : Files.file) (now : Z)
    (st : state) (w : world) : outcome state :=
  lift (FileList.handleDeleteFile BASE_STORAGE_KEY defaultContent Files.by_lastModified
          confirm fileToDelete now (cells st) w) st.

(** The render that follows a handler: the charts management effect
    runs again when [codeInput] changed, then the auto-save effect when
    [codeInput] or [filename] changed. *)
Definition rerender (now : Z) (before : state) (o : outcome state) : outcome state :=
  let textSame := (codeInput (state_of o) =? codeInput before)%string in
  let nameSame := (FileList.filename (cells (state_of o))
                   =? FileList.filename (cells before))%string in
  let r := if textSame then (state_of o, world_of o)
           else chartsEffect (state_of o) (world_of o) in
  if (nameSame && textSame)%bool
  then {| state_of := fst r; world_of := snd r; thrown := thrown o |}
  else saveContent now (fst r) (snd r).

(** The events of the file panel and of the filename field at time
    [now], each with the render that follows. *)
Definition onNewFile (now : Z) (st : state) (w : world) : outcome state :=
  rerender now st (handleNewFile now st w).

Definition onFileClick (selectedFile : Files.file) (now : Z) (st : state) (w : world)
  : option (outcome state) :=
  option_map (rerender now st) (handleFileClick selectedFile now st w).

Definition onDeleteFile (confirm : bool) (fileToDelete : Files.file) (now : Z)
    (st : state) (w : world) : outcome state :=
  rerender now st (handleDeleteFile confirm fileToDelete now st w).

Definition onFilenameChange (value : string) (now : Z) (st : state) (w : world)
  : outcome state :=
  rerender now st (handleFilenameChange value now st w).

(** Mounting at time [now]: the first render, with no block, no error
    and no chart; the effect that runs on mount, [loadSavedFiles()]; the
    charts management effect; the auto-save effect.  [None] where the
    first render has no string for the text cell. *)
Definition mount (now : Z) (w : world) : option (outcome state) :=
  match FileList.initialState BASE_STORAGE_KEY defaultContent (storage w) now with
  | Some c =>
      let st := {| cells := c; contentList := Array []; parseError := ""; charts := [] |} in
      let o := lift (FileList.listFiles BASE_STORAGE_KEY Files.by_lastModified now c w) st in
      Some match thrown o with
           | Some _ => o
           | None =>
               let (st1, w1) := chartsEffect (state_of o) (world_of o) in
               saveContent now st1 w1
           end
  | None => None
  end.

End MultiContentEditor.

(** ** The auto-save interval of the markdown and of the chart editor *)

Module AutoSave.

Inductive event : Type :=
| Act (a : FileList.action)   (* the user does something *)
| Fire                        (* the interval fires *)
| Elapse.                     (* the timeouts due run *)

Section Session.

(** An editor: its cells, those of the file list among them, and its
    events. *)
Variable S : Type.
Variable cells : S -> FileList.state.
Variable setCells : FileList.state -> S -> S.
Variable act : FileList.action -> Z -> S -> world -> option (outcome S).
Variable BASE_STORAGE_KEY : string.

(** A mounted editor.  [interval] is the time of the call of
    [setInterval] that is in force, [clock] the time of the last
    event. *)
Record session : Type := { editor : S; env : world; interval : Z; clock : Z }.

(** The auto-save effect,
    [useEffect(..., [text, filename, lastEditTime])], in the render
    that follows an event at time [now]: when one of the three changed,
    the clean-up clears the interval and the body sets a new one. *)
Definition autoSaveEffect (now : Z) (before after : FileList.state) (interval : Z) : Z :=
  if ((FileList.codeInput after =? FileList.codeInput before)%string
      && (FileList.filename after =? FileList.filename before)%string
      && (FileList.lastEditTime after =? FileList.lastEditTime before))%bool
  then interval
  else now.

(** An interval set at time [interval] fires every 30000 ms from then
    on, each time no earlier than it is due: a firing takes place
    30000 ms after the interval was set or later. *)
Definition can_fire (interval now : Z) : bool := interval + 30000 <=? now.

(** An event at time [now].  Time does not run backwards, the interval
    does not fire before it is due, and a click that puts a value other
    than a string in the text cell is outside the model: [None].  The
    callback of the interval closes over the cells of the render that
    set it, which are the current ones, since the effect runs again
    when one of them changes.  An exception that leaves an effect
    unmounts the editor and clears the interval; a session goes on
    after it, which only adds events. *)
Definition step (e : event) (now : Z) (s : session) : option session :=
  if now <? clock s then None
  else match e with
       | Act a =>
           match act a now (editor s) (env s) with
           | Some o =>
               Some {| editor := state_of o; env := world_of o;
                       interval := autoSaveEffect now (cells (editor s))
                                     (cells (state_of o)) (interval s);
                       clock := now |}
           | None => None
           end
       | Fire =>
           if can_fire (interval s) now then
             let (c, w) := FileList.autoSave BASE_STORAGE_KEY now (cells (editor s)) (env s) in
             Some {| editor := setCells c (editor s); env := w;
                     interval := interval s; clock := now |}
           else None
       | Elapse =>
           let (c, w) := FileList.elapse now (cells (editor s)) (env s) in
           Some {| editor := setCells c (editor s); env := w;
                   interval := interval s; clock := now |}
       end.

Fixpoint run (events : list (Z * event)) (s : session) : option session :=
  match events with
  | [] => Some s
  | (now, e) :: rest =>
      match step e now s with
      | Some s' => run rest s'
      | None => None
      end
  end.

(** The session of an editor that mounted at time [now]: the first
    render took [lastEditTime] from the clock, and the auto-save effect
    set the interval. *)
Definition mounted (now : Z) (o : outcome S) : session :=
  {| editor := state_of o; env := world_of o; interval := now; clock := now |}.

End Session.

Arguments editor {S} s.
Arguments env {S} s.
Arguments interval {S} s.
Arguments clock {S} s.
Arguments mounted {S} now o.

End AutoSave.

(** ** Vocabulary of the statements *)

(** The lexer's mode and the tokens emitted after a stretch of input. *)
Fixpoint scan (m : JSON.mode) (s : string) : result (JSON.mode * list JSON.token) :=
  match s with
  | EmptyString => Ok (m, [])
  | String c s' =>
      r <- JSON.lex_step m c ;;
      r' <- scan (fst r) s' ;;
      Ok (fst r', (snd r ++ snd r')%list)
  end.

(** The value the stored record parses back to. *)
Definition content_value (c : JSON.content) : JS.value :=
  JS.Object [("text", JS.Str (JSON.text c));
             ("lastModified", JS.Number (inject_Z (JSON.lastModified c)))].

(** A decimal numeral that starts with a digit other than zero. *)
Definition leading_digit (d : Decimal.uint) : Prop :=
  match d with
  | Decimal.Nil | Decimal.D0 _ => False
  | _ => True
  end.

(** The text of the document stored under a key: absent, unreadable or
    the value of its [text] property. *)
Definition stored_text (s : Storage.t) (key : string) : option (result JS.value) :=
  option_map (fun payload => parsed <- JSON.parse payload ;; JS.get parsed "text")
             (Storage.getItem s key).

(** ** States of the examples *)

Definition world_with (s : Storage.t) : world :=
  {| storage := s; timers := Timers.empty; registry := ECharts.empty; frames := [];
     document := DOM.empty |}.

Definition plain_draft : PlainMarkdownEditor.state :=
  {| PlainMarkdownEditor.filename := "draft";
     PlainMarkdownEditor.markdown := "# Hi";
     PlainMarkdownEditor.saveStatus := "";
     PlainMarkdownEditor.cleanup := None |}.

Definition plain_world : world :=
  world_with [("markdown-editor-content-draft", "# Hi");
              ("markdown-editor-content-last-filename", "draft")].

Definition cells_of (name text : string) : FileList.state :=
  {| FileList.filename := name;
     FileList.codeInput := text;
     FileList.saveStatus := "";
     FileList.savedFiles := [];
     FileList.lastEditTime := 0 |}.

(** The multi-content editor as it mounts on a text. *)
Definition multi_on (name text : string) : MultiContentEditor.state :=
  {| MultiContentEditor.cells := cells_of name text;
     MultiContentEditor.contentList := JS.Array [];
     MultiContentEditor.parseError := "";
     MultiContentEditor.charts := [] |}.

Definition multi_world : world :=
  world_with [("multi-content-editor-draft",
               JSON.stringify {| JSON.text := "[]"; JSON.lastModified := 5 |});
              ("multi-content-editor-last-filename", "draft")].

(** The test of [loadSavedFiles] on a key. *)
Definition listed (base key : string) : bool :=
  (JS.startsWith key base && negb (JS.endsWith key "last-filename"))%bool.

(** A file whose [lastModified] is a number. *)
Definition numeric (f : Files.file) : Prop :=
  exists q, Files.lastModified f = JS.Number q.

(** [a] was modified no earlier than [b]. *)
Definition not_older (a b : Files.file) : Prop :=
  exists x y, Files.lastModified a = JS.Number x /\
              Files.lastModified b = JS.Number y /\ (y <= x)%Q.

(** Most recent first. *)
Definition descending (l : list Files.file) : Prop := StronglySorted not_older l.

Definition names (r : result (list Files.file)) : result (list string) :=
  files <- r ;; Ok (map Files.name files).

(** Storage left by the plain-text editor, whose prefix the file-list
    markdown editor shares. *)
Definition legacy_storage : Storage.t :=
  [("markdown-editor-content-untitled", "+++ Hello");
   ("markdown-editor-content-last-filename", "untitled")].

(** Three documents [x], [y], [z] stored in this order at the times
    [t1], [t2], [t3]. *)
Definition three_documents (base : string) (t1 t2 t3 : Z) : Storage.t :=
  FileList.put base "z" "c" t3
    (FileList.put base "y" "b" t2
       (FileList.put base "x" "a" t1 [])).

(** A block record as the specification words it: a record that
    carries a [kind] and a [data] payload. *)
Definition is_block_record (v : JS.value) : bool :=
  match v with
  | JS.Object members =>
      (existsb (fun m => (fst m =? "kind")%string) members
       && existsb (fun m => (fst m =? "data")%string) members)%bool
  | _ => false
  end.

(** A well-formed list of block records, in the same words. *)
Definition is_block_list (v : JS.value) : bool :=
  match v with
  | JS.Array items => forallb is_block_record items
  | _ => false
  end.

(** A block of a kind no renderer knows. *)
Definition video_block : JS.value :=
  JS.Object [("kind", JS.Str "video"); ("data", JS.Object [])].

(** The identity in place of [md.render], and a chart library that
    accepts every option set. *)
Definition md_plain (src : string) : string := src.
Definition accepts_all (data : JS.value) : bool := false.

(** A reading of the markup that finds no id of the form [chart-k]. *)
Definition no_ids (html : string) : list nat := [].

(** Two edits 1500 ms apart, then the clock at 2000 ms, in the
    multi-content editor, in the file-list markdown editor and in the
    plain-text editor. *)
Definition multi_after_first_edit : outcome MultiContentEditor.state :=
  MultiContentEditor.edit "[1]" 0 (multi_on "draft" "[]") multi_world.

Definition multi_after_second_edit : outcome MultiContentEditor.state :=
  MultiContentEditor.edit "[2]" 1500
    (state_of multi_after_first_edit) (world_of multi_after_first_edit).

Definition multi_at_2000 : MultiContentEditor.state * world :=
  MultiContentEditor.elapse 2000
    (state_of multi_after_second_edit) (world_of multi_after_second_edit).

Definition markdown_after_first_edit : outcome FileList.state :=
  MarkdownEditor.edit "a" 0 (cells_of "draft" "") (world_with []).

Definition markdown_after_second_edit : outcome FileList.state :=
  MarkdownEditor.edit "ab" 1500
    (state_of markdown_after_first_edit) (world_of markdown_after_first_edit).

Definition markdown_at_2000 : FileList.state * world :=
  MarkdownEditor.elapse 2000
    (state_of markdown_after_second_edit) (world_of markdown_after_second_edit).

Definition plain_after_second_edit : PlainMarkdownEditor.state * world :=
  let (st1, w1) := PlainMarkdownEditor.edit "a" 0 plain_draft plain_world in
  PlainMarkdownEditor.edit "ab" 1500 st1 w1.

Definition plain_at_2000 : PlainMarkdownEditor.state * world :=
  PlainMarkdownEditor.elapse 2000 (fst plain_after_second_edit) (snd plain_after_second_edit).

Definition clear_timer (i : nat) (d : Z) : Timers.timer :=
  {| Timers.id := i; Timers.due := d; Timers.run := Timers.ClearSaveStatus |}.

(** ** Vocabulary of the render pass *)

(** A block the editor mounts a chart for. *)
Definition is_chart (item : JS.value) : bool :=
  JS.is_string (JS.get_opt item "kind") "chart".

(** The positions of the chart blocks, counted from [index]. *)
Fixpoint chart_indices_from (index : nat) (items : list JS.value) : list nat :=
  match items with
  | [] => []
  | item :: rest =>
      if is_chart item then index :: chart_indices_from (S index) rest
      else chart_indices_from (S index) rest
  end.

Definition chart_indices (items : list JS.value) : list nat :=
  chart_indices_from 0 items.


(** The instances of a live set were all made by one deferred callback:
    none made by an earlier one is still live beside a later one. *)
Definition homogeneous (snap : list ECharts.instance) : bool :=
  forallb (fun i => forallb (fun j => (ECharts.pass i =? ECharts.pass j)%nat) snap) snap.

(** No two instances of a live set are bound to one container. *)
Definition one_per_container (snap : list ECharts.instance) : Prop :=
  NoDup (map ECharts.dom snap).

(** A live set with one instance per container, all of one callback. *)
Definition good (snap : list ECharts.instance) : Prop :=
  homogeneous snap = true /\ one_per_container snap.

(** The live sets recorded between two states of the registry. *)
Definition new_snapshots (before after : ECharts.registry) : list (list ECharts.instance) :=
  skipn (List.length (ECharts.trace before)) (ECharts.trace after).



(** The container of the block at a position: the inner [div] of its
    box. *)
Definition container (d : DOM.t) (position : nat) : option DOM.node :=
  option_map (fun s => DOM.Inner (DOM.inner s)) (nth_error (DOM.slots d) position).


(** What C2 claims of the render pass that a text parsing to the list
    [items] starts in the state [st], [w]. *)
Definition pass_invariants (md_render : string -> string) (setOption_throws : JS.value -> bool)
    (ids_of_markup : string -> list nat)
    (value : string) (now : Z) (st : MultiContentEditor.state) (w : world)
    (items : list JS.value) : Prop :=
  let r := MultiContentEditor.render_pass md_render setOption_throws ids_of_markup
             value now st w in
  let snaps := new_snapshots (registry w) (registry (snd r)) in
  forallb homogeneous snaps = true /\
  map (fun i => Some (ECharts.dom i)) (ECharts.live (registry (snd r)))
  = map (container (document (snd r))) (chart_indices items) /\
  Forall one_per_container snaps.

(** Two chart blocks, in three texts that differ in their data. *)
Definition two_charts (n : string) : string :=
  JS.dq ("[{'kind':'chart','data':{'n':" ++ n ++ "}},{'kind':'chart','data':{'n':" ++ n ++ "}}]").


(** The editor mounts on the first text and the frame runs; the text
    then changes before the next frame. *)
Definition after_mount : MultiContentEditor.state * world :=
  MultiContentEditor.render_pass md_plain accepts_all no_ids (two_charts "0") 0
    (multi_on "draft" "") (world_with []).

Definition after_quick_edit : MultiContentEditor.state * world :=
  MultiContentEditor.onCodeInput (two_charts "1") 1 (fst after_mount) (snd after_mount).

Definition heading_block : JS.value :=
  JS.Object [("kind", JS.Str "markdown"); ("data", JS.Object [("text", JS.Str "# Hi")])].

Definition empty_chart_block : JS.value :=
  JS.Object [("kind", JS.Str "chart"); ("data", JS.Object [])].

(** A block whose kind is an object. *)
Definition object_kind_block : JS.value :=
  JS.Object [("kind", JS.Object [])].

(** ** Vocabulary of the remaining handlers *)

(** Every pending timer is the one the clean-up of the plain-text
    editor's effect clears. *)
Definition tracked (st : PlainMarkdownEditor.state) (w : world) : Prop :=
  forall tm, In tm (Timers.pending (timers w)) ->
             PlainMarkdownEditor.cleanup st = Some (Timers.id tm).

(** The string [loadSavedFiles] parses for a key. *)
Definition payload (s : Storage.t) (key : string) : string :=
  match Storage.getItem s key with Some c => c | None => "null" end.

(** The time [loadSavedFiles] lists for a key at time [now]. *)
Definition listed_time (s : Storage.t) (now : Z) (key : string) : JS.value :=
  match JSON.parse (payload s key) with
  | Ok parsed => JS.or_else (JS.get_opt parsed "lastModified") (JS.Number (inject_Z now))
  | Throw _ => JS.Undefined
  end.

(** A value the subtraction of the comparator converts to a number. *)
Definition convertible (v : JS.value) : bool :=
  match JS.to_number v with
  | JS.Abrupt _ => false
  | _ => true
  end.

(** The name [loadSavedFiles] shows for a key. *)
Definition shown_name (base key : string) : string := JS.replace (base ++ "-") "" key.

(** The text of the markdown block of the default content. *)
Definition default_analysis : string :=
  "## Analysis" ++ String (ascii_of_nat 10) "This scatter plot shows...".

(** A chart library that refuses every option set. *)
Definition refuses_all (data : JS.value) : bool := true.

(** The entry of the file panel for a document [notes], and the storage
    of the examples with a payload under the key of that document. *)
Definition notes_file : Files.file :=
  {| Files.name := "notes"; Files.lastModified := JS.Number (inject_Z 5) |}.

Definition draft_file : Files.file :=
  {| Files.name := "draft"; Files.lastModified := JS.Number (inject_Z 5) |}.

Definition multi_world_with_notes (stored : string) : world :=
  world_with (Storage.setItem (storage multi_world) "multi-content-editor-notes" stored).

(** ** Vocabulary of the key spaces *)

(** The key prefixes of the three editors the application routes to. *)
Definition editor_prefixes : list string :=
  [MarkdownEditor.BASE_STORAGE_KEY; EChartsEditor.BASE_STORAGE_KEY;
   MultiContentEditor.BASE_STORAGE_KEY].

(** The keys that start with [base] are stored in [s'] as in [s], in
    the same order. *)
Definition unseen (base : string) (s s' : Storage.t) : Prop :=
  filter (fun k => JS.startsWith k base) (Storage.keys s')
  = filter (fun k => JS.startsWith k base) (Storage.keys s) /\
  forall k, JS.startsWith k base = true -> Storage.getItem s' k = Storage.getItem s k.

(** An editor with the prefix [base] lists and loads from [s'] what it
    lists and loads from [s]. *)
Definition same_documents (base : string) (s s' : Storage.t) : Prop :=
  (forall compare now,
      FileList.loadSavedFiles base compare s' now
      = FileList.loadSavedFiles base compare s now) /\
  FileList.initialFilename base s' = FileList.initialFilename base s /\
  (forall default name,
      FileList.initialContent base default s' name
      = FileList.initialContent base default s name).

(** ** Vocabulary of the elements of the preview *)

(** The inner [div] of a box shows what the render put there. *)
Definition shows_as (e : MultiContentEditor.element) (s : DOM.slot) : Prop :=
  match e with
  | MultiContentEditor.ChartContainer _ => DOM.shows s = DOM.Chart
  | MultiContentEditor.Prose html => exists serial, DOM.shows s = DOM.Markup html serial
  | MultiContentEditor.UnknownType _ _ => DOM.shows s = DOM.Marker
  end.

(** A markdown block whose text is markup: an element with the id
    [chart-1].  The reading of that markup, and a text with this block
    ahead of a chart block. *)
Definition decoy_markup : string := "<div id=chart-1></div>".

Definition decoy_block : JS.value :=
  JS.Object [("kind", JS.Str "markdown");
             ("data", JS.Object [("text", JS.Str decoy_markup)])].

Definition decoy_ids (html : string) : list nat :=
  if (html =? decoy_markup)%string then [1%nat] else [].

Definition decoy_text : string :=
  JS.dq ("[{'kind':'markdown','data':{'text':'" ++ decoy_markup
         ++ "'}},{'kind':'chart','data':{}}]").

(** ** Vocabulary of the auto-save interval *)

(** The interval in force was set no earlier than the last edit, and no
    later than the last event. *)
Definition set_since_edit {S : Type} (cells : S -> FileList.state)
    (s : AutoSave.session S) : Prop :=
  FileList.lastEditTime (cells (AutoSave.editor s)) <= AutoSave.interval s
  /\ AutoSave.interval s <= AutoSave.clock s.

(** The sessions of the two editors that set the interval. *)
Definition markdown_step : AutoSave.event -> Z -> AutoSave.session FileList.state
                           -> option (AutoSave.session FileList.state) :=
  AutoSave.step FileList.state (fun c => c) (fun c _ => c) MarkdownEditor.act
    MarkdownEditor.BASE_STORAGE_KEY.

Definition markdown_run : list (Z * AutoSave.event) -> AutoSave.session FileList.state
                          -> option (AutoSave.session FileList.state) :=
  AutoSave.run FileList.state (fun c => c) (fun c _ => c) MarkdownEditor.act
    MarkdownEditor.BASE_STORAGE_KEY.

Definition chart_step (evaluate : string -> world -> option exn * world)
  : AutoSave.event -> Z -> AutoSave.session EChartsEditor.state
    -> option (AutoSave.session EChartsEditor.state) :=
  AutoSave.step EChartsEditor.state EChartsEditor.cells EChartsEditor.setCells
    (EChartsEditor.act evaluate) EChartsEditor.BASE_STORAGE_KEY.

Definition chart_run (evaluate : string -> world -> option exn * world)
  : list (Z * AutoSave.event) -> AutoSave.session EChartsEditor.state
    -> option (AutoSave.session EChartsEditor.state) :=
  AutoSave.run EChartsEditor.state EChartsEditor.cells EChartsEditor.setCells
    (EChartsEditor.act evaluate) EChartsEditor.BASE_STORAGE_KEY.

(** The markdown editor mounted at time 0 on an empty storage, and the
    text changed to [x] at 20000 ms. *)
Definition markdown_mounted : option (AutoSave.session FileList.state) :=
  option_map (AutoSave.mounted 0) (MarkdownEditor.mount 0 (world_with [])).

Definition markdown_edited_at_20000 : option (AutoSave.session FileList.state) :=
  match markdown_mounted with
  | Some s => markdown_step (AutoSave.Act (FileList.Edit "x")) 20000 s
  | None => None
  end.

(** Code that throws, and leaves the browser as it is. *)
Definition evaluate_throws (text : string) (w : world) : option exn * world :=
  (Some (SyntaxError "Unexpected token"), w).

(** ** Vocabulary of the editors' events *)

(** Running a text as code leaves the storage as it is. *)
Definition leaves_storage (evaluate : string -> world -> option exn * world)
    (text : string) : Prop :=
  forall w, storage (snd (evaluate text w)) = storage w.

(** An event of an editor leaves the cells of the file list and the
    storage that the shared code leaves. *)
Definition same_files {S : Type} (cells : S -> FileList.state)
    (o : outcome S) (shared : outcome FileList.state) : Prop :=
  cells (state_of o) = state_of shared /\
  storage (world_of o) = storage (world_of shared).

(** A mount from the storage [s] starts with the name and the text of
    the cells [c], the default text where that text is empty. *)
Definition reloads (base default : string) (c : FileList.state) (s : Storage.t) : Prop :=
  FileList.initialFilename base s = FileList.filename c /\
  FileList.initialContent base default s (FileList.filename c)
  = JS.Str (if (FileList.codeInput c =? "")%string then default else FileList.codeInput c).

(** A mount from the storage [s'] starts with the name and the text a
    mount from [s] starts with. *)
Definition restarts (base default : string) (s s' : Storage.t) : Prop :=
  FileList.initialFilename base s' = FileList.initialFilename base s /\
  FileList.initialContent base default s' (FileList.initialFilename base s')
  = FileList.initialContent base default s (FileList.initialFilename base s).

(** The document [name] is open with the text [shown], edited and
    stored at time [now], and is the last-used name. *)
Definition opened (base name shown : string) (now : Z)
    (c : FileList.state) (s : Storage.t) : Prop :=
  FileList.filename c = name /\
  FileList.codeInput c = shown /\
  FileList.lastEditTime c = now /\
  Storage.getItem s (FileList.storage_key base name)
  = Some (JSON.stringify {| JSON.text := shown; JSON.lastModified := now |}) /\
  FileList.initialFilename base s = name.

(** Code that leaves the browser as it is. *)
Definition evaluate_quietly (text : string) (w : world) : option exn * world := (None, w).

(** Code that empties the storage. *)
Definition evaluate_clearing (text : string) (w : world) : option exn * world :=
  (None, set_storage [] w).

Definition chart_on (name text : string) : EChartsEditor.state :=
  {| EChartsEditor.cells := cells_of name text; EChartsEditor.parseError := "" |}.

(** The document [name] is open with the text [text], which is stored
    under its key with the time [now]. *)
Definition shown_and_stored (base name text : string) (now : Z)
    (c : FileList.state) (s : Storage.t) : Prop :=
  FileList.filename c = name /\
  FileList.codeInput c = text /\
  Storage.getItem s (FileList.storage_key base name)
  = Some (JSON.stringify {| JSON.text := text; JSON.lastModified := now |}).

(** After the name went from [a] through [b] to [c]: the open
    document is [c] and holds the text, and nothing is stored under
    the key of [b]. *)
Definition passed_through (base b c text : string)
    (cells : FileList.state) (s : Storage.t) : Prop :=
  FileList.filename cells = c /\
  Storage.getItem s (FileList.storage_key base b) = None /\
  stored_text s (FileList.storage_key base c) = Some (Ok (JS.Str text)).

(* ================================================================== *)
(** * Part II: properties                                              *)
(* ================================================================== *)

(** ** [JSON.parse] reads back what [JSON.stringify] wrote *)

Lemma bind_ok {A B : Type} (a : A) (k : A -> result B) : bind (Ok a) k = k a.
Proof. reflexivity. Qed.

Lemma scan_app (s1 s2 : string) : forall m m' ts,
  scan m s1 = Ok (m', ts) ->
  JSON.lex m (s1 ++ s2) = (rest <- JSON.lex m' s2 ;; Ok (ts ++ rest)%list).
Proof.
  induction s1 as [|c s1 IH]; intros m m' ts H; simpl in *.
  - inversion H; subst. destruct (JSON.lex m' s2); reflexivity.
  - destruct (JSON.lex_step m c) as [[m1 t1]|e]; simpl in *; [|discriminate].
    destruct (scan m1 s1) as [[m2 t2]|e] eqn:E; simpl in *; [|discriminate].
    inversion H; subst. rewrite (IH _ _ _ E).
    destruct (JSON.lex m' s2); simpl; [|reflexivity].
    now rewrite app_assoc.
Qed.

Lemma scan_scan (s1 s2 : string) : forall m m1 t1 m2 t2,
  scan m s1 = Ok (m1, t1) -> scan m1 s2 = Ok (m2, t2) ->
  scan m (s1 ++ s2) = Ok (m2, (t1 ++ t2)%list).
Proof.
  induction s1 as [|c s1 IH]; intros m m1 t1 m2 t2 H1 H2; simpl in *.
  - inversion H1; subst. exact H2.
  - destruct (JSON.lex_step m c) as [[ma ta]|e]; simpl in *; [|discriminate].
    destruct (scan ma s1) as [[mb tb]|e] eqn:E; simpl in *; [|discriminate].
    inversion H1; subst. rewrite (IH _ _ _ _ _ E H2). simpl.
    now rewrite app_assoc.
Qed.

Lemma snoc_app (acc s : string) (c : ascii) :
  (JSON.snoc acc c ++ s = acc ++ String c s)%string.
Proof. unfold JSON.snoc. induction acc; simpl; congruence. Qed.

Lemma append_nil_r (s : string) : (s ++ "" = s)%string.
Proof. induction s; simpl; congruence. Qed.

Lemma append_assoc (a b c : string) : ((a ++ b) ++ c = a ++ (b ++ c))%string.
Proof. induction a; simpl; congruence. Qed.

(** One character of a string, quoted and read back. *)
Lemma scan_quote_char (c : ascii) (acc : string) :
  scan (JSON.LString acc) (JSON.quote_char c) = Ok (JSON.LString (JSON.snoc acc c), []).
Proof.
  destruct c as [[] [] [] [] [] [] [] []]; reflexivity.
Qed.

Lemma scan_quote_chars (s : string) : forall acc,
  scan (JSON.LString acc) (JSON.quote_chars s) = Ok (JSON.LString (acc ++ s), []).
Proof.
  induction s as [|c s IH]; intros acc; simpl.
  - now rewrite append_nil_r.
  - rewrite (scan_scan _ _ _ _ _ _ _ (scan_quote_char c acc) (IH _)).
    now rewrite snoc_app.
Qed.

Lemma scan_quote (s : string) :
  scan JSON.LNormal (JSON.quote s) = Ok (JSON.LNormal, [JSON.TStr s]).
Proof.
  unfold JSON.quote. cbn [scan].
  change (JSON.lex_step JSON.LNormal JS.dquote)
    with (@Ok (JSON.mode * list JSON.token) (JSON.LString "", [])).
  rewrite bind_ok. cbn [fst snd].
  rewrite (scan_scan _ _ _ _ _ _ _ (scan_quote_chars s "")
             (eq_refl : scan (JSON.LString ("" ++ s)) (String JS.dquote "")
                        = Ok (JSON.LNormal, [JSON.TStr s]))).
  reflexivity.
Qed.

(** The decimal form of an integer, read back. *)

Lemma nzhead_not_D0 (d x : Decimal.uint) : Decimal.nzhead d <> Decimal.D0 x.
Proof. induction d; simpl; try discriminate; assumption. Qed.

Lemma to_uint_leading_digit (p : positive) : leading_digit (Pos.to_uint p).
Proof.
  assert (N : Decimal.unorm (Pos.to_uint p) = Pos.to_uint p).
  { rewrite <- (DecimalPos.Unsigned.to_of (Pos.to_uint p)).
    now rewrite DecimalPos.Unsigned.of_to. }
  pose proof (DecimalPos.Unsigned.to_uint_nonzero p) as NZ.
  destruct (Pos.to_uint p) as [|d| | | | | | | | | ]; simpl; auto.
  rewrite DecimalFacts.unorm_D0 in N. unfold Decimal.unorm in N.
  destruct (Decimal.nzhead d) eqn:E;
    try (rewrite <- E in N; exact (nzhead_not_D0 _ _ N)).
  apply NZ. now injection N as <-.
Qed.

Lemma span_digits_uint (d : Decimal.uint) :
  JSON.span_digits (NilEmpty.string_of_uint d) = (NilEmpty.string_of_uint d, "").
Proof. induction d; simpl; try rewrite IHd; reflexivity. Qed.

Lemma scan_digits (d : Decimal.uint) : forall lit,
  scan (JSON.LNumber lit) (NilEmpty.string_of_uint d)
  = Ok (JSON.LNumber (lit ++ NilEmpty.string_of_uint d), []).
Proof.
  induction d; intros lit; cbn [NilEmpty.string_of_uint scan];
    try (change (JSON.lex_step (JSON.LNumber lit) ?c)
           with (@Ok (JSON.mode * list JSON.token) (JSON.LNumber (JSON.snoc lit c), []));
         rewrite bind_ok; cbn [fst snd]; rewrite IHd; simpl; now rewrite snoc_app).
  now rewrite append_nil_r.
Qed.

Lemma digits_value_uint (d : Decimal.uint) :
  d <> Decimal.Nil ->
  JSON.digits_value (NilEmpty.string_of_uint d) = Some (N.of_uint d).
Proof.
  intros H. unfold JSON.digits_value. rewrite NilEmpty.usu.
  destruct d; try reflexivity. now elim H.
Qed.

Lemma number_of_literal_uint (d : Decimal.uint) :
  leading_digit d ->
  JSON.number_of_literal (NilEmpty.string_of_uint d) = Some (inject_Z (Z.of_N (N.of_uint d)))
  /\ JSON.number_of_literal (String "-" (NilEmpty.string_of_uint d))
     = Some (inject_Z (- Z.of_N (N.of_uint d))).
Proof.
  intros L.
  assert (NN : d <> Decimal.Nil) by (destruct d; simpl in L; try discriminate; tauto).
  pose proof (digits_value_uint d NN) as DV.
  pose proof (span_digits_uint d) as SD.
  split.
  - unfold JSON.number_of_literal.
    destruct d; simpl in L; try tauto;
      cbn [NilEmpty.string_of_uint] in *; rewrite SD; cbn [JSON.int_part_ok negb];
      rewrite DV; reflexivity.
  - unfold JSON.number_of_literal. rewrite SD.
    destruct d; simpl in L; try tauto;
      cbn [NilEmpty.string_of_uint] in *; cbn [JSON.int_part_ok negb];
      rewrite DV; reflexivity.
Qed.

Lemma number_of_literal_Z (z : Z) :
  JSON.number_of_literal (JSON.string_of_Z z) = Some (inject_Z z).
Proof.
  unfold JSON.string_of_Z. destruct z as [|p|p]; [reflexivity| |].
  - pose proof (to_uint_leading_digit p) as L.
    destruct (number_of_literal_uint _ L) as [H _].
    simpl. unfold NilZero.string_of_uint.
    destruct (Pos.to_uint p) eqn:E; simpl in L; try tauto;
      rewrite H; rewrite <- E; unfold N.of_uint;
      rewrite DecimalPos.Unsigned.of_to; reflexivity.
  - pose proof (to_uint_leading_digit p) as L.
    destruct (number_of_literal_uint _ L) as [_ H].
    simpl. unfold NilZero.string_of_uint.
    destruct (Pos.to_uint p) eqn:E; simpl in L; try tauto;
      rewrite H; rewrite <- E; unfold N.of_uint;
      rewrite DecimalPos.Unsigned.of_to; reflexivity.
Qed.

Ltac step_lexer :=
  match goal with
  | |- context [JSON.lex_step ?m ?c] =>
      let v := eval vm_compute in (JSON.lex_step m c) in
      change (JSON.lex_step m c) with v; rewrite bind_ok; cbn [fst snd]
  end.

Lemma scan_number_Z (z : Z) :
  scan JSON.LNormal (JSON.string_of_Z z) = Ok (JSON.LNumber (JSON.string_of_Z z), []).
Proof.
  unfold JSON.string_of_Z. destruct z as [|p|p]; [reflexivity| |].
  - pose proof (to_uint_leading_digit p) as L. simpl.
    unfold NilZero.string_of_uint.
    destruct (Pos.to_uint p) eqn:E; simpl in L; try tauto;
      cbn [NilEmpty.string_of_uint scan]; step_lexer;
      rewrite scan_digits; reflexivity.
  - pose proof (to_uint_leading_digit p) as L. simpl.
    unfold NilZero.string_of_uint.
    destruct (Pos.to_uint p) eqn:E; simpl in L; try tauto;
      rewrite scan_digits; reflexivity.
Qed.

Lemma lex_stringify (c : JSON.content) :
  JSON.lex JSON.LNormal (JSON.stringify c)
  = Ok [JSON.TLBrace; JSON.TStr "text"; JSON.TColon; JSON.TStr (JSON.text c);
        JSON.TComma; JSON.TStr "lastModified"; JSON.TColon;
        JSON.TNum (inject_Z (JSON.lastModified c)); JSON.TRBrace].
Proof.
  unfold JSON.stringify.
  assert (S1 : scan JSON.LNormal (JS.dq "{'text':")
               = Ok (JSON.LNormal, [JSON.TLBrace; JSON.TStr "text"; JSON.TColon]))
    by reflexivity.
  assert (S3 : scan JSON.LNormal (JS.dq ",'lastModified':")
               = Ok (JSON.LNormal, [JSON.TComma; JSON.TStr "lastModified"; JSON.TColon]))
    by reflexivity.
  pose proof (scan_scan _ _ _ _ _ _ _ S3 (scan_number_Z (JSON.lastModified c))) as S34.
  pose proof (scan_scan _ _ _ _ _ _ _ (scan_quote (JSON.text c)) S34) as S234.
  pose proof (scan_scan _ _ _ _ _ _ _ S1 S234) as S.
  rewrite <- !append_assoc in S.
  rewrite <- !append_assoc.
  rewrite (scan_app _ "}" _ _ _ S).
  cbn [JSON.lex]. unfold JSON.lex_step.
  change (JSON.is_number_char "}") with false. cbv iota.
  rewrite number_of_literal_Z. reflexivity.
Qed.

(** What the editors store parses back to the record stored. *)
Lemma parse_stringify (c : JSON.content) :
  JSON.parse (JSON.stringify c) = Ok (content_value c).
Proof.
  unfold JSON.parse. rewrite lex_stringify. reflexivity.
Qed.

(** ** [localStorage] as a map *)

Lemma getItem_setItem_same (s : Storage.t) (k v : string) :
  Storage.getItem (Storage.setItem s k v) k = Some v.
Proof.
  induction s as [|[k' v'] s IH]; simpl.
  - now rewrite String.eqb_refl.
  - destruct (k' =? k)%string eqn:E; simpl.
    + now rewrite String.eqb_refl.
    + now rewrite E.
Qed.

Lemma getItem_setItem_other (s : Storage.t) (k k' v : string) :
  k' <> k -> Storage.getItem (Storage.setItem s k v) k' = Storage.getItem s k'.
Proof.
  intros N. induction s as [|[k0 v0] s IH]; simpl.
  - apply String.eqb_neq in N. now rewrite String.eqb_sym, N.
  - destruct (k0 =? k)%string eqn:E; simpl.
    + apply String.eqb_eq in E; subst k0.
      assert (E' : (k =? k')%string = false) by (apply String.eqb_neq; congruence).
      now rewrite E'.
    + destruct (k0 =? k')%string; [reflexivity | exact IH].
Qed.

Lemma getItem_removeItem_same (s : Storage.t) (k : string) :
  Storage.getItem (Storage.removeItem s k) k = None.
Proof.
  induction s as [|[k' v'] s IH]; simpl; [reflexivity|].
  destruct (k' =? k)%string eqn:E; simpl; [exact IH|]. now rewrite E.
Qed.

Lemma getItem_removeItem_other (s : Storage.t) (k k' : string) :
  k' <> k -> Storage.getItem (Storage.removeItem s k) k' = Storage.getItem s k'.
Proof.
  intros N. induction s as [|[k0 v0] s IH]; simpl; [reflexivity|].
  destruct (k0 =? k)%string eqn:E; simpl.
  - apply String.eqb_eq in E; subst k0.
    assert (E' : (k =? k')%string = false) by (apply String.eqb_neq; congruence).
    now rewrite E'.
  - destruct (k0 =? k')%string; [reflexivity | exact IH].
Qed.

Lemma keys_setItem_in (s : Storage.t) (k v x : string) :
  In x (Storage.keys (Storage.setItem s k v)) -> x = k \/ In x (Storage.keys s).
Proof.
  unfold Storage.keys. induction s as [|[k' v'] s IH]; simpl.
  - intros [H|[]]; auto.
  - destruct (k' =? k)%string eqn:E; simpl.
    + intros [H|H]; auto.
    + intros [H|H]; auto. destruct (IH H); auto.
Qed.

Lemma keys_removeItem_in (s : Storage.t) (k x : string) :
  In x (Storage.keys (Storage.removeItem s k)) -> In x (Storage.keys s).
Proof.
  unfold Storage.keys. induction s as [|[k' v'] s IH]; simpl; [tauto|].
  destruct (k' =? k)%string; simpl; intuition.
Qed.

(** A key occurs once, and writing and removing keep it so. *)
Lemma NoDup_keys_setItem (s : Storage.t) (k v : string) :
  NoDup (Storage.keys s) -> NoDup (Storage.keys (Storage.setItem s k v)).
Proof.
  unfold Storage.keys. induction s as [|[k' v'] s IH]; simpl; intros H.
  - constructor; [intros []|constructor].
  - inversion H as [|? ? Hin Hnd]; subst.
    destruct (k' =? k)%string eqn:E; simpl.
    + apply String.eqb_eq in E; subst k'. now constructor.
    + constructor; [|now apply IH].
      intros Hx. apply (keys_setItem_in s k v k') in Hx. destruct Hx as [Hx|Hx].
      * apply String.eqb_neq in E. congruence.
      * exact (Hin Hx).
Qed.

Lemma NoDup_keys_removeItem (s : Storage.t) (k : string) :
  NoDup (Storage.keys s) -> NoDup (Storage.keys (Storage.removeItem s k)).
Proof.
  unfold Storage.keys. induction s as [|[k' v'] s IH]; simpl; intros H; [constructor|].
  inversion H as [|? ? Hin Hnd]; subst.
  destruct (k' =? k)%string; simpl; [now apply IH|].
  constructor; [|now apply IH].
  intros Hx. apply (keys_removeItem_in s k k') in Hx. exact (Hin Hx).
Qed.

Lemma append_inj_r (p a b : string) : (p ++ a = p ++ b)%string -> a = b.
Proof. induction p; simpl; intros H; [exact H|]. injection H as H. auto. Qed.

Lemma storage_key_inj (base a b : string) :
  FileList.storage_key base a = FileList.storage_key base b -> a = b.
Proof.
  unfold FileList.storage_key. intros H.
  apply append_inj_r in H. now apply (append_inj_r "-") in H.
Qed.

(** ** Renaming a document *)

Lemma stored_text_put (base name text : string) (now : Z) (s : Storage.t) :
  stored_text (FileList.put base name text now s) (FileList.storage_key base name)
  = Some (Ok (JS.Str text)).
Proof.
  unfold stored_text, FileList.put. rewrite getItem_setItem_same. simpl.
  now rewrite parse_stringify.
Qed.

Lemma rename_file_list (base : string) (compare : Files.file -> Files.file -> JS.number)
    (value : string) (now : Z) (st : FileList.state) (w : world) :
  let a := FileList.filename st in
  let b := JS.trim value in
  b <> "" -> b <> a ->
  let o := FileList.handleFilenameChange base compare value now st w in
  FileList.filename (state_of o) = b /\
  FileList.codeInput (state_of o) = FileList.codeInput st /\
  storage (world_of o)
  = Storage.removeItem (FileList.put base b (FileList.codeInput st) now (storage w))
      (FileList.storage_key base a).
Proof.
  intros a b Hne Hab o. subst o. unfold FileList.handleFilenameChange.
  fold b. fold a.
  apply String.eqb_neq in Hne. apply String.eqb_neq in Hab.
  rewrite Hne, Hab. simpl.
  destruct (FileList.loadSavedFiles base compare _ now); simpl; auto.
Qed.

(** The save effect leaves under the document's key the text in the
    editor, for every document but one named [last-filename]. *)
Lemma saveContent_stores_text (now : Z) (st : MultiContentEditor.state) (w : world) :
  FileList.filename (MultiContentEditor.cells st) <> "last-filename" ->
  stored_text (storage (world_of (MultiContentEditor.saveContent now st w)))
    (FileList.storage_key MultiContentEditor.BASE_STORAGE_KEY
       (FileList.filename (MultiContentEditor.cells st)))
  = Some (Ok (JS.Str (MultiContentEditor.codeInput st))).
Proof.
  intros N.
  assert (K : FileList.storage_key MultiContentEditor.BASE_STORAGE_KEY
                (FileList.filename (MultiContentEditor.cells st))
              <> FileList.last_filename_key MultiContentEditor.BASE_STORAGE_KEY).
  { change (FileList.last_filename_key MultiContentEditor.BASE_STORAGE_KEY)
      with (FileList.storage_key MultiContentEditor.BASE_STORAGE_KEY "last-filename").
    intros H. apply storage_key_inj in H. exact (N H). }
  unfold MultiContentEditor.saveContent, FileList.saveContent.
  unfold Timers.setTimeout.
  destruct (FileList.loadSavedFiles _ _ _ _); cbn [world_of storage set_storage set_timers];
    unfold stored_text at 1; rewrite getItem_setItem_other by exact K;
    apply stored_text_put.
Qed.

(** C5, as amended.  A change of the filename field from [a] to a
    non-empty name [b] other than [a], neither of them [last-filename],
    leaves nothing under the key of [a] and the content of [a] under
    the key of [b], with every key still stored once: so it is after
    the handler and the save effect that the change of the name
    triggers.  The content stored under [a] is the text in the editor,
    as it is after every save.  In the plain-text editor the handler
    moves the stored string and the effect writes the text over it; in
    the multi-content editor both write the record anew from the text. *)
Theorem rename_moves_document :
  (forall (value : string) (now : Z) (st : PlainMarkdownEditor.state) (w : world),
      let key name := (PlainMarkdownEditor.BASE_STORAGE_KEY ++ "-" ++ name)%string in
      let a := PlainMarkdownEditor.filename st in
      let b := JS.trim value in
      let content := PlainMarkdownEditor.markdown st in
      b <> "" -> b <> a -> a <> "last-filename" -> b <> "last-filename" ->
      NoDup (Storage.keys (storage w)) ->
      Storage.getItem (storage w) (key a) = Some content ->
      let r := PlainMarkdownEditor.onFilenameChange value now st w in
      PlainMarkdownEditor.filename (fst r) = b /\
      Storage.getItem (storage (snd r)) (key a) = None /\
      Storage.getItem (storage (snd r)) (key b) = Some content /\
      NoDup (Storage.keys (storage (snd r))))
  /\
  (forall (value : string) (now : Z) (st : MultiContentEditor.state) (w : world),
      let key := FileList.storage_key MultiContentEditor.BASE_STORAGE_KEY in
      let a := FileList.filename (MultiContentEditor.cells st) in
      let b := JS.trim value in
      b <> "" -> b <> a -> a <> "last-filename" -> b <> "last-filename" ->
      NoDup (Storage.keys (storage w)) ->
      stored_text (storage w) (key a) = Some (Ok (JS.Str (MultiContentEditor.codeInput st))) ->
      let o := MultiContentEditor.onFilenameChange value now st w in
      FileList.filename (MultiContentEditor.cells (state_of o)) = b /\
      Storage.getItem (storage (world_of o)) (key a) = None /\
      stored_text (storage (world_of o)) (key b) = stored_text (storage w) (key a) /\
      NoDup (Storage.keys (storage (world_of o)))).
Proof.
  split.
  - intros value now st w key a b content Hne Hab Ha Hb Hnd Hget r. subst r.
    unfold PlainMarkdownEditor.onFilenameChange, PlainMarkdownEditor.rerender,
      PlainMarkdownEditor.handleFilenameChange.
    fold b. fold a.
    pose proof Hne as Hne'. apply String.eqb_neq in Hne'. rewrite Hne'.
    cbn [negb fst snd PlainMarkdownEditor.filename PlainMarkdownEditor.markdown].
    pose proof Hab as Hab'. apply String.eqb_neq in Hab'. rewrite Hab'. cbn [andb].
    unfold PlainMarkdownEditor.saveEffect.
    cbn [PlainMarkdownEditor.filename PlainMarkdownEditor.markdown
         PlainMarkdownEditor.cleanup storage set_storage timers].
    destruct (Timers.setTimeout _ _ _ _) as [timer timers1].
    cbn [fst snd PlainMarkdownEditor.filename storage set_storage set_timers].
    fold (key b). fold (key a). fold content.
    assert (Kab : key b <> key a).
    { intros H. apply append_inj_r in H. apply (append_inj_r "-") in H. exact (Hab H). }
    assert (Kla : (PlainMarkdownEditor.BASE_STORAGE_KEY ++ "-last-filename")%string <> key a).
    { intros H. apply append_inj_r in H. apply (append_inj_r "-") in H. now apply Ha. }
    assert (Klb : (PlainMarkdownEditor.BASE_STORAGE_KEY ++ "-last-filename")%string <> key b).
    { intros H. apply append_inj_r in H. apply (append_inj_r "-") in H. now apply Hb. }
    repeat split.
    + rewrite getItem_setItem_other by congruence.
      rewrite getItem_setItem_other by congruence.
      apply getItem_removeItem_same.
    + rewrite getItem_setItem_other by congruence.
      apply getItem_setItem_same.
    + apply NoDup_keys_setItem, NoDup_keys_setItem, NoDup_keys_removeItem,
        NoDup_keys_setItem, Hnd.
  - intros value now st w key a b Hne Hab Ha Hb Hnd Hsync o.
    destruct (rename_file_list MultiContentEditor.BASE_STORAGE_KEY Files.by_lastModified
                value now (MultiContentEditor.cells st) w Hne Hab) as (Hf & Hc & Hs).
    subst o. unfold MultiContentEditor.onFilenameChange, MultiContentEditor.rerender.
    set (h := MultiContentEditor.handleFilenameChange value now st w).
    assert (Hcells : MultiContentEditor.cells (state_of h)
                     = state_of (FileList.handleFilenameChange
                                   MultiContentEditor.BASE_STORAGE_KEY Files.by_lastModified
                                   value now (MultiContentEditor.cells st) w)) by reflexivity.
    assert (Hworld : world_of h
                     = world_of (FileList.handleFilenameChange
                                   MultiContentEditor.BASE_STORAGE_KEY Files.by_lastModified
                                   value now (MultiContentEditor.cells st) w)) by reflexivity.
    assert (E1 : (MultiContentEditor.codeInput (state_of h)
                  =? MultiContentEditor.codeInput st)%string = true).
    { unfold MultiContentEditor.codeInput. rewrite Hcells, Hc. apply String.eqb_refl. }
    assert (E2 : (FileList.filename (MultiContentEditor.cells (state_of h))
                  =? FileList.filename (MultiContentEditor.cells st))%string = false).
    { rewrite Hcells, Hf. now apply String.eqb_neq. }
    rewrite E1, E2. cbn [andb fst snd].
    assert (Kab : key b <> key a).
    { intros H. apply storage_key_inj in H. exact (Hab H). }
    assert (Kla : FileList.last_filename_key MultiContentEditor.BASE_STORAGE_KEY <> key a).
    { change (FileList.last_filename_key MultiContentEditor.BASE_STORAGE_KEY)
        with (key "last-filename").
      intros H. apply storage_key_inj in H. now apply Ha. }
    assert (Klb : FileList.last_filename_key MultiContentEditor.BASE_STORAGE_KEY <> key b).
    { change (FileList.last_filename_key MultiContentEditor.BASE_STORAGE_KEY)
        with (key "last-filename").
      intros H. apply storage_key_inj in H. now apply Hb. }
    assert (St : storage (world_of (MultiContentEditor.saveContent now (state_of h) (world_of h)))
                 = Storage.setItem
                     (FileList.put MultiContentEditor.BASE_STORAGE_KEY b
                        (MultiContentEditor.codeInput st) now (storage (world_of h)))
                     (FileList.last_filename_key MultiContentEditor.BASE_STORAGE_KEY) b).
    { unfold MultiContentEditor.saveContent, FileList.saveContent.
      rewrite Hcells, Hf, Hc. fold b.
      destruct (FileList.loadSavedFiles _ _ _ _); [|reflexivity].
      destruct (Timers.setTimeout _ _ _ _). reflexivity. }
    assert (KF : FileList.filename
                   (MultiContentEditor.cells
                      (state_of (MultiContentEditor.saveContent now (state_of h) (world_of h))))
                 = FileList.filename (MultiContentEditor.cells (state_of h))).
    { unfold MultiContentEditor.saveContent, FileList.saveContent.
      destruct (FileList.loadSavedFiles _ _ _ _); [|reflexivity].
      destruct (Timers.setTimeout _ _ _ _). reflexivity. }
    rewrite KF, Hcells, Hf, St, Hworld, Hs. fold a b. fold (key a) (key b).
    repeat split.
    + rewrite getItem_setItem_other by congruence.
      unfold FileList.put at 1. fold (key b).
      rewrite getItem_setItem_other by congruence.
      apply getItem_removeItem_same.
    + rewrite Hsync. unfold stored_text.
      rewrite getItem_setItem_other by congruence.
      apply stored_text_put.
    + apply NoDup_keys_setItem. unfold FileList.put.
      apply NoDup_keys_setItem, NoDup_keys_removeItem, NoDup_keys_setItem, Hnd.
Qed.

Lemma rename_moves_document_witness :
  (let r := PlainMarkdownEditor.onFilenameChange " notes " 9 plain_draft plain_world in
   PlainMarkdownEditor.filename (fst r) = "notes" /\
   Storage.getItem (storage (snd r)) "markdown-editor-content-draft" = None /\
   Storage.getItem (storage (snd r)) "markdown-editor-content-notes" = Some "# Hi" /\
   NoDup (Storage.keys (storage (snd r))))
  /\
  (let o := MultiContentEditor.onFilenameChange " notes " 9 (multi_on "draft" "[]") multi_world in
   FileList.filename (MultiContentEditor.cells (state_of o)) = "notes" /\
   Storage.getItem (storage (world_of o)) "multi-content-editor-draft" = None /\
   stored_text (storage (world_of o)) "multi-content-editor-notes"
   = stored_text (storage multi_world) "multi-content-editor-draft" /\
   NoDup (Storage.keys (storage (world_of o)))).
Proof.
  destruct rename_moves_document as [P M]. split.
  - apply (P " notes " 9 plain_draft plain_world).
    + vm_compute; discriminate.
    + vm_compute; discriminate.
    + vm_compute; discriminate.
    + vm_compute; discriminate.
    + vm_compute. repeat constructor; simpl; intuition discriminate.
    + reflexivity.
  - apply (M " notes " 9 (multi_on "draft" "[]") multi_world).
    + vm_compute; discriminate.
    + vm_compute; discriminate.
    + vm_compute; discriminate.
    + vm_compute; discriminate.
    + vm_compute. repeat constructor; simpl; intuition discriminate.
    + reflexivity.
Defined.

(** C5 as stated fails for the name [last-filename].  The key of a
    document of that name is the key that records the last-used name:
    the handler puts the document there, and the save effect that the
    change of the name triggers writes the name over it.  So it is in
    the plain-text editor and in the multi-content editor; what is left
    under the key of [b] is the name, not the content of [a]. *)
Lemma rename_to_last_filename_loses_document :
  (let r := PlainMarkdownEditor.onFilenameChange "last-filename" 9 plain_draft plain_world in
   Storage.getItem (storage plain_world) "markdown-editor-content-draft" = Some "# Hi" /\
   PlainMarkdownEditor.filename (fst r) = "last-filename" /\
   Storage.getItem (storage (snd r)) "markdown-editor-content-last-filename"
   = Some "last-filename" /\
   Storage.getItem (storage (snd r)) "markdown-editor-content-last-filename"
   <> Storage.getItem (storage plain_world) "markdown-editor-content-draft")
  /\
  (let o := MultiContentEditor.onFilenameChange "last-filename" 9
              (multi_on "draft" "[]") multi_world in
   stored_text (storage multi_world) "multi-content-editor-draft" = Some (Ok (JS.Str "[]")) /\
   FileList.filename (MultiContentEditor.cells (state_of o)) = "last-filename" /\
   Storage.getItem (storage (world_of o)) "multi-content-editor-last-filename"
   = Some "last-filename" /\
   stored_text (storage (world_of o)) "multi-content-editor-last-filename"
   <> stored_text (storage multi_world) "multi-content-editor-draft").
Proof.
  split.
  - cbv zeta. split; [reflexivity|]. split; [reflexivity|]. split; [reflexivity|].
    vm_compute. discriminate.
  - cbv zeta. split; [reflexivity|]. split; [reflexivity|].
    split; [reflexivity|]. vm_compute. discriminate.
Qed.

(** Nor does the old key stay empty when it is [a] that is named
    [last-filename]: the save effect records the new name there. *)
Example rename_from_last_filename_leaves_name :
  let st := {| PlainMarkdownEditor.filename := "last-filename";
               PlainMarkdownEditor.markdown := "last-filename";
               PlainMarkdownEditor.saveStatus := "";
               PlainMarkdownEditor.cleanup := None |} in
  let w := world_with [("markdown-editor-content-last-filename", "last-filename")] in
  let r := PlainMarkdownEditor.onFilenameChange "notes" 9 st w in
  Storage.getItem (storage w) "markdown-editor-content-last-filename"
  = Some (PlainMarkdownEditor.markdown st) /\
  Storage.getItem (storage (snd r)) "markdown-editor-content-last-filename" = Some "notes".
Proof. split; reflexivity. Qed.

(** ** Listing the saved files *)

Lemma visit_unfold (base : string) (s : Storage.t) (now : Z) (key : string) (keys : list string) :
  Files.visit base s now (key :: keys)
  = if listed base key then
      parsed <- JSON.parse (match Storage.getItem s key with Some c => c | None => "null" end) ;;
      files <- Files.visit base s now keys ;;
      Ok ({| Files.name := JS.replace (base ++ "-") "" key;
             Files.lastModified := JS.or_else (JS.get_opt parsed "lastModified")
                                     (JS.Number (inject_Z now)) |} :: files)
    else Files.visit base s now keys.
Proof. reflexivity. Qed.

(** An entry that is listed and does not parse makes the loop throw. *)
Lemma visit_throws (base : string) (s : Storage.t) (now : Z) (key payload : string) (e : exn) :
  listed base key = true ->
  Storage.getItem s key = Some payload ->
  JSON.parse payload = Throw e ->
  forall keys, In key keys -> exists e', Files.visit base s now keys = Throw e'.
Proof.
  intros L G P keys. induction keys as [|k keys IH]; intros Hin; [destruct Hin|].
  rewrite visit_unfold.
  destruct (String.string_dec k key) as [->|N].
  - rewrite L, G, P. simpl. now eexists.
  - destruct Hin as [H|H]; [congruence|]. destruct (IH H) as [e' He'].
    destruct (listed base k); [|now exists e'].
    destruct (JSON.parse (match Storage.getItem s k with Some c => c | None => _ end))
      as [v|e0]; simpl; [|now eexists].
    rewrite He'. simpl. now eexists.
Qed.

Lemma getItem_in_keys (s : Storage.t) (k v : string) :
  Storage.getItem s k = Some v -> In k (Storage.keys s).
Proof.
  unfold Storage.keys. induction s as [|[k' v'] s IH]; simpl; [discriminate|].
  destruct (k' =? k)%string eqn:E.
  - apply String.eqb_eq in E. auto.
  - auto.
Qed.

(** C6. [loadSavedFiles] does not tolerate a stored entry whose payload
    is not parseable: [JSON.parse] throws inside the loop, with no
    handler around it, so the exception leaves the function and no
    listing is produced at all.  This holds in every namespace and for
    every comparator; the fall-back to the current time only covers a
    payload that parses and has no [lastModified]. *)
Theorem unparseable_entry_fails_listing
    (base : string) (compare : Files.file -> Files.file -> JS.number)
    (s : Storage.t) (now : Z) (key payload : string) (e : exn) :
  listed base key = true ->
  Storage.getItem s key = Some payload ->
  JSON.parse payload = Throw e ->
  exists e', Files.loadSavedFiles base compare s now = Throw e'.
Proof.
  intros L G P. unfold Files.loadSavedFiles.
  destruct (visit_throws base s now key payload e L G P (Storage.keys s)
              (getItem_in_keys _ _ _ G)) as [e' He'].
  rewrite He'. simpl. now eexists.
Qed.

Lemma unparseable_entry_fails_listing_witness :
  listed "markdown-editor-content" "markdown-editor-content-untitled" = true /\
  Storage.getItem legacy_storage "markdown-editor-content-untitled" = Some "+++ Hello" /\
  JSON.parse "+++ Hello" = Throw (SyntaxError "Unexpected token '+'") /\
  exists e', MarkdownEditor.loadSavedFiles legacy_storage 0 = Throw e'.
Proof.
  repeat split; try reflexivity.
  apply (unparseable_entry_fails_listing "markdown-editor-content" Files.by_filename
           legacy_storage 0 "markdown-editor-content-untitled" "+++ Hello"
           (SyntaxError "Unexpected token '+'")); reflexivity.
Defined.

(** The same storage, evaluated: the file-list markdown editor and the
    multi-content editor on an entry that is plain text. *)
Example legacy_storage_listing :
  MarkdownEditor.loadSavedFiles legacy_storage 0
  = Throw (SyntaxError "Unexpected token '+'")
  /\ MultiContentEditor.loadSavedFiles
       [("multi-content-editor-notes", "hello")] 0
     = Throw (SyntaxError "Unexpected token 'hello'").
Proof. split; reflexivity. Qed.

(** A payload that parses and carries no [lastModified] is listed with
    the current time. *)
Example missing_lastModified_is_now :
  MultiContentEditor.loadSavedFiles [("multi-content-editor-notes", "{}")] 42
  = Ok [{| Files.name := "notes"; Files.lastModified := JS.Number (inject_Z 42) |}].
Proof. reflexivity. Qed.

(** ** The key of the last-used name among the keys of the documents *)

Lemma endsWith_app (p s suffix : string) :
  JS.endsWith s suffix = true -> JS.endsWith (p ++ s) suffix = true.
Proof.
  intros H. induction p as [|c p IH]; simpl; [exact H|].
  rewrite IH. now destruct suffix as [|c2 s2]; [|destruct (c =? c2)%char, (p ++ s =? s2)%string].
Qed.


Lemma visit_ext (base : string) (s1 s2 : Storage.t) (now : Z) (keys : list string) :
  (forall k, In k keys -> listed base k = true ->
             Storage.getItem s1 k = Storage.getItem s2 k) ->
  Files.visit base s1 now keys = Files.visit base s2 now keys.
Proof.
  induction keys as [|k keys IH]; intros H; [reflexivity|].
  rewrite !visit_unfold. rewrite IH by (intros; apply H; simpl; auto).
  destruct (listed base k) eqn:L; [|reflexivity].
  now rewrite (H k (or_introl eq_refl) L).
Qed.

Lemma visit_filter (base : string) (s : Storage.t) (now : Z) (keys : list string) :
  Files.visit base s now keys = Files.visit base s now (filter (listed base) keys).
Proof.
  induction keys as [|k keys IH]; [reflexivity|].
  rewrite visit_unfold. simpl filter.
  destruct (listed base k) eqn:L; [|exact IH].
  rewrite visit_unfold, L, IH. reflexivity.
Qed.

Lemma filter_keys_removeItem (f : string -> bool) (s : Storage.t) (k : string) :
  f k = false ->
  filter f (Storage.keys (Storage.removeItem s k)) = filter f (Storage.keys s).
Proof.
  intros F. unfold Storage.keys. induction s as [|[k' v'] s IH]; simpl; [reflexivity|].
  destruct (k' =? k)%string eqn:E; simpl.
  - apply String.eqb_eq in E; subst k'. now rewrite F.
  - now rewrite IH.
Qed.

Lemma filter_keys_setItem (f : string -> bool) (s : Storage.t) (k v : string) :
  f k = false ->
  filter f (Storage.keys (Storage.setItem s k v)) = filter f (Storage.keys s).
Proof.
  intros F. unfold Storage.keys. induction s as [|[k' v'] s IH]; simpl.
  - now rewrite F.
  - destruct (k' =? k)%string eqn:E; simpl.
    + apply String.eqb_eq in E; subst k'. reflexivity.
    + now rewrite IH.
Qed.


Lemma stringify_not_empty (c : JSON.content) : (JSON.stringify c =? "")%string = false.
Proof. reflexivity. Qed.

Lemma initialContent_put (base default name text : string) (now : Z) (s : Storage.t) :
  FileList.initialContent base default (FileList.put base name text now s) name
  = JS.or_else (JS.Str text) (JS.Str default).
Proof.
  unfold FileList.initialContent, FileList.put.
  rewrite getItem_setItem_same, stringify_not_empty, parse_stringify.
  reflexivity.
Qed.



(** The save effect on a document named [last-filename]: the record of
    the name is written over the document just stored. *)
Example save_of_last_filename_document :
  let o := MultiContentEditor.saveContent 7 (multi_on "last-filename" "[1]") (world_with []) in
  Storage.getItem (storage (world_of o)) "multi-content-editor-last-filename"
  = Some "last-filename".
Proof. reflexivity. Qed.

(** ** The order of the listing *)

Lemma by_lastModified_numbers (a b : Files.file) (x y : Q) :
  Files.lastModified a = JS.Number x -> Files.lastModified b = JS.Number y ->
  Files.by_lastModified a b = JS.Fin (y - x).
Proof.
  intros Ha Hb. unfold Files.by_lastModified, Files.prop. simpl.
  now rewrite Ha, Hb.
Qed.

Lemma positive_lt (q : Q) : Files.positive (JS.Fin q) = true <-> (0 < q)%Q.
Proof.
  simpl. rewrite negb_true_iff, <- not_true_iff_false, Qle_bool_iff. split.
  - intros H. apply Qnot_le_lt, H.
  - intros H. apply Qlt_not_le, H.
Qed.

Lemma insert_unfold (compare : Files.file -> Files.file -> JS.number)
    (x y : Files.file) (l : list Files.file) :
  Files.insert compare x (y :: l)
  = match compare x y with
    | JS.Abrupt e => Throw e
    | n => if Files.positive n
           then (rest <- Files.insert compare x l ;; Ok (y :: rest))
           else Ok (x :: y :: l)
    end.
Proof. reflexivity. Qed.

(** What [insert] returns holds [x] and the files of [l], each as
    often as before. *)
Lemma insert_permutation (compare : Files.file -> Files.file -> JS.number)
    (x : Files.file) (l l' : list Files.file) :
  Files.insert compare x l = Ok l' -> Permutation l' (x :: l).
Proof.
  revert l'. induction l as [|y l IH]; intros l' H.
  - injection H as <-. apply Permutation_refl.
  - rewrite insert_unfold in H.
    assert (G : (if Files.positive (compare x y)
                 then (rest <- Files.insert compare x l ;; Ok (y :: rest))
                 else Ok (x :: y :: l)) = Ok l')
      by (destruct (compare x y); solve [exact H | discriminate H]).
    destruct (Files.positive (compare x y)).
    + destruct (Files.insert compare x l) as [rest|e]; [|discriminate G].
      injection G as <-.
      eapply Permutation_trans; [apply perm_skip, IH; reflexivity | apply perm_swap].
    + injection G as <-. apply Permutation_refl.
Qed.

Lemma sort_permutation (compare : Files.file -> Files.file -> JS.number)
    (l l' : list Files.file) :
  Files.sort compare l = Ok l' -> Permutation l' l.
Proof.
  revert l'. induction l as [|x l IH]; intros l' H.
  - injection H as <-. apply Permutation_refl.
  - simpl in H. destruct (Files.sort compare l) as [sorted|e]; [|discriminate H].
    simpl in H. apply insert_permutation in H.
    eapply Permutation_trans; [exact H | apply perm_skip, IH; reflexivity].
Qed.

Lemma Forall_insert (P : Files.file -> Prop) (compare : Files.file -> Files.file -> JS.number)
    (x : Files.file) (l l' : list Files.file) :
  Files.insert compare x l = Ok l' -> (Forall P l' <-> P x /\ Forall P l).
Proof.
  intros H. apply insert_permutation in H. split.
  - intros F. apply Forall_cons_iff. eapply Permutation_Forall; [exact H | exact F].
  - intros F. apply Forall_cons_iff in F.
    eapply Permutation_Forall; [apply Permutation_sym, H | exact F].
Qed.

Lemma Forall_sort (P : Files.file -> Prop) (compare : Files.file -> Files.file -> JS.number)
    (l l' : list Files.file) :
  Files.sort compare l = Ok l' -> (Forall P l' <-> Forall P l).
Proof.
  intros H. apply sort_permutation in H. split; intros F.
  - eapply Permutation_Forall; [exact H | exact F].
  - eapply Permutation_Forall; [apply Permutation_sym, H | exact F].
Qed.

Lemma not_older_trans (a b c : Files.file) :
  not_older a b -> not_older b c -> not_older a c.
Proof.
  intros (x & y & Ha & Hb & Hxy) (y' & z & Hb' & Hc & Hyz).
  rewrite Hb in Hb'. injection Hb' as <-.
  exists x, z. repeat split; auto. lra.
Qed.

(** Between files whose times are numbers the comparator does not
    throw, and the insertion keeps the order. *)
Lemma insert_descending (x : Files.file) (l : list Files.file) :
  numeric x -> Forall numeric l -> descending l ->
  exists l', Files.insert Files.by_lastModified x l = Ok l' /\ descending l'.
Proof.
  intros [qx Hx] Hn Hs. induction l as [|y l IH].
  - eexists. split; [reflexivity | repeat constructor].
  - inversion Hn as [|? ? [qy Hy] Hn']; subst.
    inversion Hs as [|? ? Hs' Hall]; subst.
    rewrite insert_unfold, (by_lastModified_numbers x y qx qy Hx Hy).
    destruct (Files.positive (JS.Fin (qy - qx))) eqn:E.
    + apply positive_lt in E.
      destruct (IH Hn' Hs') as (rest & R & D). rewrite R.
      eexists. split; [reflexivity|].
      constructor; [exact D|].
      apply (Forall_insert _ _ _ _ _ R). split; [|exact Hall].
      exists qy, qx. repeat split; auto. lra.
    + assert (Hle : (qy <= qx)%Q).
      { destruct (Qlt_le_dec qx qy) as [Hlt|Hle]; [|exact Hle].
        assert (P : Files.positive (JS.Fin (qy - qx)) = true)
          by (apply positive_lt; lra).
        congruence. }
      assert (Hxy : not_older x y) by (exists qx, qy; auto).
      eexists. split; [reflexivity|].
      constructor; [exact Hs|].
      constructor; [exact Hxy|].
      eapply Forall_impl; [|exact Hall].
      intros c Hc. exact (not_older_trans _ _ _ Hxy Hc).
Qed.

Lemma sort_descending (l : list Files.file) :
  Forall numeric l ->
  exists l', Files.sort Files.by_lastModified l = Ok l' /\ descending l'.
Proof.
  induction l as [|x l IH]; intros H.
  - eexists. split; [reflexivity | constructor].
  - inversion H; subst.
    destruct IH as (sorted & S & D); [assumption|].
    simpl. rewrite S. simpl.
    apply insert_descending; auto.
    now apply (Forall_sort _ _ _ _ S).
Qed.

Lemma truthy_timestamp (t : Z) :
  0 < t -> JS.or_else (JS.Number (inject_Z t)) = fun _ => JS.Number (inject_Z t).
Proof.
  intros H. unfold JS.or_else, JS.truthy.
  assert (E : Qeq_bool (inject_Z t) 0 = false).
  { apply not_true_iff_false. intros Q. apply Qeq_bool_iff in Q.
    unfold Qeq in Q. simpl in Q. lia. }
  now rewrite E.
Qed.

Lemma positive_timestamps (a b : Z) :
  Files.positive (JS.Fin (inject_Z b - inject_Z a)) = (a <? b).
Proof.
  destruct (a <? b) eqn:E.
  - apply positive_lt. apply Z.ltb_lt in E.
    unfold Qlt, Qminus, Qplus, Qopp. simpl. lia.
  - apply not_true_iff_false. intros P. apply positive_lt in P.
    apply Z.ltb_ge in E. unfold Qlt, Qminus, Qplus, Qopp in P. simpl in P. lia.
Qed.

(** One listed entry that holds a record the editors stored. *)
Lemma visit_stored (base : string) (s : Storage.t) (now : Z) (key : string)
    (keys : list string) (c : JSON.content) :
  listed base key = true ->
  Storage.getItem s key = Some (JSON.stringify c) ->
  0 < JSON.lastModified c ->
  Files.visit base s now (key :: keys)
  = (files <- Files.visit base s now keys ;;
     Ok ({| Files.name := JS.replace (base ++ "-") "" key;
            Files.lastModified := JS.Number (inject_Z (JSON.lastModified c)) |} :: files)).
Proof.
  intros L G T. rewrite visit_unfold, L, G, parse_stringify. simpl bind at 1.
  change (JS.get_opt (content_value c) "lastModified")
    with (JS.Number (inject_Z (JSON.lastModified c))).
  now rewrite truthy_timestamp.
Qed.

Lemma prefix_app (p s : string) : prefix p (p ++ s) = true.
Proof.
  induction p as [|c p IH]; simpl; [now destruct s|].
  destruct (ascii_dec c c); [exact IH | congruence].
Qed.

Lemma drop_app (p s : string) : JS.drop (String.length p) (p ++ s) = s.
Proof. induction p; simpl; auto. Qed.

Lemma replace_unfold (p r s : string) :
  JS.replace p r s
  = if prefix p s then (r ++ JS.drop (String.length p) s)%string
    else match s with
         | EmptyString => EmptyString
         | String c s' => String c (JS.replace p r s')
         end.
Proof. destruct s; reflexivity. Qed.

Lemma replace_prefix (p s : string) : JS.replace p "" (p ++ s) = s.
Proof. rewrite replace_unfold, prefix_app, drop_app. reflexivity. Qed.

Lemma name_of_storage_key (base name : string) :
  JS.replace (base ++ "-") "" (FileList.storage_key base name) = name.
Proof.
  unfold FileList.storage_key. rewrite <- append_assoc. apply replace_prefix.
Qed.

Lemma sort_three (fx fy fz : Files.file) (t1 t2 t3 : Z) :
  Files.lastModified fx = JS.Number (inject_Z t1) ->
  Files.lastModified fy = JS.Number (inject_Z t2) ->
  Files.lastModified fz = JS.Number (inject_Z t3) ->
  t2 < t1 -> t1 < t3 ->
  Files.sort Files.by_lastModified [fx; fy; fz] = Ok [fz; fx; fy].
Proof.
  intros Hx Hy Hz H21 H13.
  assert (A : (t2 <? t3) = true) by (apply Z.ltb_lt; lia).
  assert (B : (t1 <? t3) = true) by (apply Z.ltb_lt; lia).
  assert (C : (t1 <? t2) = false) by (apply Z.ltb_ge; lia).
  cbn [Files.sort bind]. change (Files.insert Files.by_lastModified fz []) with (Ok [fz]).
  cbn [bind].
  rewrite insert_unfold, (by_lastModified_numbers fy fz _ _ Hy Hz), positive_timestamps, A.
  change (Files.insert Files.by_lastModified fy []) with (Ok [fy]). cbn [bind].
  rewrite insert_unfold, (by_lastModified_numbers fx fz _ _ Hx Hz), positive_timestamps, B.
  rewrite insert_unfold, (by_lastModified_numbers fx fy _ _ Hx Hy), positive_timestamps, C.
  reflexivity.
Qed.

Lemma three_documents_listing (base : string) (t1 t2 t3 now : Z) :
  listed base (FileList.storage_key base "x") = true ->
  listed base (FileList.storage_key base "y") = true ->
  listed base (FileList.storage_key base "z") = true ->
  0 < t2 -> t2 < t1 -> t1 < t3 ->
  names (Files.loadSavedFiles base Files.by_lastModified (three_documents base t1 t2 t3) now)
  = Ok ["z"; "x"; "y"].
Proof.
  intros Lx Ly Lz H2 H21 H13.
  assert (Kxy : FileList.storage_key base "x" <> FileList.storage_key base "y")
    by (intros K; apply storage_key_inj in K; discriminate).
  assert (Kxz : FileList.storage_key base "x" <> FileList.storage_key base "z")
    by (intros K; apply storage_key_inj in K; discriminate).
  assert (Kyz : FileList.storage_key base "y" <> FileList.storage_key base "z")
    by (intros K; apply storage_key_inj in K; discriminate).
  assert (E : Storage.keys (three_documents base t1 t2 t3)
              = [FileList.storage_key base "x"; FileList.storage_key base "y";
                 FileList.storage_key base "z"]).
  { unfold three_documents, FileList.put. cbn [Storage.setItem].
    apply String.eqb_neq in Kxy, Kxz, Kyz. rewrite Kxy. cbn [Storage.setItem].
    rewrite Kxz, Kyz. reflexivity. }
  unfold Files.loadSavedFiles. rewrite E.
  rewrite (visit_stored base _ now _ _ {| JSON.text := "a"; JSON.lastModified := t1 |} Lx);
    [ | unfold three_documents, FileList.put;
        rewrite !getItem_setItem_other by congruence; apply getItem_setItem_same
      | simpl; lia ].
  rewrite (visit_stored base _ now _ _ {| JSON.text := "b"; JSON.lastModified := t2 |} Ly);
    [ | unfold three_documents, FileList.put;
        rewrite !getItem_setItem_other by congruence; apply getItem_setItem_same
      | simpl; lia ].
  rewrite (visit_stored base _ now _ _ {| JSON.text := "c"; JSON.lastModified := t3 |} Lz);
    [ | unfold three_documents, FileList.put; apply getItem_setItem_same
      | simpl; lia ].
  rewrite !name_of_storage_key. cbn [Files.visit bind JSON.lastModified].
  erewrite (sort_three _ _ _ t1 t2 t3); [reflexivity | reflexivity .. | lia | lia].
Qed.

(** C7, as amended.  In the multi-content and the chart editor the
    listing is sorted by [lastModified], most recent first, whenever the
    times listed are numbers; in particular three documents [x], [y],
    [z] stored at times [t1], [t2], [t3] with [t3 > t1 > t2 > 0] are
    listed as [z], [x], [y]. *)
Theorem listing_most_recent_first :
  (forall (base : string) (s : Storage.t) (now : Z) (files : list Files.file),
      Files.loadSavedFiles base Files.by_lastModified s now = Ok files ->
      Forall numeric files ->
      descending files)
  /\
  (forall t1 t2 t3 now : Z,
      0 < t2 -> t2 < t1 -> t1 < t3 ->
      names (MultiContentEditor.loadSavedFiles
               (three_documents MultiContentEditor.BASE_STORAGE_KEY t1 t2 t3) now)
      = Ok ["z"; "x"; "y"]
      /\ names (EChartsEditor.loadSavedFiles
                  (three_documents EChartsEditor.BASE_STORAGE_KEY t1 t2 t3) now)
         = Ok ["z"; "x"; "y"]).
Proof.
  split.
  - intros base s now files H N. unfold Files.loadSavedFiles in H.
    destruct (Files.visit base s now (Storage.keys s)) as [fs|e]; simpl in H; [|discriminate].
    apply (Forall_sort _ _ _ _ H) in N.
    destruct (sort_descending fs N) as (sorted & S & D). congruence.
  - intros t1 t2 t3 now H2 H21 H13. split.
    + now apply three_documents_listing.
    + now apply three_documents_listing.
Qed.

Lemma listing_most_recent_first_witness :
  (0 < 1 /\ 1 < 2 /\ 2 < 3) /\
  names (MultiContentEditor.loadSavedFiles
           (three_documents MultiContentEditor.BASE_STORAGE_KEY 2 1 3) 10)
  = Ok ["z"; "x"; "y"] /\
  descending
    [{| Files.name := "z"; Files.lastModified := JS.Number (inject_Z 3) |};
     {| Files.name := "x"; Files.lastModified := JS.Number (inject_Z 2) |};
     {| Files.name := "y"; Files.lastModified := JS.Number (inject_Z 1) |}].
Proof.
  destruct listing_most_recent_first as [Hsorted Hexample].
  split; [lia|]. split.
  - apply (Hexample 2 1 3 10); lia.
  - apply (Hsorted MultiContentEditor.BASE_STORAGE_KEY
             (three_documents MultiContentEditor.BASE_STORAGE_KEY 2 1 3) 10).
    + reflexivity.
    + repeat constructor; eexists; reflexivity.
Defined.

(** C7 as stated fails on its own example: with [t3 > t1 > t2] the
    listing is [z], [x], [y], not [x], [z], [y]. *)
Lemma listing_example_refuted :
  (3 > 2 /\ 2 > 1) /\
  names (MultiContentEditor.loadSavedFiles
           (three_documents MultiContentEditor.BASE_STORAGE_KEY 2 1 3) 10)
  <> Ok ["x"; "z"; "y"].
Proof.
  split; [lia|]. vm_compute. intros H. discriminate H.
Qed.

(** The file-list markdown editor sorts with [b.filename - a.filename],
    which is [NaN] on every pair: its listing keeps the order of the
    keys. *)
Example markdown_listing_keeps_key_order :
  names (MarkdownEditor.loadSavedFiles
           (three_documents MarkdownEditor.BASE_STORAGE_KEY 2 1 3) 10)
  = Ok ["x"; "y"; "z"].
Proof. reflexivity. Qed.

(** ** Parsing the text of the multi-content editor *)


Lemma onCodeInput_parse (value : string) (now : Z) (st : MultiContentEditor.state) (w : world) :
  let r := MultiContentEditor.onCodeInput value now st w in
  match JSON.parse value with
  | Ok parsed =>
      MultiContentEditor.parseError (fst r) = "" /\
      MultiContentEditor.contentList (fst r) = parsed /\
      frames (snd r) = (frames w ++ [parsed])%list
  | Throw e =>
      MultiContentEditor.parseError (fst r) = ("Invalid configuration: " ++ message e)%string /\
      MultiContentEditor.contentList (fst r) = MultiContentEditor.contentList st /\
      frames (snd r) = frames w
  end.
Proof.
  unfold MultiContentEditor.onCodeInput, MultiContentEditor.chartsEffect.
  change (MultiContentEditor.codeInput (MultiContentEditor.handleEditorChange value now st))
    with value.
  destruct (JSON.parse value); simpl; auto.
Qed.

(** C3, as amended.  The parse accepts an input without error exactly
    when the input is JSON text, whatever value it denotes; for every
    input that is not JSON text the whole parse fails with one
    diagnostic, ['Invalid configuration: '] and the parser's message,
    and no block sequence is produced: the list shown is the one
    before and no deferred chart creation is queued. *)
Theorem parse_accepts_json_text
    (value : string) (now : Z) (st : MultiContentEditor.state) (w : world) :
  let r := MultiContentEditor.onCodeInput value now st w in
  (MultiContentEditor.parseError (fst r) = "" <-> is_ok (JSON.parse value) = true)
  /\ match JSON.parse value with
     | Ok parsed => MultiContentEditor.contentList (fst r) = parsed
     | Throw e =>
         MultiContentEditor.parseError (fst r)
         = ("Invalid configuration: " ++ message e)%string /\
         MultiContentEditor.contentList (fst r) = MultiContentEditor.contentList st /\
         frames (snd r) = frames w
     end.
Proof.
  intros r. pose proof (onCodeInput_parse value now st w) as H. fold r in H.
  destruct (JSON.parse value) as [parsed|e]; simpl.
  - destruct H as (P & C & _). split; [|exact C]. split; auto.
  - destruct H as (P & C & F). split; [|auto].
    rewrite P. split; intros; discriminate.
Qed.

(** C3 as stated fails: an object and a list of numbers are accepted
    without error, and neither is a list of block records. *)
Lemma parse_accepts_more_than_block_lists :
  (let r := MultiContentEditor.onCodeInput "{}" 0 (multi_on "draft" "[]") multi_world in
   MultiContentEditor.parseError (fst r) = "" /\
   MultiContentEditor.contentList (fst r) = JS.Object [] /\
   is_block_list (MultiContentEditor.contentList (fst r)) = false)
  /\
  (let r := MultiContentEditor.onCodeInput "[1, 2]" 0 (multi_on "draft" "[]") multi_world in
   MultiContentEditor.parseError (fst r) = "" /\
   is_block_list (MultiContentEditor.contentList (fst r)) = false).
Proof. repeat split. Qed.

Lemma filter_all {A : Type} (p : A -> bool) (l : list A) :
  (forall x, In x l -> p x = true) -> filter p l = l.
Proof.
  induction l as [|x l IH]; simpl; intros H; [reflexivity|].
  rewrite (H x (or_introl eq_refl)), IH; auto.
Qed.

Lemma dispose_live (c : ECharts.instance) (r : ECharts.registry) :
  ECharts.live (ECharts.dispose c r)
  = filter (fun j => negb (ECharts.id j =? ECharts.id c)%nat) (ECharts.live r).
Proof.
  unfold ECharts.dispose.
  destruct (existsb _ (ECharts.live r)) eqn:E; simpl; [reflexivity|].
  symmetry. apply filter_all. intros x Hx.
  destruct (ECharts.id x =? ECharts.id c)%nat eqn:Q; [|reflexivity].
  assert (T : existsb (fun j => (ECharts.id j =? ECharts.id c)%nat) (ECharts.live r) = true)
    by (apply existsb_exists; eauto).
  congruence.
Qed.

Lemma dispose_all_live (cs : list ECharts.instance) : forall r,
  ECharts.live (ECharts.dispose_all cs r)
  = filter (fun j => negb (existsb (fun c => (ECharts.id j =? ECharts.id c)%nat) cs))
      (ECharts.live r).
Proof.
  induction cs as [|c cs IH]; intros r; simpl.
  - symmetry. now apply filter_all.
  - rewrite IH, dispose_live. induction (ECharts.live r) as [|x l IHl]; simpl; [reflexivity|].
    destruct (ECharts.id x =? ECharts.id c)%nat; simpl; [exact IHl|].
    destruct (existsb _ cs); simpl; [exact IHl | now rewrite IHl].
Qed.

Lemma saveContent_keeps (now : Z) (st : MultiContentEditor.state) (w : world) :
  let o := MultiContentEditor.saveContent now st w in
  MultiContentEditor.contentList (state_of o) = MultiContentEditor.contentList st /\
  MultiContentEditor.parseError (state_of o) = MultiContentEditor.parseError st /\
  MultiContentEditor.charts (state_of o) = MultiContentEditor.charts st /\
  MultiContentEditor.codeInput (state_of o) = MultiContentEditor.codeInput st /\
  FileList.filename (MultiContentEditor.cells (state_of o))
  = FileList.filename (MultiContentEditor.cells st).
Proof.
  unfold MultiContentEditor.saveContent, FileList.saveContent, MultiContentEditor.codeInput.
  destruct (FileList.loadSavedFiles _ _ _ _); [|repeat split].
  destruct (Timers.setTimeout _ _ _ _). repeat split.
Qed.





(** ** Rendering the blocks *)

Lemma render_items_app (md : string -> string) (l1 l2 : list JS.value) : forall index,
  MultiContentEditor.render_items md index (l1 ++ l2)
  = (es1 <- MultiContentEditor.render_items md index l1 ;;
     es2 <- MultiContentEditor.render_items md (index + List.length l1)%nat l2 ;;
     Ok (es1 ++ es2)%list).
Proof.
  induction l1 as [|x l1 IH]; intros index; simpl.
  - rewrite Nat.add_0_r. now destruct (MultiContentEditor.render_items md index l2).
  - destruct (MultiContentEditor.render_item md index x); simpl; [|reflexivity].
    rewrite IH. replace (S index + List.length l1)%nat with (index + S (List.length l1))%nat by lia.
    destruct (MultiContentEditor.render_items md (S index) l1); simpl; [|reflexivity].
    now destruct (MultiContentEditor.render_items md _ l2).
Qed.

Lemma render_unknown (md : string -> string) (item kind : JS.value) (index : nat) :
  JS.get item "kind" = Ok kind ->
  JS.is_string kind "chart" = false -> JS.is_string kind "markdown" = false ->
  MultiContentEditor.valid_child kind = true ->
  MultiContentEditor.render_item md index item
  = Ok (MultiContentEditor.UnknownType "Unknown content type: " kind).
Proof.
  intros K C M V. unfold MultiContentEditor.render_item. rewrite K. simpl.
  now rewrite C, M, V.
Qed.

(** C4, as amended.  A block whose kind is neither ['chart'] nor
    ['markdown'], and is a value React can show (a string, a number,
    nothing, or an array of such, but no object), renders at any
    position and without an exception to the marker
    [Unknown content type: kind]; in the rendered list the marker stands
    where the block stood, between the renderings of the blocks before
    it and after it, which are what they would be without it at those
    positions, and the list fails to render only when one of those
    fails. *)
Theorem unknown_kind_renders_marker
    (md : string -> string) (item kind : JS.value) :
  JS.get item "kind" = Ok kind ->
  JS.is_string kind "chart" = false -> JS.is_string kind "markdown" = false ->
  MultiContentEditor.valid_child kind = true ->
  let marker := MultiContentEditor.UnknownType "Unknown content type: " kind in
  (forall index, MultiContentEditor.render_item md index item = Ok marker)
  /\
  (forall before after,
      MultiContentEditor.render md (JS.Array (before ++ item :: after))
      = (es1 <- MultiContentEditor.render_items md 0 before ;;
         es2 <- MultiContentEditor.render_items md (S (List.length before)) after ;;
         Ok (es1 ++ marker :: es2)%list)).
Proof.
  intros K C M V marker. split.
  - intros index. now apply render_unknown.
  - intros before after. unfold MultiContentEditor.render.
    rewrite render_items_app. simpl.
    destruct (MultiContentEditor.render_items md 0 before); simpl; [|reflexivity].
    rewrite (render_unknown md item kind _ K C M V). simpl.
    now destruct (MultiContentEditor.render_items md _ after).
Qed.

Lemma unknown_kind_renders_marker_witness :
  JS.get video_block "kind" = Ok (JS.Str "video") /\
  MultiContentEditor.render md_plain (JS.Array [heading_block; video_block; empty_chart_block])
  = Ok [MultiContentEditor.Prose "# Hi";
        MultiContentEditor.UnknownType "Unknown content type: " (JS.Str "video");
        MultiContentEditor.ChartContainer 2].
Proof.
  split; [reflexivity|].
  destruct (unknown_kind_renders_marker md_plain video_block (JS.Str "video")
              eq_refl eq_refl eq_refl eq_refl) as [_ H].
  exact (H [heading_block] [empty_chart_block]).
Defined.

(** C4 as stated fails for a kind that is itself an object: it is
    neither ['chart'] nor ['markdown'], React refuses it as a child of
    the marker, and with the block the whole list fails to render, the
    heading before it included. *)
Lemma object_kind_is_refused :
  JS.get object_kind_block "kind" = Ok (JS.Object []) /\
  JS.is_string (JS.Object []) "chart" = false /\
  JS.is_string (JS.Object []) "markdown" = false /\
  MultiContentEditor.render_item md_plain 1 object_kind_block
  = Throw (Error "Objects are not valid as a React child") /\
  MultiContentEditor.render md_plain (JS.Array [heading_block])
  = Ok [MultiContentEditor.Prose "# Hi"] /\
  MultiContentEditor.render md_plain (JS.Array [heading_block; object_kind_block])
  = Throw (Error "Objects are not valid as a React child").
Proof. repeat split. Qed.

(** ** Saving on a timer *)

Lemma edit_writes_through (base : string) (compare : Files.file -> Files.file -> JS.number)
    (value : string) (t0 : Z) (st : FileList.state) (w : world) :
  storage (world_of (FileList.edit base compare value t0 st w))
  = Storage.setItem (FileList.put base (FileList.filename st) value t0 (storage w))
      (FileList.last_filename_key base) (FileList.filename st).
Proof.
  unfold FileList.edit, FileList.saveContent. simpl.
  destruct (FileList.loadSavedFiles _ _ _ _); reflexivity.
Qed.

(** A timer does not run before its delay: at a firing of an interval
    set no earlier than the last edit, that edit is at least 30000 ms
    old, and the callback does nothing. *)
Lemma interval_set_after_edit_is_idle
    (base : string) (armed now : Z) (st : FileList.state) (w : world) :
  FileList.lastEditTime st <= armed -> armed + 30000 <= now ->
  FileList.autoSave base now st w = (st, w).
Proof.
  intros A F. unfold FileList.autoSave.
  assert (E : (now - FileList.lastEditTime st <? 30000) = false) by (apply Z.ltb_ge; lia).
  now rewrite E.
Qed.

(** *** The time of the last edit after an event *)

Lemma saveContent_cells (base : string) (compare : Files.file -> Files.file -> JS.number)
    (now : Z) (st : FileList.state) (w : world) :
  let o := FileList.saveContent base compare now st w in
  FileList.filename (state_of o) = FileList.filename st /\
  FileList.codeInput (state_of o) = FileList.codeInput st /\
  FileList.lastEditTime (state_of o) = FileList.lastEditTime st.
Proof.
  unfold FileList.saveContent.
  destruct (FileList.loadSavedFiles _ _ _ _); [|repeat split].
  destruct (Timers.setTimeout _ _ _ _). repeat split.
Qed.

Lemma handleNewFile_time (base default : string)
    (compare : Files.file -> Files.file -> JS.number)
    (now : Z) (st : FileList.state) (w : world) :
  FileList.lastEditTime (state_of (FileList.handleNewFile base default compare now st w)) = now.
Proof.
  unfold FileList.handleNewFile. now destruct (FileList.loadSavedFiles _ _ _ _).
Qed.

Lemma handleFilenameChange_time (base : string)
    (compare : Files.file -> Files.file -> JS.number)
    (value : string) (now : Z) (st : FileList.state) (w : world) :
  FileList.lastEditTime (state_of (FileList.handleFilenameChange base compare value now st w))
  = FileList.lastEditTime st.
Proof.
  unfold FileList.handleFilenameChange.
  destruct (_ && _)%bool; [|reflexivity].
  now destruct (FileList.loadSavedFiles _ _ _ _).
Qed.

Lemma handleFileClick_time (base default : string) (file : Files.file)
    (now : Z) (st : FileList.state) (w : world) (o : outcome FileList.state) :
  FileList.handleFileClick base default file now st w = Some o ->
  FileList.lastEditTime (state_of o) = FileList.lastEditTime st \/
  FileList.lastEditTime (state_of o) = now.
Proof.
  unfold FileList.handleFileClick.
  destruct (FileList.clickedContent _ _ _) as [content|e].
  - destruct (JS.get content "text") as [text|e].
    + destruct (JS.or_else text _); try discriminate.
      intros H. injection H as <-. now right.
    + intros H. injection H as <-. now left.
  - intros H. injection H as <-. now left.
Qed.

Lemma handleDeleteFile_time (base default : string)
    (compare : Files.file -> Files.file -> JS.number) (confirm : bool) (file : Files.file)
    (now : Z) (st : FileList.state) (w : world) :
  let o := FileList.handleDeleteFile base default compare confirm file now st w in
  FileList.lastEditTime (state_of o) = FileList.lastEditTime st \/
  FileList.lastEditTime (state_of o) = now.
Proof.
  unfold FileList.handleDeleteFile. destruct confirm; [|now left].
  destruct (Files.name file =? FileList.filename st)%string.
  - pose proof (handleNewFile_time base default compare now st
                  (set_storage (Storage.removeItem (storage w)
                                  (FileList.storage_key base (Files.name file))) w)) as T.
    destruct (FileList.handleNewFile base default compare now st _) as [st1 w1 [e|]];
      cbn [thrown state_of world_of] in *; [now right|].
    destruct (FileList.loadSavedFiles _ _ _ _); now right.
  - cbn [thrown state_of world_of].
    destruct (FileList.loadSavedFiles _ _ _ _); now left.
Qed.

Lemma markdown_saveEffect_time (now : Z) (st : FileList.state) (w : world) :
  FileList.lastEditTime (state_of (MarkdownEditor.saveEffect now st w))
  = FileList.lastEditTime st.
Proof.
  unfold MarkdownEditor.saveEffect, MarkdownEditor.saveContent.
  destruct (saveContent_cells MarkdownEditor.BASE_STORAGE_KEY Files.by_filename now st w)
    as (_ & _ & T).
  now destruct (thrown _).
Qed.

Lemma markdown_rerender_time (now : Z) (before : FileList.state)
    (o : outcome FileList.state) :
  FileList.lastEditTime (state_of (MarkdownEditor.rerender now before o))
  = FileList.lastEditTime (state_of o).
Proof.
  unfold MarkdownEditor.rerender. destruct (_ && _)%bool; [reflexivity|].
  apply markdown_saveEffect_time.
Qed.

Lemma markdown_act_time (a : FileList.action) (now : Z) (st : FileList.state) (w : world)
    (o : outcome FileList.state) :
  MarkdownEditor.act a now st w = Some o ->
  FileList.lastEditTime (state_of o) = FileList.lastEditTime st \/
  FileList.lastEditTime (state_of o) = now.
Proof.
  destruct a as [value|value|file| |confirm file]; cbn [MarkdownEditor.act].
  - intros H. injection H as <-. right. unfold MarkdownEditor.edit.
    now rewrite markdown_saveEffect_time.
  - intros H. injection H as <-. left. unfold MarkdownEditor.onFilenameChange.
    rewrite markdown_rerender_time. apply handleFilenameChange_time.
  - unfold MarkdownEditor.onFileClick.
    destruct (MarkdownEditor.handleFileClick file now st w) as [h|] eqn:C; [|discriminate].
    intros H. injection H as <-. rewrite markdown_rerender_time.
    exact (handleFileClick_time _ _ _ _ _ _ _ C).
  - intros H. injection H as <-. right. unfold MarkdownEditor.onNewFile.
    rewrite markdown_rerender_time. apply handleNewFile_time.
  - intros H. injection H as <-. unfold MarkdownEditor.onDeleteFile.
    rewrite markdown_rerender_time. apply handleDeleteFile_time.
Qed.

Lemma chart_saveEffect_time (evaluate : string -> world -> option exn * world)
    (now : Z) (st : EChartsEditor.state) (w : world) :
  FileList.lastEditTime (EChartsEditor.cells (state_of (EChartsEditor.saveEffect evaluate now st w)))
  = FileList.lastEditTime (EChartsEditor.cells st).
Proof.
  unfold EChartsEditor.saveEffect, EChartsEditor.saveContent.
  destruct (saveContent_cells EChartsEditor.BASE_STORAGE_KEY Files.by_lastModified now
              (EChartsEditor.cells st) w) as (_ & _ & T).
  destruct (thrown _); [exact T|].
  now destruct (evaluate _ _).
Qed.

Lemma chart_rerender_time (evaluate : string -> world -> option exn * world)
    (now : Z) (before : EChartsEditor.state) (o : outcome EChartsEditor.state) :
  FileList.lastEditTime (EChartsEditor.cells (state_of (EChartsEditor.rerender evaluate now before o)))
  = FileList.lastEditTime (EChartsEditor.cells (state_of o)).
Proof.
  unfold EChartsEditor.rerender. destruct (_ && _)%bool; [reflexivity|].
  apply chart_saveEffect_time.
Qed.

Lemma chart_act_time (evaluate : string -> world -> option exn * world)
    (a : FileList.action) (now : Z) (st : EChartsEditor.state) (w : world)
    (o : outcome EChartsEditor.state) :
  EChartsEditor.act evaluate a now st w = Some o ->
  FileList.lastEditTime (EChartsEditor.cells (state_of o))
  = FileList.lastEditTime (EChartsEditor.cells st) \/
  FileList.lastEditTime (EChartsEditor.cells (state_of o)) = now.
Proof.
  destruct a as [value|value|file| |confirm file]; cbn [EChartsEditor.act].
  - intros H. injection H as <-. right. unfold EChartsEditor.edit.
    now rewrite chart_saveEffect_time.
  - intros H. injection H as <-. left. unfold EChartsEditor.onFilenameChange.
    rewrite chart_rerender_time. apply handleFilenameChange_time.
  - unfold EChartsEditor.onFileClick.
    destruct (EChartsEditor.handleFileClick file now (EChartsEditor.cells st) w)
      as [h|] eqn:C; [|discriminate].
    intros H. injection H as <-. rewrite chart_rerender_time.
    exact (handleFileClick_time _ _ _ _ _ _ _ C).
  - intros H. injection H as <-. right. unfold EChartsEditor.onNewFile.
    rewrite chart_rerender_time. apply handleNewFile_time.
  - intros H. injection H as <-. unfold EChartsEditor.onDeleteFile.
    rewrite chart_rerender_time. apply handleDeleteFile_time.
Qed.

(** *** Every event sets the interval no earlier than the last edit *)

Section IntervalFacts.

Variable S : Type.
Variable cells : S -> FileList.state.
Variable setCells : FileList.state -> S -> S.
Variable act : FileList.action -> Z -> S -> world -> option (outcome S).
Variable base : string.

Hypothesis cells_setCells : forall c s, cells (setCells c s) = c.
Hypothesis setCells_cells : forall s, setCells (cells s) s = s.
Hypothesis act_time :
  forall a now st w o,
    act a now st w = Some o ->
    FileList.lastEditTime (cells (state_of o)) = FileList.lastEditTime (cells st) \/
    FileList.lastEditTime (cells (state_of o)) = now.

Lemma autoSaveEffect_cases (now : Z) (before after : FileList.state) (interval : Z) :
  (AutoSave.autoSaveEffect now before after interval = interval /\
   FileList.lastEditTime after = FileList.lastEditTime before)
  \/ AutoSave.autoSaveEffect now before after interval = now.
Proof.
  unfold AutoSave.autoSaveEffect.
  destruct (FileList.codeInput after =? FileList.codeInput before)%string; [|now right].
  destruct (FileList.filename after =? FileList.filename before)%string; [|now right].
  destruct (FileList.lastEditTime after =? FileList.lastEditTime before) eqn:E; [|now right].
  left. split; [reflexivity | now apply Z.eqb_eq].
Qed.

Lemma elapse_time (now : Z) (c : FileList.state) (w : world) :
  FileList.lastEditTime (fst (FileList.elapse now c w)) = FileList.lastEditTime c.
Proof.
  unfold FileList.elapse. destruct (Timers.due_at now (timers w)) as [due rest].
  cbn [fst]. revert c. induction due as [|tm due IH]; intros c; [reflexivity|].
  cbn [fold_left]. rewrite IH. unfold FileList.fire. now destruct (Timers.run tm).
Qed.

Lemma step_set_since_edit (e : AutoSave.event) (now : Z)
    (s s' : AutoSave.session S) :
  set_since_edit cells s ->
  AutoSave.step S cells setCells act base e now s = Some s' ->
  set_since_edit cells s'.
Proof.
  intros [A B]. unfold AutoSave.step.
  destruct (now <? AutoSave.clock s) eqn:T; [discriminate|]. apply Z.ltb_ge in T.
  destruct e as [a| |].
  - destruct (act a now (AutoSave.editor s) (AutoSave.env s)) as [o|] eqn:E; [|discriminate].
    intros H. injection H as <-. unfold set_since_edit.
    cbn [AutoSave.editor AutoSave.interval AutoSave.clock].
    destruct (autoSaveEffect_cases now (cells (AutoSave.editor s)) (cells (state_of o))
                (AutoSave.interval s)) as [[I L]|I]; rewrite I.
    + rewrite L. lia.
    + destruct (act_time a now _ _ o E) as [L|L]; rewrite L; lia.
  - destruct (AutoSave.can_fire (AutoSave.interval s) now) eqn:F; [|discriminate].
    unfold AutoSave.can_fire in F. apply Z.leb_le in F.
    rewrite (interval_set_after_edit_is_idle base (AutoSave.interval s) now _ _ A F).
    intros H. injection H as <-. unfold set_since_edit.
    cbn [AutoSave.editor AutoSave.interval AutoSave.clock]. rewrite cells_setCells. lia.
  - pose proof (elapse_time now (cells (AutoSave.editor s)) (AutoSave.env s)) as L.
    destruct (FileList.elapse now (cells (AutoSave.editor s)) (AutoSave.env s)) as [c w].
    intros H. injection H as <-. unfold set_since_edit.
    cbn [AutoSave.editor AutoSave.interval AutoSave.clock fst] in *.
    rewrite cells_setCells, L. lia.
Qed.

Lemma run_set_since_edit (events : list (Z * AutoSave.event)) :
  forall s s',
    set_since_edit cells s ->
    AutoSave.run S cells setCells act base events s = Some s' ->
    set_since_edit cells s'.
Proof.
  induction events as [|[now e] events IH]; intros s s' I R; simpl in R.
  - now injection R as <-.
  - destruct (AutoSave.step S cells setCells act base e now s) as [s1|] eqn:E; [|discriminate].
    exact (IH s1 s' (step_set_since_edit e now s s1 I E) R).
Qed.

(** A firing changes nothing. *)
Lemma fire_is_idle (now : Z) (s s' : AutoSave.session S) :
  set_since_edit cells s ->
  AutoSave.step S cells setCells act base AutoSave.Fire now s = Some s' ->
  AutoSave.editor s' = AutoSave.editor s /\ AutoSave.env s' = AutoSave.env s.
Proof.
  intros [A B]. unfold AutoSave.step.
  destruct (now <? AutoSave.clock s); [discriminate|].
  destruct (AutoSave.can_fire (AutoSave.interval s) now) eqn:F; [|discriminate].
  unfold AutoSave.can_fire in F. apply Z.leb_le in F.
  rewrite (interval_set_after_edit_is_idle base (AutoSave.interval s) now _ _ A F).
  intros H. injection H as <-. cbn [AutoSave.editor AutoSave.env].
  split; [apply setCells_cells | reflexivity].
Qed.

End IntervalFacts.

Lemma listFiles_cells (base : string) (compare : Files.file -> Files.file -> JS.number)
    (now : Z) (st : FileList.state) (w : world) :
  FileList.lastEditTime (state_of (FileList.listFiles base compare now st w))
  = FileList.lastEditTime st.
Proof. unfold FileList.listFiles. now destruct (FileList.loadSavedFiles _ _ _ _). Qed.

Lemma initialState_time (base default : string) (s : Storage.t) (now : Z)
    (st : FileList.state) :
  FileList.initialState base default s now = Some st -> FileList.lastEditTime st = now.
Proof.
  unfold FileList.initialState. destruct (FileList.initialContent _ _ _ _); try discriminate.
  intros H. now injection H as <-.
Qed.

Lemma markdown_mount_time (now : Z) (w : world) (o : outcome FileList.state) :
  MarkdownEditor.mount now w = Some o -> FileList.lastEditTime (state_of o) = now.
Proof.
  unfold MarkdownEditor.mount.
  destruct (FileList.initialState _ _ _ _) as [st|] eqn:I; [|discriminate].
  apply initialState_time in I. intros H. injection H as <-.
  assert (M : FileList.lastEditTime (state_of (MarkdownEditor.mountEffect now st w)) = now).
  { unfold MarkdownEditor.mountEffect.
    pose proof (listFiles_cells MarkdownEditor.BASE_STORAGE_KEY Files.by_filename now st w) as L.
    destruct (thrown (FileList.listFiles _ _ _ _ _)); cbn [state_of]; congruence. }
  revert M. generalize (MarkdownEditor.mountEffect now st w). intros m M.
  destruct (thrown m); [exact M|].
  now rewrite markdown_saveEffect_time.
Qed.

Lemma chart_mount_time (evaluate : string -> world -> option exn * world)
    (now : Z) (w : world) (o : outcome EChartsEditor.state) :
  EChartsEditor.mount evaluate now w = Some o ->
  FileList.lastEditTime (EChartsEditor.cells (state_of o)) = now.
Proof.
  unfold EChartsEditor.mount.
  destruct (FileList.initialState _ _ _ _) as [c|] eqn:I; [|discriminate].
  apply initialState_time in I. intros H. injection H as <-.
  unfold EChartsEditor.mountEffect, EChartsEditor.lift.
  cbn [thrown state_of world_of EChartsEditor.cells].
  destruct (thrown (FileList.listFiles EChartsEditor.BASE_STORAGE_KEY Files.by_lastModified
                      now c w)).
  - cbn [state_of EChartsEditor.cells]. now rewrite listFiles_cells.
  - rewrite chart_saveEffect_time. cbn [EChartsEditor.cells]. now rewrite listFiles_cells.
Qed.

(** C8 fails on the code, against the code's own comment
    [Auto-save every 30 seconds if changes were made].  The auto-save
    effect has [lastEditTime] among its dependencies, so every edit
    clears the interval and sets a new one: the interval is not fixed,
    and when it fires the last edit is 30000 ms old or older.  In the
    markdown editor and in the chart editor, whatever the user does
    after the mount and whatever the text of the chart editor does when
    it is run, no firing of the interval writes to the storage, shows a
    status or starts a timer.  With a mount at 0 ms and one edit at
    20000 ms nothing fires at 30000 ms, and the firing at 50000 ms
    leaves the document as the edit stored it, whereas the callback run
    at 30000 ms would have stored it again and shown [Auto-saved!]. *)
Theorem interval_never_saves :
  (forall (t now : Z) (w : world) (o : outcome FileList.state)
          (events : list (Z * AutoSave.event))
          (s s' : AutoSave.session FileList.state),
      MarkdownEditor.mount t w = Some o ->
      markdown_run events (AutoSave.mounted t o) = Some s ->
      markdown_step AutoSave.Fire now s = Some s' ->
      AutoSave.editor s' = AutoSave.editor s /\ AutoSave.env s' = AutoSave.env s)
  /\
  (forall (evaluate : string -> world -> option exn * world)
          (t now : Z) (w : world) (o : outcome EChartsEditor.state)
          (events : list (Z * AutoSave.event))
          (s s' : AutoSave.session EChartsEditor.state),
      EChartsEditor.mount evaluate t w = Some o ->
      chart_run evaluate events (AutoSave.mounted t o) = Some s ->
      chart_step evaluate AutoSave.Fire now s = Some s' ->
      AutoSave.editor s' = AutoSave.editor s /\ AutoSave.env s' = AutoSave.env s)
  /\
  (exists s,
      markdown_edited_at_20000 = Some s /\
      AutoSave.interval s = 20000 /\
      FileList.lastEditTime (AutoSave.editor s) = 20000 /\
      markdown_step AutoSave.Fire 30000 s = None /\
      (exists s', markdown_step AutoSave.Fire 50000 s = Some s' /\
                  AutoSave.editor s' = AutoSave.editor s /\
                  AutoSave.env s' = AutoSave.env s /\
                  Storage.getItem (storage (AutoSave.env s')) "markdown-editor-content-untitled"
                  = Some (JSON.stringify {| JSON.text := "x"; JSON.lastModified := 20000 |})) /\
      let r := MarkdownEditor.autoSave 30000 (AutoSave.editor s) (AutoSave.env s) in
      Storage.getItem (storage (snd r)) "markdown-editor-content-untitled"
      = Some (JSON.stringify {| JSON.text := "x"; JSON.lastModified := 30000 |}) /\
      FileList.saveStatus (fst r) = "Auto-saved!").
Proof.
  split; [|split].
  - intros t now w o events s s' M R F.
    assert (I0 : set_since_edit (fun c : FileList.state => c)
                   (AutoSave.mounted t o)).
    { unfold set_since_edit. cbn [AutoSave.mounted AutoSave.editor AutoSave.interval
        AutoSave.clock]. rewrite (markdown_mount_time t w o M). lia. }
    assert (I : set_since_edit (fun c : FileList.state => c) s).
    { apply (run_set_since_edit FileList.state (fun c => c) (fun c _ => c) MarkdownEditor.act
               MarkdownEditor.BASE_STORAGE_KEY (fun _ _ => eq_refl) markdown_act_time
               events _ s I0 R). }
    exact (fire_is_idle FileList.state (fun c => c) (fun c _ => c) MarkdownEditor.act
             MarkdownEditor.BASE_STORAGE_KEY (fun _ => eq_refl) now s s' I F).
  - intros evaluate t now w o events s s' M R F.
    assert (I0 : set_since_edit EChartsEditor.cells
                   (AutoSave.mounted t o)).
    { unfold set_since_edit. cbn [AutoSave.mounted AutoSave.editor AutoSave.interval
        AutoSave.clock]. rewrite (chart_mount_time evaluate t w o M). lia. }
    assert (I : set_since_edit EChartsEditor.cells s).
    { apply (run_set_since_edit EChartsEditor.state EChartsEditor.cells
               EChartsEditor.setCells (EChartsEditor.act evaluate)
               EChartsEditor.BASE_STORAGE_KEY (fun _ _ => eq_refl) (chart_act_time evaluate)
               events _ s I0 R). }
    assert (E : forall s0, EChartsEditor.setCells (EChartsEditor.cells s0) s0 = s0)
      by (intros [c e]; reflexivity).
    exact (fire_is_idle EChartsEditor.state EChartsEditor.cells EChartsEditor.setCells
             (EChartsEditor.act evaluate) EChartsEditor.BASE_STORAGE_KEY E now s s' I F).
  - eexists. split; [vm_compute; reflexivity|].
    split; [reflexivity|]. split; [reflexivity|]. split; [reflexivity|].
    split; [|split; reflexivity].
    eexists. split; [vm_compute; reflexivity|].
    split; [reflexivity|]. split; reflexivity.
Qed.

(** The value an evaluation returns, handed to [k]. *)
Ltac name_result t k :=
  let v := eval vm_compute in t in
  match v with
  | Some ?x => k x
  end.

Lemma interval_never_saves_witness :
  (exists s s',
      markdown_edited_at_20000 = Some s /\
      markdown_step AutoSave.Fire 80000 s = Some s' /\
      AutoSave.editor s' = AutoSave.editor s /\ AutoSave.env s' = AutoSave.env s)
  /\
  (exists o s s',
      EChartsEditor.mount evaluate_throws 0 (world_with []) = Some o /\
      chart_run evaluate_throws [(20000, AutoSave.Act (FileList.Edit "x"))]
        (AutoSave.mounted 0 o) = Some s /\
      chart_step evaluate_throws AutoSave.Fire 80000 s = Some s' /\
      AutoSave.editor s' = AutoSave.editor s /\ AutoSave.env s' = AutoSave.env s).
Proof.
  destruct interval_never_saves as (Markdown & Chart & _). split.
  - name_result (MarkdownEditor.mount 0 (world_with [])) ltac:(fun x => pose (o := x)).
    assert (M : MarkdownEditor.mount 0 (world_with []) = Some o) by (vm_compute; reflexivity).
    name_result (markdown_run [(20000, AutoSave.Act (FileList.Edit "x"))] (AutoSave.mounted 0 o))
      ltac:(fun x => pose (s := x)).
    assert (R : markdown_run [(20000, AutoSave.Act (FileList.Edit "x"))] (AutoSave.mounted 0 o)
                = Some s) by (vm_compute; reflexivity).
    name_result (markdown_step AutoSave.Fire 80000 s) ltac:(fun x => pose (s' := x)).
    assert (F : markdown_step AutoSave.Fire 80000 s = Some s') by (vm_compute; reflexivity).
    exists s, s'. split; [vm_compute; reflexivity|]. split; [exact F|].
    exact (Markdown 0 80000 (world_with []) o _ s s' M R F).
  - name_result (EChartsEditor.mount evaluate_throws 0 (world_with []))
      ltac:(fun x => pose (o := x)).
    assert (M : EChartsEditor.mount evaluate_throws 0 (world_with []) = Some o)
      by (vm_compute; reflexivity).
    name_result (chart_run evaluate_throws [(20000, AutoSave.Act (FileList.Edit "x"))]
                   (AutoSave.mounted 0 o)) ltac:(fun x => pose (s := x)).
    assert (R : chart_run evaluate_throws [(20000, AutoSave.Act (FileList.Edit "x"))]
                  (AutoSave.mounted 0 o) = Some s) by (vm_compute; reflexivity).
    name_result (chart_step evaluate_throws AutoSave.Fire 80000 s) ltac:(fun x => pose (s' := x)).
    assert (F : chart_step evaluate_throws AutoSave.Fire 80000 s = Some s')
      by (vm_compute; reflexivity).
    exists o, s, s'. split; [exact M|]. split; [exact R|]. split; [exact F|].
    exact (Chart evaluate_throws 0 80000 (world_with []) o _ s s' M R F).
Defined.

(** ** The timer that clears the save status *)

(** [saveContent] leaves every pending timer pending: the function that
    would clear its timer is returned to the effect, which drops it. *)
Lemma saveContent_cancels_nothing
    (base : string) (compare : Files.file -> Files.file -> JS.number)
    (now : Z) (st : FileList.state) (w : world) (tm : Timers.timer) :
  In tm (Timers.pending (timers w)) ->
  In tm (Timers.pending (timers (world_of (FileList.saveContent base compare now st w)))).
Proof.
  intros H. unfold FileList.saveContent.
  destruct (FileList.loadSavedFiles _ _ _ _); simpl; [|exact H].
  apply in_or_app. now left.
Qed.

(** The plain-text editor's effect clears the timer of its last run. *)
Lemma plain_saveEffect_one_timer (now : Z) (st : PlainMarkdownEditor.state) (w : world) :
  Timers.pending (timers w)
  = match PlainMarkdownEditor.cleanup st with
    | Some t => [clear_timer t (now - 1)]
    | None => []
    end ->
  exists t, PlainMarkdownEditor.cleanup (fst (PlainMarkdownEditor.saveEffect now st w)) = Some t /\
            Timers.pending (timers (snd (PlainMarkdownEditor.saveEffect now st w)))
            = [clear_timer t (now + 2000)].
Proof.
  intros H. unfold PlainMarkdownEditor.saveEffect.
  destruct (PlainMarkdownEditor.cleanup st) as [t|]; simpl.
  - unfold Timers.clearTimeout. rewrite H. simpl. rewrite Nat.eqb_refl. simpl.
    eexists; split; reflexivity.
  - rewrite H. eexists; split; reflexivity.
Qed.

(** C9.  In the multi-content editor and in the file-list markdown
    editor a save does not cancel the clear timer of the save before
    it.  After an edit at 0 ms and an edit at 1500 ms both timers are
    pending, and at 2000 ms the first one clears the status that the
    second save set at 1500 ms and that was to stay until 3500 ms. *)
Theorem stale_clear_fires :
  (thrown multi_after_second_edit = None /\
   FileList.saveStatus (MultiContentEditor.cells (state_of multi_after_second_edit)) = "Saved!" /\
   Timers.pending (timers (world_of multi_after_second_edit))
   = [clear_timer 0 2000; clear_timer 1 3500] /\
   FileList.saveStatus (MultiContentEditor.cells (fst multi_at_2000)) = "" /\
   Timers.pending (timers (snd multi_at_2000)) = [clear_timer 1 3500])
  /\
  (thrown markdown_after_second_edit = None /\
   FileList.saveStatus (state_of markdown_after_second_edit) = "Saved!" /\
   Timers.pending (timers (world_of markdown_after_second_edit))
   = [clear_timer 0 2000; clear_timer 1 3500] /\
   FileList.saveStatus (fst markdown_at_2000) = "" /\
   Timers.pending (timers (snd markdown_at_2000)) = [clear_timer 1 3500]).
Proof. repeat split. Qed.

(** The plain-text editor on the same edits: its effect returns the
    [clearTimeout], so one timer is pending and the status set at
    1500 ms is still shown at 2000 ms. *)
Example plain_editor_cancels_stale_clear :
  Timers.pending (timers (snd plain_after_second_edit)) = [clear_timer 1 3500] /\
  PlainMarkdownEditor.saveStatus (fst plain_at_2000) = "Saved!".
Proof. split; reflexivity. Qed.

(** ** The chart instances of a render pass *)


(** Dropping instances from a live set leaves one per container. *)
Lemma filter_one_per_container (keep : ECharts.instance -> bool)
    (snap : list ECharts.instance) :
  one_per_container snap -> one_per_container (filter keep snap).
Proof.
  unfold one_per_container. intros N.
  induction snap as [|i snap IH]; cbn [filter map]; [constructor|].
  apply NoDup_cons_iff in N. destruct N as [Fresh Rest].
  destruct (keep i); cbn [map]; [|exact (IH Rest)].
  apply NoDup_cons; [|exact (IH Rest)].
  intros Held. apply Fresh.
  apply in_map_iff in Held. destruct Held as (j & Same & Kept).
  apply filter_In in Kept. apply in_map_iff. exists j. tauto.
Qed.


Lemma good_nil : good [].
Proof. split; [reflexivity | constructor]. Qed.




Lemma filter_none {A : Type} (p : A -> bool) (l : list A) :
  (forall x, In x l -> p x = false) -> filter p l = [].
Proof.
  induction l as [|x l IH]; simpl; intros H; [reflexivity|].
  rewrite (H x (or_introl eq_refl)). apply IH. auto.
Qed.



Lemma get_get_opt (v x : JS.value) (k : string) :
  JS.get v k = Ok x -> JS.get_opt v k = x.
Proof. destruct v; simpl; intros H; try discriminate; now injection H. Qed.

(** A block that renders is a chart block placed in its container, or
    no chart block. *)
Lemma render_item_chart (md : string -> string) (index : nat) (item : JS.value)
    (e : MultiContentEditor.element) :
  MultiContentEditor.render_item md index item = Ok e ->
  exists kind, JS.get item "kind" = Ok kind /\
               JS.is_string kind "chart" = is_chart item /\
               (is_chart item = true -> e = MultiContentEditor.ChartContainer index).
Proof.
  unfold MultiContentEditor.render_item, is_chart.
  destruct (JS.get item "kind") as [kind|] eqn:K; simpl; [|discriminate].
  rewrite (get_get_opt _ _ _ K). intros H. exists kind. repeat split.
  intros C. rewrite C in H. now injection H.
Qed.


Lemma NoDup_snoc {A : Type} (l : list A) (x : A) :
  NoDup l -> ~ In x l -> NoDup (l ++ [x]).
Proof.
  induction l as [|y l IH]; simpl; intros N H.
  - constructor; [intros []|constructor].
  - inversion N as [|? ? Hy Hl]; subst. constructor.
    + intros Hin. apply in_app_or in Hin. destruct Hin as [Hin|[Hin|[]]]; [tauto|].
      subst. tauto.
    + apply IH; tauto.
Qed.


Lemma eqb_node (a b : DOM.node) : DOM.eqb a b = true <-> a = b.
Proof.
  destruct a as [x|x i], b as [y|y j]; simpl; split; intros H; try discriminate H.
  - apply Nat.eqb_eq in H. now subst.
  - injection H as ->. apply Nat.eqb_refl.
  - apply andb_true_iff in H as [H1 H2]. apply Nat.eqb_eq in H1, H2. now subst.
  - injection H as -> ->. now rewrite !Nat.eqb_refl.
Qed.

(** *** What a commit leaves on the page *)

Lemma commit_slots_shape (page : list MultiContentEditor.element) :
  forall old fresh, Forall2 shows_as page (MultiContentEditor.commit_slots page old fresh).
Proof.
  induction page as [|e page IH]; intros old fresh; cbn [MultiContentEditor.commit_slots];
    constructor; [|apply IH].
  destruct e as [i|html|label kind]; simpl; try reflexivity.
  destruct (option_map DOM.shows (hd_error old)) as [[|html' serial|]|]; eauto.
  destruct (html' =? html)%string; eauto.
Qed.




Lemma commit_slots_length (page : list MultiContentEditor.element) :
  forall old fresh,
    List.length (MultiContentEditor.commit_slots page old fresh) = List.length page.
Proof.
  induction page as [|e page IH]; intros old fresh; simpl; [reflexivity|]. now rewrite IH.
Qed.

(** Where no markup ahead of it holds its id, the container of a chart
    block is the element [getElementById] finds. *)
Lemma find_id_container (ids : string -> list nat) (n : nat) :
  forall (page : list MultiContentEditor.element) (slots : list DOM.slot) (position c : nat),
    Forall2 shows_as page slots ->
    nth_error page n = Some (MultiContentEditor.ChartContainer c) ->
    (forall p html, (p < n)%nat ->
                    nth_error page p = Some (MultiContentEditor.Prose html) ->
                    ~ In (position + n)%nat (ids html)) ->
    MultiContentEditor.find_id ids (position + n) position slots
    = option_map (fun s => DOM.Inner (DOM.inner s)) (nth_error slots n).
Proof.
  induction n as [|n IH]; intros page slots position c F E U.
  - destruct F as [|e s page slots Sh F]; [discriminate E|].
    injection E as ->. simpl in Sh. cbn [MultiContentEditor.find_id nth_error option_map].
    now rewrite Sh, Nat.add_0_r, Nat.eqb_refl.
  - destruct F as [|e s page slots Sh F]; [discriminate E|].
    cbn [nth_error] in E. cbn [MultiContentEditor.find_id nth_error].
    replace (position + S n)%nat with (S position + n)%nat in * by lia.
    assert (R : MultiContentEditor.find_id ids (S position + n) (S position) slots
                = option_map (fun s => DOM.Inner (DOM.inner s)) (nth_error slots n)).
    { apply (IH page slots (S position) c F E).
      intros p html L P. apply (U (S p) html); [lia | exact P]. }
    destruct e as [i|html|label kind]; simpl in Sh.
    + rewrite Sh. assert (Q : (position =? S position + n)%nat = false)
        by (apply Nat.eqb_neq; lia).
      now rewrite Q.
    + destruct Sh as [serial Sh]. rewrite Sh.
      assert (Q : existsb (Nat.eqb (S position + n)) (ids html) = false).
      { apply not_true_iff_false. intros X. apply existsb_exists in X as (k & I & K).
        apply Nat.eqb_eq in K. subst k. apply (U 0%nat html); [lia | reflexivity | exact I]. }
      now rewrite Q.
    + now rewrite Sh.
Qed.


Lemma skipn_app_exact {A : Type} (l1 l2 : list A) :
  skipn (List.length l1) (l1 ++ l2) = l2.
Proof. induction l1; simpl; auto. Qed.



(** A chart block renders to the container of its position. *)
Lemma render_items_chart (md : string -> string) (items : list JS.value) :
  forall index elements j item,
    MultiContentEditor.render_items md index items = Ok elements ->
    nth_error items j = Some item -> is_chart item = true ->
    nth_error elements j = Some (MultiContentEditor.ChartContainer (index + j)).
Proof.
  induction items as [|x rest IH]; intros index elements j item R E C;
    [destruct j; discriminate E|].
  simpl in R.
  destruct (MultiContentEditor.render_item md index x) as [e|] eqn:RI;
    simpl in R; [|discriminate].
  destruct (MultiContentEditor.render_items md (S index) rest) as [es|] eqn:RR;
    simpl in R; [|discriminate].
  injection R as <-. destruct j as [|j].
  - injection E as ->. destruct (render_item_chart md index item e RI) as (_ & _ & _ & CE).
    rewrite (CE C), Nat.add_0_r. reflexivity.
  - cbn [nth_error] in *. rewrite (IH (S index) es j item RR E C). f_equal. f_equal. lia.
Qed.

Lemma render_items_length (md : string -> string) (items : list JS.value) :
  forall index elements,
    MultiContentEditor.render_items md index items = Ok elements ->
    List.length elements = List.length items.
Proof.
  induction items as [|x rest IH]; intros index elements R.
  - injection R as <-. reflexivity.
  - simpl in R.
    destruct (MultiContentEditor.render_item md index x) as [e|]; simpl in R; [|discriminate].
    destruct (MultiContentEditor.render_items md (S index) rest) as [es|] eqn:RR;
      simpl in R; [|discriminate].
    injection R as <-. simpl. f_equal. now apply (IH _ _ RR).
Qed.






(** The live sets of that frame; a set lists id, element and callback
    of each instance. *)
Example overlapping_pass_trace :
  let r := MultiContentEditor.render_pass md_plain accepts_all no_ids (two_charts "2") 2
             (fst after_quick_edit) (snd after_quick_edit) in
  map (map (fun i => (ECharts.id i, ECharts.dom i, ECharts.pass i)))
      (new_snapshots (registry (snd after_quick_edit)) (registry (snd r)))
  = [ [(2, DOM.Inner 0, 2)]; [(2, DOM.Inner 0, 2); (3, DOM.Inner 2, 2)];
      [(3, DOM.Inner 2, 2)]; [(3, DOM.Inner 2, 2); (4, DOM.Inner 0, 3)];
      [(4, DOM.Inner 0, 3)]; [(4, DOM.Inner 0, 3); (5, DOM.Inner 2, 3)] ]%nat.
Proof. reflexivity. Qed.

(** C2 as stated fails also where a markdown block ahead of a chart
    block holds an element with the id of that block's container:
    [getElementById] finds the element of the markup, the instance is
    made on it, and the container of the chart block stays empty. *)
Example injected_id_takes_the_chart :
  let r := MultiContentEditor.render_pass md_plain accepts_all decoy_ids decoy_text 0
             (multi_on "draft" "") (world_with []) in
  JSON.parse decoy_text = Ok (JS.Array [decoy_block; empty_chart_block]) /\
  MultiContentEditor.view md_plain (MultiContentEditor.contentList (fst r))
  = [MultiContentEditor.Prose decoy_markup; MultiContentEditor.ChartContainer 1] /\
  container (document (snd r)) 1 = Some (DOM.Inner 2) /\
  map ECharts.dom (ECharts.live (registry (snd r))) = [DOM.Inside 1 1] /\
  ~ pass_invariants md_plain accepts_all decoy_ids decoy_text 0
      (multi_on "draft" "") (world_with []) [decoy_block; empty_chart_block].
Proof.
  repeat split; try reflexivity.
  intros (_ & H & _). vm_compute in H. discriminate H.
Qed.

(** ** One instance per element, in every state *)

Lemma find_some_unique (c : DOM.node) (l : list ECharts.instance) (e : ECharts.instance) :
  one_per_container l ->
  find (fun i => DOM.eqb (ECharts.dom i) c) l = Some e ->
  forall x, In x l -> ECharts.dom x = c -> x = e.
Proof.
  unfold one_per_container. induction l as [|y l IH]; simpl; intros N F x Hx D; [destruct Hx|].
  inversion N as [|? ? Hy Hl]; subst.
  destruct (DOM.eqb (ECharts.dom y) (ECharts.dom x)) eqn:E.
  - injection F as <-. destruct Hx as [Hx|Hx]; [now symmetry|].
    apply eqb_node in E. exfalso. apply Hy. rewrite E. now apply in_map.
  - destruct Hx as [Hx|Hx].
    + subst. assert (T : DOM.eqb (ECharts.dom x) (ECharts.dom x) = true)
        by now apply eqb_node.
      congruence.
    + now apply IH.
Qed.

Lemma container_free_after_dispose (c : DOM.node) (r : ECharts.registry) :
  one_per_container (ECharts.live r) ->
  let r1 := match ECharts.getInstanceByDom c r with
            | Some existingChart => ECharts.dispose existingChart r
            | None => r
            end in
  ~ In c (map ECharts.dom (ECharts.live r1)).
Proof.
  intros N r1 Hin. apply in_map_iff in Hin. destruct Hin as (x & D & Hx).
  subst r1. unfold ECharts.getInstanceByDom in *.
  destruct (find _ (ECharts.live r)) as [e|] eqn:F.
  - rewrite dispose_live in Hx. apply filter_In in Hx. destruct Hx as [Hx Q].
    rewrite (find_some_unique c _ e N F x Hx D), Nat.eqb_refl in Q. discriminate.
  - pose proof (find_none _ _ F x Hx) as Q. simpl in Q.
    assert (T : DOM.eqb (ECharts.dom x) c = true) by now apply eqb_node.
    congruence.
Qed.

Lemma dispose_one_per_container (c : ECharts.instance) (r : ECharts.registry) :
  one_per_container (ECharts.live r) ->
  one_per_container (ECharts.live (ECharts.dispose c r)) /\
  exists snaps, ECharts.trace (ECharts.dispose c r) = (ECharts.trace r ++ snaps)%list /\
                Forall one_per_container snaps.
Proof.
  intros N. split.
  - rewrite dispose_live. now apply filter_one_per_container.
  - unfold ECharts.dispose. destruct (existsb _ _); simpl.
    + eexists. split; [reflexivity|]. constructor; [|constructor].
      now apply filter_one_per_container.
    + exists []. now rewrite List.app_nil_r.
Qed.

Lemma dispose_all_one_per_container (cs : list ECharts.instance) : forall r,
  one_per_container (ECharts.live r) ->
  one_per_container (ECharts.live (ECharts.dispose_all cs r)) /\
  exists snaps, ECharts.trace (ECharts.dispose_all cs r) = (ECharts.trace r ++ snaps)%list /\
                Forall one_per_container snaps.
Proof.
  induction cs as [|c cs IH]; intros r N; simpl.
  - split; [exact N|]. exists []. now rewrite List.app_nil_r.
  - destruct (dispose_one_per_container c r N) as (N1 & s1 & T1 & F1).
    destruct (IH _ N1) as (N2 & s2 & T2 & F2).
    split; [exact N2|]. exists (s1 ++ s2)%list. split.
    + now rewrite T2, T1, List.app_assoc.
    + apply Forall_app. auto.
Qed.

Lemma forEach_one_per_container (so : JS.value -> bool) (ids : string -> list nat)
    (page : DOM.t) (items : list JS.value) :
  forall (index : nat) (newCharts : list ECharts.instance) (r : ECharts.registry),
    one_per_container (ECharts.live r) ->
    let out := MultiContentEditor.forEach so ids page index items newCharts r in
    one_per_container (ECharts.live (snd out)) /\
    exists snaps, ECharts.trace (snd out) = (ECharts.trace r ++ snaps)%list /\
                  Forall one_per_container snaps.
Proof.
  induction items as [|item rest IH]; intros index newCharts r N; cbn [MultiContentEditor.forEach].
  - split; [exact N|]. exists []. now rewrite List.app_nil_r.
  - destruct (JS.get item "kind") as [kind|]; cbn [snd];
      [|split; [exact N|]; exists []; now rewrite List.app_nil_r].
    destruct (JS.is_string kind "chart"); [|now apply IH].
    destruct (MultiContentEditor.getElementById ids index page) as [element|]; [|now apply IH].
    pose proof (container_free_after_dispose element r N) as Free. cbv zeta in Free.
    assert (D : one_per_container
                  (ECharts.live match ECharts.getInstanceByDom element r with
                                | Some existingChart => ECharts.dispose existingChart r
                                | None => r
                                end) /\
                exists snaps,
                  ECharts.trace match ECharts.getInstanceByDom element r with
                                | Some existingChart => ECharts.dispose existingChart r
                                | None => r
                                end = (ECharts.trace r ++ snaps)%list /\
                  Forall one_per_container snaps).
    { destruct (ECharts.getInstanceByDom element r).
      - now apply dispose_one_per_container.
      - split; [exact N|]. exists []. now rewrite List.app_nil_r. }
    destruct D as (N1 & s1 & T1 & F1).
    set (r1 := match ECharts.getInstanceByDom element r with
               | Some existingChart => ECharts.dispose existingChart r
               | None => r
               end) in *.
    set (r2 := snd (ECharts.init element r1)).
    change (ECharts.init element r1) with (fst (ECharts.init element r1), r2).
    cbv iota.
    assert (N2 : one_per_container (ECharts.live r2)).
    { subst r2. unfold one_per_container. simpl. rewrite map_app. simpl.
      now apply NoDup_snoc. }
    assert (T2 : ECharts.trace r2 = (ECharts.trace r ++ (s1 ++ [ECharts.live r2]))%list).
    { subst r2. simpl. now rewrite T1, <- List.app_assoc. }
    assert (H : forall nc,
               one_per_container
                 (ECharts.live (snd (MultiContentEditor.forEach so ids page (S index) rest nc r2))) /\
               exists snaps,
                 ECharts.trace (snd (MultiContentEditor.forEach so ids page (S index) rest nc r2))
                 = (ECharts.trace r ++ snaps)%list /\ Forall one_per_container snaps).
    { intros nc. destruct (IH (S index) nc r2 N2) as (N3 & s3 & T3 & F3).
      split; [exact N3|]. exists ((s1 ++ [ECharts.live r2]) ++ s3)%list. split.
      - now rewrite T3, T2, <- !List.app_assoc.
      - repeat (apply Forall_app; split); auto. }
    destruct (so (JS.get_opt item "data")); apply H.
Qed.

(** Whatever the state, whatever the markup holds, a change of the text
    and a frame never put two live instances on one element. *)
Lemma one_instance_per_container_always
    (md : string -> string) (so : JS.value -> bool) (ids : string -> list nat)
    (value : string) (now : Z) (st : MultiContentEditor.state) (w : world) :
  one_per_container (ECharts.live (registry w)) ->
  let r := MultiContentEditor.render_pass md so ids value now st w in
  one_per_container (ECharts.live (registry (snd r))) /\
  Forall one_per_container (new_snapshots (registry w) (registry (snd r))).
Proof.
  intros N.
  assert (Run : forall callbacks st0 w0,
            one_per_container (ECharts.live (registry w0)) ->
            let r := MultiContentEditor.run_callbacks md so ids callbacks st0 w0 in
            one_per_container (ECharts.live (registry (snd r))) /\
            exists snaps,
              ECharts.trace (registry (snd r)) = (ECharts.trace (registry w0) ++ snaps)%list /\
              Forall one_per_container snaps).
  { induction callbacks as [|parsed rest IH]; intros st0 w0 N0;
      cbn [MultiContentEditor.run_callbacks].
    - split; [exact N0|]. exists []. now rewrite List.app_nil_r.
    - assert (I : one_per_container
                    (ECharts.live (registry (snd (MultiContentEditor.initCharts md so ids parsed st0 w0)))) /\
                  exists snaps,
                    ECharts.trace (registry (snd (MultiContentEditor.initCharts md so ids parsed st0 w0)))
                    = (ECharts.trace (registry w0) ++ snaps)%list /\
                    Forall one_per_container snaps).
      { unfold MultiContentEditor.initCharts.
        destruct parsed; cbn [snd registry set_registry set_document];
          try (split; [exact N0|]; exists []; now rewrite List.app_nil_r).
        pose proof (forEach_one_per_container so ids
                      (MultiContentEditor.commit
                         (MultiContentEditor.view md (MultiContentEditor.contentList st0))
                         (document w0))
                      items 0 [] (ECharts.begin_pass (registry w0)) N0) as F.
        cbv zeta in F.
        destruct (MultiContentEditor.forEach so ids _ 0 items [] _) as [[newCharts|e] r'];
          cbn [snd] in F; destruct F as (N1 & s1 & T1 & F1).
        - unfold MultiContentEditor.setCharts. cbn [snd registry set_registry set_document].
          destruct (dispose_all_one_per_container (MultiContentEditor.charts st0) r' N1)
            as (N2 & s2 & T2 & F2).
          split; [exact N2|]. exists (s1 ++ s2)%list. split.
          + rewrite T2, T1. simpl. now rewrite List.app_assoc.
          + apply Forall_app. auto.
        - cbn [snd registry set_registry set_document]. split; [exact N1|]. exists s1. auto. }
      destruct (MultiContentEditor.initCharts md so ids parsed st0 w0) as [st1 w1].
      cbn [snd] in I. destruct I as (N1 & s1 & T1 & F1).
      destruct (IH st1 w1 N1) as (N2 & s2 & T2 & F2).
      split; [exact N2|]. exists (s1 ++ s2)%list. split.
      + now rewrite T2, T1, List.app_assoc.
      + apply Forall_app. auto. }
  intros r. subst r. unfold MultiContentEditor.render_pass.
  assert (E : one_per_container
                (ECharts.live (registry (snd (MultiContentEditor.onCodeInput value now st w)))) /\
              exists snaps,
                ECharts.trace (registry (snd (MultiContentEditor.onCodeInput value now st w)))
                = (ECharts.trace (registry w) ++ snaps)%list /\
                Forall one_per_container snaps).
  { unfold MultiContentEditor.onCodeInput, MultiContentEditor.chartsEffect,
      MultiContentEditor.setCharts.
    destruct (dispose_all_one_per_container
                (MultiContentEditor.charts (MultiContentEditor.handleEditorChange value now st))
                (registry w) N) as (N1 & s1 & T1 & F1).
    destruct (dispose_all_one_per_container
                (MultiContentEditor.charts (MultiContentEditor.handleEditorChange value now st))
                _ N1) as (N2 & s2 & T2 & F2).
    assert (A : Forall one_per_container (s1 ++ s2)) by (apply Forall_app; auto).
    destruct (JSON.parse _); cbn [snd registry set_registry set_frames];
      (split; [exact N2|]; exists (s1 ++ s2)%list; split;
       [now rewrite T2, T1, List.app_assoc | exact A]). }
  destruct (MultiContentEditor.onCodeInput value now st w) as [st1 w1].
  cbn [snd] in E. destruct E as (N1 & s1 & T1 & F1).
  unfold MultiContentEditor.animationFrame.
  destruct (Run (frames w1) st1
              (set_frames [] (set_document
                                (MultiContentEditor.replay md (frames w1) (document w1)) w1)) N1)
    as (N2 & s2 & T2 & F2).
  split; [exact N2|].
  unfold new_snapshots. rewrite T2. cbn [registry set_frames set_document]. rewrite T1.
  rewrite <- List.app_assoc, skipn_app_exact. apply Forall_app. auto.
Qed.

(* ================================================================== *)
(** * Part III: further properties of the components                   *)
(* ================================================================== *)

(** ** The plain-text editor: what a reload finds *)

Lemma plain_key_inj (a b : string) :
  (PlainMarkdownEditor.BASE_STORAGE_KEY ++ "-" ++ a)%string
  = (PlainMarkdownEditor.BASE_STORAGE_KEY ++ "-" ++ b)%string -> a = b.
Proof.
  intros H. apply append_inj_r in H. now apply (append_inj_r "-") in H.
Qed.

Lemma plain_state_eta (st : PlainMarkdownEditor.state) :
  {| PlainMarkdownEditor.filename := PlainMarkdownEditor.filename st;
     PlainMarkdownEditor.markdown := PlainMarkdownEditor.markdown st;
     PlainMarkdownEditor.saveStatus := PlainMarkdownEditor.saveStatus st;
     PlainMarkdownEditor.cleanup := PlainMarkdownEditor.cleanup st |} = st.
Proof. now destruct st. Qed.

(** The storage the plain-text editor's effect leaves. *)
Lemma plain_saveEffect_storage (now : Z) (st : PlainMarkdownEditor.state) (w : world) :
  storage (snd (PlainMarkdownEditor.saveEffect now st w))
  = Storage.setItem
      (Storage.setItem (storage w)
         (PlainMarkdownEditor.BASE_STORAGE_KEY ++ "-" ++ PlainMarkdownEditor.filename st)
         (PlainMarkdownEditor.markdown st))
      (PlainMarkdownEditor.BASE_STORAGE_KEY ++ "-last-filename")
      (PlainMarkdownEditor.filename st).
Proof. reflexivity. Qed.

(** X1. In the plain-text editor a change or blur event of the filename
    field that carries the name the document already has removes the
    document from storage: the handler writes the stored string back
    under its key and then removes that key, and since no cell changed
    no effect writes it again.  A reload then starts from the default
    text. *)
Theorem plain_same_name_event_removes_document
    (value : string) (now : Z) (st : PlainMarkdownEditor.state) (w : world) :
  JS.trim value = PlainMarkdownEditor.filename st ->
  PlainMarkdownEditor.filename st <> "" ->
  let r := PlainMarkdownEditor.onFilenameChange value now st w in
  let key := (PlainMarkdownEditor.BASE_STORAGE_KEY ++ "-"
              ++ PlainMarkdownEditor.filename st)%string in
  fst r = st /\
  timers (snd r) = timers w /\
  Storage.getItem (storage (snd r)) key = None /\
  PlainMarkdownEditor.initialMarkdown (storage (snd r)) (PlainMarkdownEditor.filename st)
  = PlainMarkdownEditor.defaultMarkdown.
Proof.
  intros T N r key. subst r.
  unfold PlainMarkdownEditor.onFilenameChange, PlainMarkdownEditor.handleFilenameChange.
  rewrite T. apply String.eqb_neq in N. rewrite N. cbn [negb].
  unfold PlainMarkdownEditor.rerender. cbn [fst snd PlainMarkdownEditor.filename
    PlainMarkdownEditor.markdown].
  rewrite !String.eqb_refl. cbn [andb fst snd].
  assert (G : Storage.getItem (storage (set_storage
                (Storage.removeItem
                   (Storage.setItem (storage w) key
                      match Storage.getItem (storage w) key with
                      | Some c => c
                      | None => "null"
                      end) key) w)) key = None)
    by apply getItem_removeItem_same.
  repeat split.
  - apply plain_state_eta.
  - exact G.
  - unfold PlainMarkdownEditor.initialMarkdown. fold key. now rewrite G.
Qed.

Lemma plain_same_name_event_removes_document_witness :
  let r := PlainMarkdownEditor.onFilenameChange "draft" 9 plain_draft plain_world in
  fst r = plain_draft /\
  Storage.getItem (storage plain_world) "markdown-editor-content-draft" = Some "# Hi" /\
  Storage.getItem (storage (snd r)) "markdown-editor-content-draft" = None /\
  PlainMarkdownEditor.initialMarkdown (storage (snd r)) "draft"
  = PlainMarkdownEditor.defaultMarkdown.
Proof.
  destruct (plain_same_name_event_removes_document "draft" 9 plain_draft plain_world)
    as (S & _ & G & M).
  - reflexivity.
  - discriminate.
  - split; [exact S | split; [reflexivity | split; [exact G | exact M]]].
Defined.

(** X2. Clear All empties the editor, but not the document a reload
    finds: whether the effect then stores the empty text or, the text
    being empty already, leaves the key removed, the next mount starts
    from the default text. *)
Theorem plain_clear_then_reload (now : Z) (st : PlainMarkdownEditor.state) (w : world) :
  PlainMarkdownEditor.filename st <> "last-filename" ->
  let r := PlainMarkdownEditor.onClear true now st w in
  PlainMarkdownEditor.filename (fst r) = PlainMarkdownEditor.filename st /\
  PlainMarkdownEditor.markdown (fst r) = "" /\
  PlainMarkdownEditor.initialMarkdown (storage (snd r)) (PlainMarkdownEditor.filename st)
  = PlainMarkdownEditor.defaultMarkdown.
Proof.
  intros L r. subst r.
  unfold PlainMarkdownEditor.onClear, PlainMarkdownEditor.handleClear,
    PlainMarkdownEditor.rerender.
  cbn [fst snd PlainMarkdownEditor.filename PlainMarkdownEditor.markdown].
  rewrite String.eqb_refl. cbn [andb].
  destruct ("" =? PlainMarkdownEditor.markdown st)%string eqn:E.
  - cbn [fst snd PlainMarkdownEditor.filename PlainMarkdownEditor.markdown].
    repeat split. unfold PlainMarkdownEditor.initialMarkdown.
    unfold set_storage; cbn [storage]. now rewrite getItem_removeItem_same.
  - rewrite plain_saveEffect_storage.
    cbn [fst snd PlainMarkdownEditor.filename PlainMarkdownEditor.markdown].
    repeat split. unfold PlainMarkdownEditor.initialMarkdown.
    rewrite getItem_setItem_other, getItem_setItem_same; [reflexivity|].
    intros H. apply L. symmetry. now apply plain_key_inj.
Qed.

Lemma plain_clear_then_reload_witness :
  let r := PlainMarkdownEditor.onClear true 9 plain_draft plain_world in
  PlainMarkdownEditor.markdown (fst r) = "" /\
  Storage.getItem (storage (snd r)) "markdown-editor-content-draft" = Some "" /\
  PlainMarkdownEditor.initialMarkdown (storage (snd r)) "draft"
  = PlainMarkdownEditor.defaultMarkdown.
Proof.
  destruct (plain_clear_then_reload 9 plain_draft plain_world) as (_ & M & D).
  - discriminate.
  - split; [exact M | split; [reflexivity | exact D]].
Defined.

(** X3. In the plain-text editor what the effect stored is what the
    next mount starts from: the name, and the text unless it is empty,
    in which case the mount starts from the default text. *)
Theorem plain_save_then_reload (now : Z) (st : PlainMarkdownEditor.state) (w : world) :
  PlainMarkdownEditor.filename st <> "" ->
  PlainMarkdownEditor.filename st <> "last-filename" ->
  PlainMarkdownEditor.initialState (storage (snd (PlainMarkdownEditor.saveEffect now st w)))
  = {| PlainMarkdownEditor.filename := PlainMarkdownEditor.filename st;
       PlainMarkdownEditor.markdown :=
         if (PlainMarkdownEditor.markdown st =? "")%string
         then PlainMarkdownEditor.defaultMarkdown
         else PlainMarkdownEditor.markdown st;
       PlainMarkdownEditor.saveStatus := "";
       PlainMarkdownEditor.cleanup := None |}.
Proof.
  intros N L. rewrite plain_saveEffect_storage.
  assert (F : PlainMarkdownEditor.initialFilename
                (Storage.setItem
                   (Storage.setItem (storage w)
                      (PlainMarkdownEditor.BASE_STORAGE_KEY ++ "-"
                       ++ PlainMarkdownEditor.filename st)
                      (PlainMarkdownEditor.markdown st))
                   (PlainMarkdownEditor.BASE_STORAGE_KEY ++ "-last-filename")
                   (PlainMarkdownEditor.filename st))
              = PlainMarkdownEditor.filename st).
  { unfold PlainMarkdownEditor.initialFilename. rewrite getItem_setItem_same.
    apply String.eqb_neq in N. now rewrite N. }
  unfold PlainMarkdownEditor.initialState. rewrite F. f_equal.
  unfold PlainMarkdownEditor.initialMarkdown.
  rewrite getItem_setItem_other, getItem_setItem_same; [reflexivity|].
  intros H. apply L. symmetry. now apply plain_key_inj.
Qed.

Lemma plain_save_then_reload_witness :
  PlainMarkdownEditor.initialState
    (storage (snd (PlainMarkdownEditor.saveEffect 3 plain_draft (world_with []))))
  = {| PlainMarkdownEditor.filename := "draft";
       PlainMarkdownEditor.markdown := "# Hi";
       PlainMarkdownEditor.saveStatus := "";
       PlainMarkdownEditor.cleanup := None |}.
Proof.
  apply (plain_save_then_reload 3 plain_draft (world_with [])); discriminate.
Defined.

Lemma plain_initialFilename_cases (s : Storage.t) :
  PlainMarkdownEditor.initialFilename s <> "" /\
  (PlainMarkdownEditor.initialFilename s = "last-filename" ->
   Storage.getItem s (PlainMarkdownEditor.BASE_STORAGE_KEY ++ "-last-filename")
   = Some "last-filename").
Proof.
  unfold PlainMarkdownEditor.initialFilename.
  destruct (Storage.getItem s _) as [name|]; [|split; discriminate].
  destruct (name =? "")%string eqn:E; [split; discriminate|].
  apply String.eqb_neq in E. split; [exact E|]. now intros ->.
Qed.

Lemma plain_initialMarkdown_nonempty (s : Storage.t) (name : string) :
  (PlainMarkdownEditor.initialMarkdown s name =? "")%string = false.
Proof.
  unfold PlainMarkdownEditor.initialMarkdown.
  destruct (Storage.getItem s _) as [c|]; [|reflexivity].
  now destruct (c =? "")%string eqn:E.
Qed.

(** X4. Loading the plain-text editor stores nothing a reload would
    read differently: the cells a mount starts from are the cells the
    next mount starts from, once the effect of the first has saved
    them.  This holds for every storage, the one whose last-used name
    is [last-filename] included. *)
Theorem plain_reload_is_stable (now : Z) (w : world) :
  PlainMarkdownEditor.initialState (storage (snd (PlainMarkdownEditor.mount now w)))
  = PlainMarkdownEditor.initialState (storage w).
Proof.
  unfold PlainMarkdownEditor.mount. rewrite plain_saveEffect_storage.
  set (s := storage w).
  cbn [PlainMarkdownEditor.initialState PlainMarkdownEditor.filename
       PlainMarkdownEditor.markdown].
  set (f := PlainMarkdownEditor.initialFilename s).
  set (m := PlainMarkdownEditor.initialMarkdown s f).
  destruct (plain_initialFilename_cases s) as [N L]. fold f in N, L.
  assert (F : PlainMarkdownEditor.initialFilename
                (Storage.setItem
                   (Storage.setItem s (PlainMarkdownEditor.BASE_STORAGE_KEY ++ "-" ++ f) m)
                   (PlainMarkdownEditor.BASE_STORAGE_KEY ++ "-last-filename") f) = f).
  { unfold PlainMarkdownEditor.initialFilename. rewrite getItem_setItem_same.
    apply String.eqb_neq in N. now rewrite N. }
  unfold PlainMarkdownEditor.initialState. rewrite F. fold f. fold m. f_equal.
  unfold PlainMarkdownEditor.initialMarkdown at 1.
  destruct (String.eqb f "last-filename") eqn:E.
  - apply String.eqb_eq in E. specialize (L E).
    assert (M : m = "last-filename").
    { unfold m, PlainMarkdownEditor.initialMarkdown. rewrite E.
      change (PlainMarkdownEditor.BASE_STORAGE_KEY ++ "-" ++ "last-filename")%string
        with (PlainMarkdownEditor.BASE_STORAGE_KEY ++ "-last-filename")%string.
      now rewrite L. }
    rewrite E, M.
    change (PlainMarkdownEditor.BASE_STORAGE_KEY ++ "-" ++ "last-filename")%string
      with (PlainMarkdownEditor.BASE_STORAGE_KEY ++ "-last-filename")%string.
    now rewrite getItem_setItem_same.
  - apply String.eqb_neq in E.
    rewrite getItem_setItem_other, getItem_setItem_same.
    + unfold m. now rewrite plain_initialMarkdown_nonempty.
    + intros H. apply E. symmetry. now apply plain_key_inj.
Qed.

(** ** The plain-text editor: how long the save status is shown *)

Lemma plain_saveEffect_pending (now : Z) (st : PlainMarkdownEditor.state) (w : world) :
  tracked st w ->
  Timers.pending (timers (snd (PlainMarkdownEditor.saveEffect now st w)))
  = [clear_timer (Timers.next_id (timers w)) (now + 2000)] /\
  PlainMarkdownEditor.cleanup (fst (PlainMarkdownEditor.saveEffect now st w))
  = Some (Timers.next_id (timers w)).
Proof.
  intros T. unfold PlainMarkdownEditor.saveEffect.
  destruct (PlainMarkdownEditor.cleanup st) as [c|] eqn:C; simpl.
  - rewrite filter_none; [split; reflexivity|].
    intros tm I. specialize (T tm I). rewrite C in T. injection T as ->.
    now rewrite Nat.eqb_refl.
  - destruct (Timers.pending (timers w)) as [|tm l] eqn:P; [split; reflexivity|].
    specialize (T tm). rewrite P in T. specialize (T (or_introl eq_refl)).
    rewrite C in T. discriminate.
Qed.

(** X5. In the plain-text editor the effect cancels the clear of the
    run before it.  So when every pending timer is the one the
    clean-up clears, which a save and the passing of time keep true, the
    status a save sets at [now] is shown until [now + 2000] and not
    after, whatever was saved before and however recently. *)
Theorem plain_status_shown_two_seconds
    (now later : Z) (st : PlainMarkdownEditor.state) (w : world) :
  tracked st w ->
  let r := PlainMarkdownEditor.saveEffect now st w in
  let r' := PlainMarkdownEditor.elapse later (fst r) (snd r) in
  tracked (fst r) (snd r) /\
  PlainMarkdownEditor.saveStatus (fst r) = "Saved!" /\
  PlainMarkdownEditor.saveStatus (fst r') = (if later <? now + 2000 then "Saved!" else "") /\
  tracked (fst r') (snd r').
Proof.
  intros T r r'. destruct (plain_saveEffect_pending now st w T) as [P C].
  fold r in P, C.
  assert (S : PlainMarkdownEditor.saveStatus (fst r) = "Saved!") by reflexivity.
  split; [|split; [exact S|split]].
  - intros tm I. rewrite P in I. destruct I as [<-|[]]. exact C.
  - subst r'. unfold PlainMarkdownEditor.elapse, Timers.due_at. rewrite P. simpl.
    destruct (later <? now + 2000) eqn:E.
    + apply Z.ltb_lt in E. destruct (now + 2000 <=? later) eqn:E2;
        [apply Z.leb_le in E2; lia|]. simpl. exact S.
    + apply Z.ltb_ge in E. apply Z.leb_le in E. rewrite E. reflexivity.
  - subst r'. unfold PlainMarkdownEditor.elapse, Timers.due_at. rewrite P. simpl.
    destruct (now + 2000 <=? later); simpl; intros tm I.
    + destruct I.
    + destruct I as [<-|[]]. exact C.
Qed.

Lemma plain_status_shown_two_seconds_witness :
  tracked plain_draft plain_world /\
  let first := PlainMarkdownEditor.saveEffect 0 plain_draft plain_world in
  let second := PlainMarkdownEditor.saveEffect 1500 (fst first) (snd first) in
  PlainMarkdownEditor.saveStatus
    (fst (PlainMarkdownEditor.elapse 2000 (fst second) (snd second))) = "Saved!" /\
  PlainMarkdownEditor.saveStatus
    (fst (PlainMarkdownEditor.elapse 3500 (fst second) (snd second))) = "".
Proof.
  assert (T0 : tracked plain_draft plain_world) by (intros tm []).
  split; [exact T0|].
  destruct (plain_status_shown_two_seconds 0 0 plain_draft plain_world T0) as (T1 & _).
  split.
  - exact (proj1 (proj2 (proj2 (plain_status_shown_two_seconds 1500 2000 _ _ T1)))).
  - exact (proj1 (proj2 (proj2 (plain_status_shown_two_seconds 1500 3500 _ _ T1)))).
Defined.

(** ** The file-list editors: saving, creating, opening and deleting

    The statements of this section are about the code the three
    editors share, for every key prefix, default text and comparator.
    What an editor does besides in its effects is taken up after the
    section. *)

Section FileListFacts.

Variables base default : string.
Variable compare : Files.file -> Files.file -> JS.number.

Lemma key_not_last (name : string) :
  name <> "last-filename" ->
  FileList.last_filename_key base <> FileList.storage_key base name.
Proof.
  intros N H. apply N.
  change (FileList.last_filename_key base)
    with (FileList.storage_key base "last-filename") in H.
  symmetry. exact (storage_key_inj base _ _ H).
Qed.

Lemma key_neq (a b : string) :
  a <> b -> FileList.storage_key base a <> FileList.storage_key base b.
Proof. intros N H. exact (N (storage_key_inj base _ _ H)). Qed.

(** What [saveContent] leaves, whether or not the listing in it throws. *)
Lemma saveContent_spec (now : Z) (st : FileList.state) (w : world) :
  let o := FileList.saveContent base compare now st w in
  FileList.filename (state_of o) = FileList.filename st /\
  FileList.codeInput (state_of o) = FileList.codeInput st /\
  FileList.lastEditTime (state_of o) = FileList.lastEditTime st /\
  storage (world_of o)
  = Storage.setItem
      (FileList.put base (FileList.filename st) (FileList.codeInput st) now (storage w))
      (FileList.last_filename_key base) (FileList.filename st).
Proof.
  unfold FileList.saveContent, Timers.setTimeout.
  destruct (FileList.loadSavedFiles _ _ _ _); simpl; auto.
Qed.

Lemma initialFilename_saved (s : Storage.t) (name : string) :
  name <> "" ->
  FileList.initialFilename base (Storage.setItem s (FileList.last_filename_key base) name)
  = name.
Proof.
  intros N. unfold FileList.initialFilename. rewrite getItem_setItem_same.
  apply String.eqb_neq in N. now rewrite N.
Qed.

Lemma or_else_text (text : string) :
  JS.or_else (JS.Str text) (JS.Str default)
  = JS.Str (if (text =? "")%string then default else text).
Proof. unfold JS.or_else. simpl. now destruct (text =? "")%string. Qed.

Lemma initialContent_ext (s1 s2 : Storage.t) (name : string) :
  Storage.getItem s1 (FileList.storage_key base name)
  = Storage.getItem s2 (FileList.storage_key base name) ->
  FileList.initialContent base default s1 name
  = FileList.initialContent base default s2 name.
Proof. intros H. unfold FileList.initialContent. now rewrite H. Qed.

Lemma stored_text_ext (s1 s2 : Storage.t) (k : string) :
  Storage.getItem s1 k = Storage.getItem s2 k -> stored_text s1 k = stored_text s2 k.
Proof. intros H. unfold stored_text. now rewrite H. Qed.

(** What [saveContent] stored is what the initialisers read back. *)
Lemma saveContent_reloads (now : Z) (st : FileList.state) (w : world) :
  FileList.filename st <> "" ->
  FileList.filename st <> "last-filename" ->
  let s := storage (world_of (FileList.saveContent base compare now st w)) in
  FileList.initialFilename base s = FileList.filename st /\
  FileList.initialContent base default s (FileList.filename st)
  = JS.Str (if (FileList.codeInput st =? "")%string then default
            else FileList.codeInput st).
Proof.
  intros N L s. destruct (saveContent_spec now st w) as (_ & _ & _ & S).
  subst s. rewrite S. split.
  - now apply initialFilename_saved.
  - rewrite <- or_else_text,
      <- (initialContent_put base default (FileList.filename st) (FileList.codeInput st)
            now (storage w)).
    apply initialContent_ext, getItem_setItem_other.
    intros H. symmetry in H. revert H. now apply key_not_last.
Qed.

Lemma initialFilename_cases (s : Storage.t) :
  FileList.initialFilename base s <> "" /\
  (FileList.initialFilename base s = "last-filename" ->
   Storage.getItem s (FileList.last_filename_key base) = Some "last-filename").
Proof.
  unfold FileList.initialFilename.
  destruct (Storage.getItem s _) as [name|]; [|split; discriminate].
  destruct (name =? "")%string eqn:E; [split; discriminate|].
  apply String.eqb_neq in E. split; [exact E|]. now intros ->.
Qed.

Lemma initialContent_empty (s : Storage.t) (name : string) :
  FileList.initialContent base default s name = JS.Str "" -> default = "".
Proof.
  unfold FileList.initialContent.
  assert (D : JS.Str default = JS.Str "" -> default = "") by (intros H; now injection H).
  destruct (Storage.getItem s _) as [c|]; [|exact D].
  destruct (c =? "")%string; [exact D|].
  destruct (parsed <- JSON.parse c ;; JS.get parsed "text") as [t|]; [|exact D].
  unfold JS.or_else. destruct (JS.truthy t) eqn:T; [|exact D].
  intros ->. discriminate.
Qed.

(** [saveContent] on the cells of a first render changes nothing the
    initialisers read. *)
Lemma saveContent_restarts (now : Z) (st : FileList.state) (w : world) :
  FileList.initialState base default (storage w) now = Some st ->
  FileList.initialState base default
    (storage (world_of (FileList.saveContent base compare now st w))) now
  = Some st.
Proof.
  unfold FileList.initialState at 1.
  destruct (FileList.initialContent base default (storage w)
              (FileList.initialFilename base (storage w))) as [| | | |text| |] eqn:C;
    try discriminate.
  intros H. injection H as <-.
  destruct (saveContent_spec now
              {| FileList.filename := FileList.initialFilename base (storage w);
                 FileList.codeInput := text; FileList.saveStatus := "";
                 FileList.savedFiles := []; FileList.lastEditTime := now |} w)
    as (_ & _ & _ & S).
  rewrite S. cbn [FileList.filename FileList.codeInput]. clear S.
  set (s := storage w) in *. set (f := FileList.initialFilename base s) in *.
  destruct (initialFilename_cases s) as [N L]. fold f in N, L.
  unfold FileList.initialState.
  rewrite (initialFilename_saved _ f N).
  assert (T : FileList.initialContent base default
                (Storage.setItem (FileList.put base f text now s)
                   (FileList.last_filename_key base) f) f = JS.Str text);
    [|now rewrite T].
  destruct (String.eqb f "last-filename") eqn:E.
  - apply String.eqb_eq in E. specialize (L E).
    assert (D : forall s0, Storage.getItem s0 (FileList.last_filename_key base)
                           = Some "last-filename" ->
                           FileList.initialContent base default s0 "last-filename"
                           = JS.Str default).
    { intros s0 G. unfold FileList.initialContent.
      change (FileList.storage_key base "last-filename")
        with (FileList.last_filename_key base).
      now rewrite G. }
    rewrite E in C |- *. rewrite (D s L) in C. injection C as <-.
    apply D. apply getItem_setItem_same.
  - apply String.eqb_neq in E.
    rewrite (initialContent_ext _ (FileList.put base f text now s)).
    + rewrite initialContent_put, or_else_text.
      destruct (text =? "")%string eqn:X; [|reflexivity].
      apply String.eqb_eq in X. subst text.
      now rewrite (initialContent_empty s f C).
    + apply getItem_setItem_other. apply not_eq_sym, key_not_last, E.
Qed.

(** What [handleNewFile] leaves, whether or not its listing throws. *)
Lemma handleNewFile_spec (now : Z) (st : FileList.state) (w : world) :
  let o := FileList.handleNewFile base default compare now st w in
  FileList.filename (state_of o) = ("untitled-" ++ JSON.string_of_Z now)%string /\
  FileList.codeInput (state_of o) = default /\
  FileList.lastEditTime (state_of o) = now /\
  storage (world_of o)
  = FileList.put base ("untitled-" ++ JSON.string_of_Z now) default now (storage w).
Proof.
  unfold FileList.handleNewFile.
  destruct (FileList.loadSavedFiles _ _ _ _); simpl; auto.
Qed.

(** X8. New File makes a document named [untitled-] and the time,
    holding the default text, and opens it: the cells show it, its key
    holds it, the record of the last-used name names it, and no other
    key of the storage is written. *)
Theorem new_file_is_stored_and_opened (now : Z) (st : FileList.state) (w : world) :
  let name := ("untitled-" ++ JSON.string_of_Z now)%string in
  FileList.filename st <> name ->
  let o := FileList.onNewFile base default compare now st w in
  FileList.filename (state_of o) = name /\
  FileList.codeInput (state_of o) = default /\
  FileList.lastEditTime (state_of o) = now /\
  stored_text (storage (world_of o)) (FileList.storage_key base name)
  = Some (Ok (JS.Str default)) /\
  FileList.initialFilename base (storage (world_of o)) = name /\
  (forall k, k <> FileList.storage_key base name ->
             k <> FileList.last_filename_key base ->
             Storage.getItem (storage (world_of o)) k = Storage.getItem (storage w) k).
Proof.
  intros name N o. subst o. unfold FileList.onNewFile, FileList.rerender.
  destruct (handleNewFile_spec now st w) as (F & C & T & S). fold name in F, S.
  rewrite F. apply not_eq_sym in N. apply String.eqb_neq in N. rewrite N. cbn [andb].
  destruct (saveContent_spec now
              (state_of (FileList.handleNewFile base default compare now st w))
              (world_of (FileList.handleNewFile base default compare now st w)))
    as (F' & C' & T' & S').
  rewrite F', C', T', S', F, C, T, S.
  assert (K : FileList.last_filename_key base <> FileList.storage_key base name)
    by (apply key_not_last; discriminate).
  repeat split.
  - erewrite stored_text_ext; [apply stored_text_put|].
    now rewrite getItem_setItem_other by (apply not_eq_sym, K).
  - now apply initialFilename_saved.
  - intros k K1 K2. unfold FileList.put.
    now rewrite !getItem_setItem_other by assumption.
Qed.

Lemma parse_empty : JSON.parse "" = Throw (SyntaxError "Unexpected end of JSON input").
Proof. reflexivity. Qed.

Lemma clickedContent_stored (s : Storage.t) (name text : string) :
  stored_text s (FileList.storage_key base name) = Some (Ok (JS.Str text)) ->
  exists content,
    FileList.clickedContent base s name = Ok content /\
    JS.get content "text" = Ok (JS.Str text).
Proof.
  unfold stored_text, FileList.clickedContent. intros H.
  destruct (Storage.getItem s (FileList.storage_key base name)) as [c|]; [|discriminate].
  simpl in H. injection H as H.
  destruct (c =? "")%string eqn:E.
  - apply String.eqb_eq in E; subst c. rewrite parse_empty in H. discriminate.
  - destruct (JSON.parse c) as [v|e]; [|discriminate]. now exists v.
Qed.

(** The save effect that follows a click on a document other than the
    open one. *)
Lemma rerender_after_click (name : string) (now : Z) (st st1 : FileList.state) (w : world) :
  name <> FileList.filename st -> name <> "last-filename" ->
  FileList.filename st1 = name ->
  let o := FileList.rerender base compare now st
             {| state_of := st1; world_of := w; thrown := None |} in
  forall t,
    FileList.rerender base compare now st {| state_of := st1; world_of := w; thrown := t |}
    = o /\
    FileList.filename (state_of o) = name /\
    FileList.codeInput (state_of o) = FileList.codeInput st1 /\
    FileList.lastEditTime (state_of o) = FileList.lastEditTime st1 /\
    Storage.getItem (storage (world_of o)) (FileList.storage_key base name)
    = Some (JSON.stringify {| JSON.text := FileList.codeInput st1;
                              JSON.lastModified := now |}) /\
    (name <> "" -> FileList.initialFilename base (storage (world_of o)) = name).
Proof.
  intros N L F o t. subst o. unfold FileList.rerender. cbn [state_of world_of].
  rewrite F. apply String.eqb_neq in N. rewrite N. cbn [andb].
  destruct (saveContent_spec now st1 w) as (F' & C' & T' & S').
  rewrite F', C', T', S', F. repeat split.
  - rewrite getItem_setItem_other by (apply not_eq_sym, key_not_last, L).
    apply getItem_setItem_same.
  - intros E. now apply initialFilename_saved.
Qed.

(** The click on another document and the call of [saveContent] that
    follows. *)
Lemma onFileClick_saves_anew
    (file : Files.file) (text : string) (now : Z) (st : FileList.state) (w : world) :
  let name := Files.name file in
  let shown := if (text =? "")%string then default else text in
  stored_text (storage w) (FileList.storage_key base name) = Some (Ok (JS.Str text)) ->
  name <> FileList.filename st ->
  name <> "" -> name <> "last-filename" ->
  exists o,
    FileList.onFileClick base default compare file now st w = Some o /\
    FileList.filename (state_of o) = name /\
    FileList.codeInput (state_of o) = shown /\
    FileList.lastEditTime (state_of o) = now /\
    Storage.getItem (storage (world_of o)) (FileList.storage_key base name)
    = Some (JSON.stringify {| JSON.text := shown; JSON.lastModified := now |}) /\
    FileList.initialFilename base (storage (world_of o)) = name.
Proof.
  intros name shown H N E L.
  destruct (clickedContent_stored _ _ _ H) as (content & P & G).
  unfold FileList.onFileClick, FileList.handleFileClick. fold name.
  rewrite P, G, or_else_text. fold shown. cbn [option_map].
  eexists. split; [reflexivity|].
  match goal with |- context [FileList.rerender base compare now st
                                {| state_of := ?s1; world_of := w; thrown := None |}] =>
    destruct (rerender_after_click name now st s1 w N L eq_refl None)
      as (_ & F & C & T & S & I) end.
  repeat split; [exact F | exact C | exact T | exact S | exact (I E)].
Qed.

(** The click on an entry that cannot be read, with the call of
    [saveContent] that follows where the name changed. *)
Lemma onFileClick_unreadable
    (file : Files.file) (now : Z) (st : FileList.state) (w : world) :
  let name := Files.name file in
  let key := FileList.storage_key base name in
  (forall stored e,
      Storage.getItem (storage w) key = Some stored -> stored <> "" ->
      JSON.parse stored = Throw e ->
      FileList.onFileClick base default compare file now st w
      = Some {| state_of := st; world_of := w; thrown := Some e |})
  /\
  (forall stored,
      Storage.getItem (storage w) key = Some stored -> stored <> "" ->
      JSON.parse stored = Ok JS.Null ->
      name <> FileList.filename st -> name <> "last-filename" ->
      exists o,
        FileList.onFileClick base default compare file now st w = Some o /\
        FileList.filename (state_of o) = name /\
        FileList.codeInput (state_of o) = FileList.codeInput st /\
        Storage.getItem (storage (world_of o)) key
        = Some (JSON.stringify {| JSON.text := FileList.codeInput st;
                                  JSON.lastModified := now |}))
  /\
  (Storage.getItem (storage w) key = None ->
   name <> FileList.filename st -> name <> "last-filename" ->
   exists o,
     FileList.onFileClick base default compare file now st w = Some o /\
     FileList.filename (state_of o) = name /\
     FileList.codeInput (state_of o) = default /\
     Storage.getItem (storage (world_of o)) key
     = Some (JSON.stringify {| JSON.text := default; JSON.lastModified := now |})).
Proof.
  intros name key. split; [|split].
  - intros stored e G P T.
    unfold FileList.onFileClick, FileList.handleFileClick, FileList.clickedContent.
    fold name. fold key. rewrite G. apply String.eqb_neq in P. rewrite P, T.
    cbn [option_map]. unfold FileList.rerender. cbn [state_of].
    now rewrite !String.eqb_refl.
  - intros stored G P T N L.
    unfold FileList.onFileClick, FileList.handleFileClick, FileList.clickedContent.
    fold name. fold key. rewrite G. apply String.eqb_neq in P. rewrite P, T.
    cbn [JS.get option_map].
    match goal with |- context [FileList.rerender base compare now st
                                  {| state_of := ?s1; world_of := w; thrown := ?t |}] =>
      destruct (rerender_after_click name now st s1 w N L eq_refl t)
        as (R & F & C & _ & S & _) end.
    eexists. split; [reflexivity|]. rewrite R.
    repeat split; [exact F | exact C | exact S].
  - intros G N L.
    unfold FileList.onFileClick, FileList.handleFileClick, FileList.clickedContent.
    fold name. fold key. rewrite G.
    change (JSON.parse "{}") with (Ok (JS.Object [])).
    cbn [JS.get JS.lookup JS.or_else JS.truthy option_map].
    match goal with |- context [FileList.rerender base compare now st
                                  {| state_of := ?s1; world_of := w; thrown := None |}] =>
      destruct (rerender_after_click name now st s1 w N L eq_refl None)
        as (_ & F & C & _ & S & _) end.
    eexists. split; [reflexivity|].
    repeat split; [exact F | exact C | exact S].
Qed.

(** What [handleDeleteFile] leaves of the open document. *)
Lemma handleDeleteFile_current (file : Files.file) (now : Z) (st : FileList.state) (w : world) :
  Files.name file = FileList.filename st ->
  let o := FileList.handleDeleteFile base default compare true file now st w in
  FileList.filename (state_of o) = ("untitled-" ++ JSON.string_of_Z now)%string /\
  FileList.codeInput (state_of o) = default /\
  FileList.lastEditTime (state_of o) = now /\
  storage (world_of o)
  = FileList.put base ("untitled-" ++ JSON.string_of_Z now) default now
      (Storage.removeItem (storage w) (FileList.storage_key base (FileList.filename st))).
Proof.
  intros E. unfold FileList.handleDeleteFile. rewrite E, String.eqb_refl.
  match goal with |- context [FileList.handleNewFile base default compare now st ?x] =>
    pose proof (handleNewFile_spec now st x) as H;
    destruct (FileList.handleNewFile base default compare now st x) as [s1 w1 [e|]] end;
  cbn [state_of world_of thrown] in *.
  - exact H.
  - destruct (FileList.loadSavedFiles _ _ _ _); cbn [state_of world_of]; exact H.
Qed.

Lemma handleDeleteFile_other (file : Files.file) (now : Z) (st : FileList.state) (w : world) :
  Files.name file <> FileList.filename st ->
  let o := FileList.handleDeleteFile base default compare true file now st w in
  FileList.filename (state_of o) = FileList.filename st /\
  FileList.codeInput (state_of o) = FileList.codeInput st /\
  FileList.lastEditTime (state_of o) = FileList.lastEditTime st /\
  world_of o
  = set_storage (Storage.removeItem (storage w)
                   (FileList.storage_key base (Files.name file))) w.
Proof.
  intros N. unfold FileList.handleDeleteFile.
  apply String.eqb_neq in N. rewrite N. cbn [thrown state_of world_of].
  destruct (FileList.loadSavedFiles _ _ _ _); cbn [state_of world_of]; auto.
Qed.

(** X11. Deleting a document, once confirmed.  A document other than
    the open one: its key is removed, no other key is touched, the open
    document stays as it is and no effect runs.  The open document: it
    is replaced by a new untitled one with the default text, and the
    save effect that follows stores that one and not the one deleted,
    which stays removed. *)
Theorem deleting_a_file
    (file : Files.file) (now : Z) (st : FileList.state) (w : world) :
  let name := Files.name file in
  let fresh := ("untitled-" ++ JSON.string_of_Z now)%string in
  let o := FileList.onDeleteFile base default compare true file now st w in
  (name <> FileList.filename st ->
   FileList.filename (state_of o) = FileList.filename st /\
   FileList.codeInput (state_of o) = FileList.codeInput st /\
   world_of o
   = set_storage (Storage.removeItem (storage w) (FileList.storage_key base name)) w /\
   Storage.getItem (storage (world_of o)) (FileList.storage_key base name) = None /\
   (forall k, k <> FileList.storage_key base name ->
              Storage.getItem (storage (world_of o)) k = Storage.getItem (storage w) k))
  /\
  (name = FileList.filename st ->
   name <> fresh -> name <> "last-filename" ->
   FileList.filename (state_of o) = fresh /\
   FileList.codeInput (state_of o) = default /\
   Storage.getItem (storage (world_of o)) (FileList.storage_key base name) = None /\
   stored_text (storage (world_of o)) (FileList.storage_key base fresh)
   = Some (Ok (JS.Str default)) /\
   FileList.initialFilename base (storage (world_of o)) = fresh).
Proof.
  intros name fresh o. split.
  - intros N. subst o. unfold FileList.onDeleteFile, FileList.rerender.
    destruct (handleDeleteFile_other file now st w N) as (F & C & _ & W).
    rewrite F, C, !String.eqb_refl. cbn [andb]. rewrite W.
    repeat split; try assumption.
    + apply getItem_removeItem_same.
    + intros k K. now apply getItem_removeItem_other.
  - intros E U L. subst o. unfold FileList.onDeleteFile, FileList.rerender.
    destruct (handleDeleteFile_current file now st w E) as (F & C & T & S).
    fold fresh in F, S. rewrite F.
    assert (U' : fresh <> FileList.filename st) by (rewrite <- E; apply not_eq_sym, U).
    apply String.eqb_neq in U'. rewrite U'. cbn [andb].
    match goal with |- context [FileList.saveContent base compare now ?s ?x] =>
      destruct (saveContent_spec now s x) as (F' & C' & _ & S') end.
    rewrite F', C', S', F, C, S.
    assert (K : FileList.last_filename_key base <> FileList.storage_key base fresh)
      by (apply key_not_last; discriminate).
    repeat split.
    + rewrite getItem_setItem_other by (apply not_eq_sym, key_not_last, L).
      unfold FileList.put.
      rewrite !getItem_setItem_other by (apply key_neq, U).
      fold name. rewrite <- E. apply getItem_removeItem_same.
    + erewrite stored_text_ext; [apply stored_text_put|].
      now rewrite getItem_setItem_other by (apply not_eq_sym, K).
    + now apply initialFilename_saved.
Qed.

(** What a change of the filename field leaves once the save effect
    ran. *)
Lemma onFilenameChange_spec (value : string) (now : Z) (st : FileList.state) (w : world) :
  let a := FileList.filename st in
  let b := JS.trim value in
  b <> "" -> b <> a ->
  let o := FileList.onFilenameChange base compare value now st w in
  FileList.filename (state_of o) = b /\
  FileList.codeInput (state_of o) = FileList.codeInput st /\
  storage (world_of o)
  = Storage.setItem
      (FileList.put base b (FileList.codeInput st) now
         (Storage.removeItem (FileList.put base b (FileList.codeInput st) now (storage w))
            (FileList.storage_key base a)))
      (FileList.last_filename_key base) b.
Proof.
  intros a b E N o. subst o. unfold FileList.onFilenameChange, FileList.rerender.
  destruct (rename_file_list base compare value now st w E N) as (F & C & S).
  subst a b. rewrite F.
  apply String.eqb_neq in N. rewrite N. cbn [andb].
  match goal with |- context [FileList.saveContent base compare now ?s ?x] =>
    destruct (saveContent_spec now s x) as (F' & C' & _ & S') end.
  now rewrite F', C', S', F, C, S.
Qed.

(** Two changes of the name in a row. *)
Lemma onFilenameChange_twice
    (v1 v2 : string) (t1 t2 : Z) (st : FileList.state) (w : world) :
  let a := FileList.filename st in
  let b := JS.trim v1 in
  let c := JS.trim v2 in
  b <> "" -> b <> a -> c <> "" -> c <> b ->
  b <> "last-filename" -> c <> "last-filename" ->
  let o1 := FileList.onFilenameChange base compare v1 t1 st w in
  let o2 := FileList.onFilenameChange base compare v2 t2 (state_of o1) (world_of o1) in
  FileList.filename (state_of o2) = c /\
  Storage.getItem (storage (world_of o2)) (FileList.storage_key base b) = None /\
  stored_text (storage (world_of o2)) (FileList.storage_key base c)
  = Some (Ok (JS.Str (FileList.codeInput st))).
Proof.
  intros a b c Eb Nb Ec Nc Lb Lc o1 o2.
  destruct (onFilenameChange_spec v1 t1 st w Eb Nb) as (F1 & C1 & _). fold o1 in F1, C1.
  destruct (onFilenameChange_spec v2 t2 (state_of o1) (world_of o1)) as (F2 & C2 & S2).
  { exact Ec. } { rewrite F1. exact Nc. }
  fold o2 in F2, C2, S2. rewrite F1, C1 in S2. fold b c in S2. rewrite S2.
  repeat split.
  - exact F2.
  - rewrite getItem_setItem_other by (apply not_eq_sym, key_not_last, Lb).
    unfold FileList.put at 1.
    rewrite getItem_setItem_other by (apply key_neq, not_eq_sym, Nc).
    apply getItem_removeItem_same.
  - erewrite stored_text_ext; [apply stored_text_put|].
    now rewrite getItem_setItem_other by (apply not_eq_sym, key_not_last, Lc).
Qed.

End FileListFacts.

Lemma new_file_is_stored_and_opened_witness :
  let o := FileList.onNewFile "multi-content-editor" MultiContentEditor.defaultContent
             Files.by_lastModified 7 (cells_of "draft" "[]") multi_world in
  FileList.filename (state_of o) = "untitled-7" /\
  stored_text (storage (world_of o)) "multi-content-editor-untitled-7"
  = Some (Ok (JS.Str MultiContentEditor.defaultContent)) /\
  FileList.initialFilename "multi-content-editor" (storage (world_of o)) = "untitled-7".
Proof.
  destruct (new_file_is_stored_and_opened "multi-content-editor"
              MultiContentEditor.defaultContent Files.by_lastModified
              7 (cells_of "draft" "[]") multi_world) as (F & _ & _ & T & I & _).
  - discriminate.
  - split; [exact F | split; [exact T | exact I]].
Defined.

Lemma deleting_a_file_witness :
  (let o := FileList.onDeleteFile "multi-content-editor" MultiContentEditor.defaultContent
              Files.by_lastModified true notes_file 9 (cells_of "draft" "[]")
              (multi_world_with_notes "null") in
   FileList.filename (state_of o) = "draft" /\
   Storage.getItem (storage (world_of o)) "multi-content-editor-notes" = None)
  /\
  (let o := FileList.onDeleteFile "multi-content-editor" MultiContentEditor.defaultContent
              Files.by_lastModified true draft_file 9 (cells_of "draft" "[]") multi_world in
   FileList.filename (state_of o) = "untitled-9" /\
   Storage.getItem (storage (world_of o)) "multi-content-editor-draft" = None).
Proof.
  split.
  - destruct (proj1 (deleting_a_file "multi-content-editor" MultiContentEditor.defaultContent
                       Files.by_lastModified notes_file 9 (cells_of "draft" "[]")
                       (multi_world_with_notes "null")))
      as (F & _ & _ & G & _).
    + discriminate.
    + split; [exact F | exact G].
  - destruct (proj2 (deleting_a_file "multi-content-editor" MultiContentEditor.defaultContent
                       Files.by_lastModified draft_file 9 (cells_of "draft" "[]")
                       multi_world))
      as (F & _ & G & _).
    + reflexivity.
    + discriminate.
    + discriminate.
    + split; [exact F | exact G].
Defined.

(** ** The three editors: what their effects add to the shared code *)

Lemma saveContent_same (base : string) (compare : Files.file -> Files.file -> JS.number)
    (now : Z) (st : FileList.state) (w1 w2 : world) :
  storage w1 = storage w2 ->
  state_of (FileList.saveContent base compare now st w1)
  = state_of (FileList.saveContent base compare now st w2) /\
  storage (world_of (FileList.saveContent base compare now st w1))
  = storage (world_of (FileList.saveContent base compare now st w2)).
Proof.
  intros E. unfold FileList.saveContent. rewrite E.
  destruct (FileList.loadSavedFiles _ _ _ _); [|split; reflexivity].
  unfold Timers.setTimeout. split; reflexivity.
Qed.

Lemma rerender_same (base : string) (compare : Files.file -> Files.file -> JS.number)
    (now : Z) (before : FileList.state) (o1 o2 : outcome FileList.state) :
  state_of o1 = state_of o2 -> storage (world_of o1) = storage (world_of o2) ->
  state_of (FileList.rerender base compare now before o1)
  = state_of (FileList.rerender base compare now before o2) /\
  storage (world_of (FileList.rerender base compare now before o1))
  = storage (world_of (FileList.rerender base compare now before o2)).
Proof.
  intros S W. unfold FileList.rerender. rewrite S.
  destruct (_ && _)%bool; [now split|].
  now apply saveContent_same.
Qed.

(** *** The markdown editor *)

Lemma markdown_saveEffect_same (now : Z) (st : FileList.state) (w : world) :
  same_files (fun c => c) (MarkdownEditor.saveEffect now st w)
    (FileList.saveContent MarkdownEditor.BASE_STORAGE_KEY Files.by_filename now st w).
Proof.
  unfold same_files, MarkdownEditor.saveEffect, MarkdownEditor.saveContent.
  destruct (thrown _); split; reflexivity.
Qed.

Lemma markdown_rerender_same (now : Z) (before : FileList.state)
    (o : outcome FileList.state) :
  same_files (fun c => c) (MarkdownEditor.rerender now before o)
    (FileList.rerender MarkdownEditor.BASE_STORAGE_KEY Files.by_filename now before o).
Proof.
  unfold MarkdownEditor.rerender, FileList.rerender.
  destruct (_ && _)%bool; [split; reflexivity|]. apply markdown_saveEffect_same.
Qed.

(** *** The multi-content editor *)

Lemma chartsEffect_files (st : MultiContentEditor.state) (w : world) :
  MultiContentEditor.cells (fst (MultiContentEditor.chartsEffect st w))
  = MultiContentEditor.cells st /\
  storage (snd (MultiContentEditor.chartsEffect st w)) = storage w.
Proof.
  unfold MultiContentEditor.chartsEffect. cbn [MultiContentEditor.setCharts].
  destruct (JSON.parse _); split; reflexivity.
Qed.

Lemma multi_saveContent_same (now : Z) (st : MultiContentEditor.state) (w : world) :
  same_files MultiContentEditor.cells (MultiContentEditor.saveContent now st w)
    (FileList.saveContent MultiContentEditor.BASE_STORAGE_KEY Files.by_lastModified now
       (MultiContentEditor.cells st) w).
Proof. split; reflexivity. Qed.

Lemma multi_rerender_same (now : Z) (st : MultiContentEditor.state)
    (h : outcome FileList.state) :
  same_files MultiContentEditor.cells
    (MultiContentEditor.rerender now st (MultiContentEditor.lift h st))
    (FileList.rerender MultiContentEditor.BASE_STORAGE_KEY Files.by_lastModified now
       (MultiContentEditor.cells st) h).
Proof.
  unfold same_files, MultiContentEditor.rerender, FileList.rerender,
    MultiContentEditor.codeInput.
  cbn [MultiContentEditor.lift state_of world_of thrown MultiContentEditor.setCells
       MultiContentEditor.cells].
  set (r := if (FileList.codeInput (state_of h)
                =? FileList.codeInput (MultiContentEditor.cells st))%string
            then (MultiContentEditor.setCells (state_of h) st, world_of h)
            else MultiContentEditor.chartsEffect
                   (MultiContentEditor.setCells (state_of h) st) (world_of h)).
  assert (R : MultiContentEditor.cells (fst r) = state_of h /\
              storage (snd r) = storage (world_of h)).
  { subst r. destruct (_ =? _)%string; [split; reflexivity|]. apply chartsEffect_files. }
  destruct R as [Rc Rs].
  rewrite (andb_comm (_ =? _)%string).
  destruct (_ && _)%bool; cbn [state_of world_of]; [now split|].
  destruct (multi_saveContent_same now (fst r) (snd r)) as [A B].
  rewrite A, B, Rc.
  apply (saveContent_same _ _ now (state_of h) (snd r) (world_of h) Rs).
Qed.

(** *** The chart editor *)

Lemma chart_saveEffect_same (evaluate : string -> world -> option exn * world)
    (now : Z) (st : EChartsEditor.state) (w : world) :
  leaves_storage evaluate (FileList.codeInput (EChartsEditor.cells st)) ->
  same_files EChartsEditor.cells (EChartsEditor.saveEffect evaluate now st w)
    (FileList.saveContent EChartsEditor.BASE_STORAGE_KEY Files.by_lastModified now
       (EChartsEditor.cells st) w).
Proof.
  intros L. unfold same_files, EChartsEditor.saveEffect, EChartsEditor.saveContent.
  pose proof (saveContent_cells EChartsEditor.BASE_STORAGE_KEY Files.by_lastModified now
                (EChartsEditor.cells st) w) as (_ & C & _).
  destruct (thrown _); [split; reflexivity|].
  rewrite C. specialize (L (world_of (FileList.saveContent EChartsEditor.BASE_STORAGE_KEY
                                        Files.by_lastModified now (EChartsEditor.cells st) w))).
  destruct (evaluate _ _) as [e w1]. cbn [snd] in L. split; [reflexivity | exact L].
Qed.

Lemma chart_rerender_same (evaluate : string -> world -> option exn * world)
    (now : Z) (st : EChartsEditor.state) (h : outcome FileList.state) :
  leaves_storage evaluate (FileList.codeInput (state_of h)) ->
  same_files EChartsEditor.cells
    (EChartsEditor.rerender evaluate now st (EChartsEditor.lift h st))
    (FileList.rerender EChartsEditor.BASE_STORAGE_KEY Files.by_lastModified now
       (EChartsEditor.cells st) h).
Proof.
  intros L. unfold EChartsEditor.rerender, FileList.rerender.
  cbn [EChartsEditor.lift state_of world_of EChartsEditor.cells].
  destruct (_ && _)%bool; [split; reflexivity|].
  apply (chart_saveEffect_same evaluate now
           {| EChartsEditor.cells := state_of h;
              EChartsEditor.parseError := EChartsEditor.parseError st |} (world_of h)).
  exact L.
Qed.
(** *** Saving and loading again *)

(** X6. What the save effect stored is what the next mount starts
    from: the name, and the text unless it is empty, in which case the
    mount starts from the default text.  This holds also when the
    listing inside the effect throws: both writes come before it.  In
    the chart editor the effect goes on to run the text as code, and
    the statement holds for a text that leaves the storage alone. *)
Theorem saved_document_reloads :
  (forall (now : Z) (st : FileList.state) (w : world),
      FileList.filename st <> "" -> FileList.filename st <> "last-filename" ->
      reloads MarkdownEditor.BASE_STORAGE_KEY MarkdownEditor.defaultContent st
        (storage (world_of (MarkdownEditor.saveEffect now st w))))
  /\
  (forall (now : Z) (st : MultiContentEditor.state) (w : world),
      let c := MultiContentEditor.cells st in
      FileList.filename c <> "" -> FileList.filename c <> "last-filename" ->
      reloads MultiContentEditor.BASE_STORAGE_KEY MultiContentEditor.defaultContent c
        (storage (world_of (MultiContentEditor.saveContent now st w))))
  /\
  (forall (evaluate : string -> world -> option exn * world)
          (now : Z) (st : EChartsEditor.state) (w : world),
      let c := EChartsEditor.cells st in
      FileList.filename c <> "" -> FileList.filename c <> "last-filename" ->
      leaves_storage evaluate (FileList.codeInput c) ->
      reloads EChartsEditor.BASE_STORAGE_KEY EChartsEditor.defaultOptions c
        (storage (world_of (EChartsEditor.saveEffect evaluate now st w)))).
Proof.
  split; [|split].
  - intros now st w N L.
    rewrite (proj2 (markdown_saveEffect_same now st w)).
    exact (saveContent_reloads _ _ _ now st w N L).
  - intros now st w c N L.
    rewrite (proj2 (multi_saveContent_same now st w)).
    exact (saveContent_reloads _ _ _ now c w N L).
  - intros evaluate now st w c N L E.
    rewrite (proj2 (chart_saveEffect_same evaluate now st w E)).
    exact (saveContent_reloads _ _ _ now c w N L).
Qed.

Lemma saved_document_reloads_witness :
  reloads "markdown-editor-content" "" (cells_of "draft" "# Hi")
    (storage (world_of (MarkdownEditor.saveEffect 7 (cells_of "draft" "# Hi") (world_with []))))
  /\
  reloads "multi-content-editor" MultiContentEditor.defaultContent (cells_of "draft" "[1]")
    (storage (world_of (MultiContentEditor.saveContent 7 (multi_on "draft" "[1]") multi_world)))
  /\
  reloads "echarts-editor-content" EChartsEditor.defaultOptions (cells_of "draft" "{}")
    (storage (world_of (EChartsEditor.saveEffect evaluate_quietly 7 (chart_on "draft" "{}")
                          (world_with [])))).
Proof.
  destruct saved_document_reloads as (Markdown & Multi & Chart). split; [|split].
  - apply (Markdown 7 (cells_of "draft" "# Hi") (world_with [])); discriminate.
  - apply (Multi 7 (multi_on "draft" "[1]") multi_world); discriminate.
  - apply (Chart evaluate_quietly 7 (chart_on "draft" "{}") (world_with []));
      try discriminate.
    intros w. reflexivity.
Defined.

(** In the chart editor a text can undo the save that ran it: the
    effect stores the document and then runs its text, which here
    empties the storage. *)
Example evaluated_text_can_undo_the_save :
  let o := EChartsEditor.saveEffect evaluate_clearing 7 (chart_on "draft" "localStorage.clear()")
             (world_with []) in
  thrown o = None /\
  FileList.saveStatus (EChartsEditor.cells (state_of o)) = "Saved!" /\
  storage (world_of o) = [] /\
  FileList.initialFilename "echarts-editor-content" (storage (world_of o)) = "untitled".
Proof. repeat split. Qed.

(** *** Mounting *)

Lemma initialState_starts (base default : string) (s : Storage.t) (now : Z)
    (st : FileList.state) :
  FileList.initialState base default s now = Some st ->
  FileList.filename st = FileList.initialFilename base s /\
  FileList.initialContent base default s (FileList.initialFilename base s)
  = JS.Str (FileList.codeInput st).
Proof.
  unfold FileList.initialState.
  destruct (FileList.initialContent base default s (FileList.initialFilename base s));
    try discriminate.
  intros H. injection H as <-. split; reflexivity.
Qed.

Lemma restarts_refl (base default : string) (s : Storage.t) : restarts base default s s.
Proof. split; reflexivity. Qed.

(** The storage [saveContent] leaves depends on the name and the text
    of the cells only. *)
Lemma saveContent_storage (base : string) (compare : Files.file -> Files.file -> JS.number)
    (now : Z) (st st' : FileList.state) (w w' : world) :
  FileList.filename st' = FileList.filename st ->
  FileList.codeInput st' = FileList.codeInput st ->
  storage w' = storage w ->
  storage (world_of (FileList.saveContent base compare now st' w'))
  = storage (world_of (FileList.saveContent base compare now st w)).
Proof.
  intros F C W.
  destruct (saveContent_spec base compare now st' w') as (_ & _ & _ & ->).
  destruct (saveContent_spec base compare now st w) as (_ & _ & _ & ->).
  now rewrite F, C, W.
Qed.

Lemma saveContent_restarts_from (base default : string)
    (compare : Files.file -> Files.file -> JS.number)
    (now : Z) (st st' : FileList.state) (w w' : world) :
  FileList.initialState base default (storage w) now = Some st ->
  FileList.filename st' = FileList.filename st ->
  FileList.codeInput st' = FileList.codeInput st ->
  storage w' = storage w ->
  restarts base default (storage w)
    (storage (world_of (FileList.saveContent base compare now st' w'))).
Proof.
  intros I F C W.
  rewrite (saveContent_storage base compare now st st' w w' F C W).
  pose proof (saveContent_restarts base default compare now st w I) as I'.
  destruct (initialState_starts _ _ _ _ _ I) as [N T].
  destruct (initialState_starts _ _ _ _ _ I') as [N' T'].
  unfold restarts. rewrite <- N, <- N'. split; [reflexivity|]. congruence.
Qed.

Lemma listFiles_files (base : string) (compare : Files.file -> Files.file -> JS.number)
    (now : Z) (st : FileList.state) (w : world) :
  let o := FileList.listFiles base compare now st w in
  FileList.filename (state_of o) = FileList.filename st /\
  FileList.codeInput (state_of o) = FileList.codeInput st /\
  world_of o = w /\
  thrown o = match FileList.loadSavedFiles base compare (storage w) now with
             | Ok _ => None
             | Throw e => Some e
             end.
Proof. unfold FileList.listFiles. now destruct (FileList.loadSavedFiles _ _ _ _). Qed.

Lemma markdown_mountEffect_files (now : Z) (st : FileList.state) (w : world) :
  let o := MarkdownEditor.mountEffect now st w in
  FileList.filename (state_of o) = FileList.filename st /\
  FileList.codeInput (state_of o) = FileList.codeInput st /\
  world_of o = w /\
  forall e, MarkdownEditor.loadSavedFiles (storage w) now = Throw e -> thrown o = Some e.
Proof.
  unfold MarkdownEditor.mountEffect, MarkdownEditor.loadSavedFiles.
  destruct (listFiles_files MarkdownEditor.BASE_STORAGE_KEY Files.by_filename now st w)
    as (F & C & W & T).
  destruct (FileList.loadSavedFiles _ _ _ _) as [files|e0]; rewrite T;
    cbn [state_of world_of thrown]; repeat split; auto; try discriminate.
  intros e E. injection E as <-. exact T.
Qed.

(** X7. Loading the page stores nothing a reload would read
    differently: when an editor has mounted, the next mount starts with
    the name and the text this one started with.  When the listing of
    the effect that runs on mount throws, the editor is unmounted
    before its save effect has run, and nothing at all is written.  In
    the chart editor the save effect runs the text as code, and the
    first statement holds for a text that leaves the storage alone. *)
Theorem reload_is_stable :
  (forall (now : Z) (w : world) (o : outcome FileList.state),
      MarkdownEditor.mount now w = Some o ->
      restarts MarkdownEditor.BASE_STORAGE_KEY MarkdownEditor.defaultContent
        (storage w) (storage (world_of o)) /\
      forall e, MarkdownEditor.loadSavedFiles (storage w) now = Throw e ->
                world_of o = w /\ thrown o = Some e)
  /\
  (forall (now : Z) (w : world) (o : outcome MultiContentEditor.state),
      MultiContentEditor.mount now w = Some o ->
      restarts MultiContentEditor.BASE_STORAGE_KEY MultiContentEditor.defaultContent
        (storage w) (storage (world_of o)) /\
      forall e, MultiContentEditor.loadSavedFiles (storage w) now = Throw e ->
                world_of o = w /\ thrown o = Some e)
  /\
  (forall (evaluate : string -> world -> option exn * world)
          (now : Z) (w : world) (o : outcome EChartsEditor.state),
      EChartsEditor.mount evaluate now w = Some o ->
      (leaves_storage evaluate (FileList.codeInput (EChartsEditor.cells (state_of o))) ->
       restarts EChartsEditor.BASE_STORAGE_KEY EChartsEditor.defaultOptions
         (storage w) (storage (world_of o))) /\
      forall e, EChartsEditor.loadSavedFiles (storage w) now = Throw e ->
                world_of o = w /\ thrown o = Some e).
Proof.
  split; [|split].
  - intros now w o. unfold MarkdownEditor.mount.
    destruct (FileList.initialState _ _ _ _) as [st|] eqn:I; [|discriminate].
    intros H. injection H as <-.
    destruct (markdown_mountEffect_files now st w) as (F & C & W & T).
    destruct (thrown (MarkdownEditor.mountEffect now st w)) as [e0|] eqn:Th.
    + split; [rewrite W; apply restarts_refl|].
      intros e E. split; [exact W|]. rewrite <- (T e E). exact Th.
    + split.
      * rewrite (proj2 (markdown_saveEffect_same now _ _)).
        apply (saveContent_restarts_from _ _ _ now st); auto. f_equal; exact W.
      * intros e E. discriminate (T e E).
  - intros now w o. unfold MultiContentEditor.mount.
    destruct (FileList.initialState _ _ _ _) as [c|] eqn:I; [|discriminate].
    intros H. injection H as <-.
    unfold MultiContentEditor.lift, MultiContentEditor.loadSavedFiles.
    cbn [thrown state_of world_of].
    destruct (listFiles_files MultiContentEditor.BASE_STORAGE_KEY Files.by_lastModified
                now c w) as (F & C & W & T).
    destruct (thrown (FileList.listFiles _ _ now c w)) as [e0|] eqn:Th.
    + cbn [world_of thrown]. split; [rewrite W; apply restarts_refl|].
      intros e E. rewrite E in T. split; [exact W | exact T].
    + split.
      * set (st0 := MultiContentEditor.setCells _ _).
        destruct (chartsEffect_files st0 (world_of (FileList.listFiles
                    MultiContentEditor.BASE_STORAGE_KEY Files.by_lastModified now c w)))
          as [Cc Cs].
        destruct (MultiContentEditor.chartsEffect st0 _) as [st1 w1].
        cbn [fst snd] in Cc, Cs.
        rewrite (proj2 (multi_saveContent_same now st1 w1)).
        apply (saveContent_restarts_from _ _ _ now c); auto.
        -- rewrite Cc. exact F.
        -- rewrite Cc. exact C.
        -- rewrite Cs. f_equal; exact W.
      * intros e E. rewrite E in T. discriminate.
  - intros evaluate now w o. unfold EChartsEditor.mount.
    destruct (FileList.initialState _ _ _ _) as [c|] eqn:I; [|discriminate].
    intros H. injection H as <-.
    unfold EChartsEditor.mountEffect, EChartsEditor.lift, EChartsEditor.loadSavedFiles.
    cbn [thrown state_of world_of EChartsEditor.cells EChartsEditor.parseError].
    destruct (listFiles_files EChartsEditor.BASE_STORAGE_KEY Files.by_lastModified
                now c w) as (F & C & W & T).
    destruct (thrown (FileList.listFiles _ _ now c w)) as [e0|] eqn:Th.
    + cbn [world_of thrown]. split; [intros _; rewrite W; apply restarts_refl|].
      intros e E. rewrite E in T. split; [exact W | exact T].
    + split.
      * set (st1 := {| EChartsEditor.cells := _; EChartsEditor.parseError := "" |}).
        set (w1 := world_of _).
        intros L.
        assert (K : FileList.codeInput (EChartsEditor.cells
                       (state_of (EChartsEditor.saveEffect evaluate now st1 w1)))
                    = FileList.codeInput (EChartsEditor.cells st1)).
        { unfold EChartsEditor.saveEffect, EChartsEditor.saveContent.
          pose proof (saveContent_cells EChartsEditor.BASE_STORAGE_KEY Files.by_lastModified
                        now (EChartsEditor.cells st1) w1) as (_ & K & _).
          destruct (thrown (FileList.saveContent _ _ _ _ _)); [exact K|].
          destruct (evaluate _ _). exact K. }
        rewrite K in L.
        rewrite (proj2 (chart_saveEffect_same evaluate now st1 w1 L)).
        apply (saveContent_restarts_from _ _ _ now c); auto. subst w1. f_equal; exact W.
      * intros e E. rewrite E in T. discriminate.
Qed.

Lemma reload_is_stable_witness :
  (exists o,
      MarkdownEditor.mount 7 (world_with [("markdown-editor-content-last-filename", "draft")])
      = Some o /\
      restarts "markdown-editor-content" ""
        [("markdown-editor-content-last-filename", "draft")] (storage (world_of o)))
  /\
  (exists o e,
      MultiContentEditor.mount 7 (multi_world_with_notes "oops") = Some o /\
      MultiContentEditor.loadSavedFiles (storage (multi_world_with_notes "oops")) 7 = Throw e /\
      world_of o = multi_world_with_notes "oops" /\ thrown o = Some e)
  /\
  (exists o,
      EChartsEditor.mount evaluate_quietly 7 (world_with []) = Some o /\
      restarts "echarts-editor-content" EChartsEditor.defaultOptions [] (storage (world_of o))).
Proof.
  destruct reload_is_stable as (Markdown & Multi & Chart). split; [|split].
  - name_result
      (MarkdownEditor.mount 7 (world_with [("markdown-editor-content-last-filename", "draft")]))
      ltac:(fun x => pose (o := x)).
    assert (M : MarkdownEditor.mount 7
                  (world_with [("markdown-editor-content-last-filename", "draft")]) = Some o)
      by (vm_compute; reflexivity).
    exists o. split; [exact M|]. exact (proj1 (Markdown 7 _ o M)).
  - name_result (MultiContentEditor.mount 7 (multi_world_with_notes "oops"))
      ltac:(fun x => pose (o := x)).
    assert (M : MultiContentEditor.mount 7 (multi_world_with_notes "oops") = Some o)
      by (vm_compute; reflexivity).
    assert (T : MultiContentEditor.loadSavedFiles (storage (multi_world_with_notes "oops")) 7
                = Throw (SyntaxError "Unexpected token 'oops'"))
      by (vm_compute; reflexivity).
    exists o, (SyntaxError "Unexpected token 'oops'"). split; [exact M|]. split; [exact T|].
    exact (proj2 (Multi 7 _ o M) _ T).
  - name_result (EChartsEditor.mount evaluate_quietly 7 (world_with []))
      ltac:(fun x => pose (o := x)).
    assert (M : EChartsEditor.mount evaluate_quietly 7 (world_with []) = Some o)
      by (vm_compute; reflexivity).
    exists o. split; [exact M|].
    apply (proj1 (Chart evaluate_quietly 7 _ o M)). intros w. reflexivity.
Defined.

(** *** The events of the file panel and of the name field *)

Lemma rerender_text (base : string) (compare : Files.file -> Files.file -> JS.number)
    (now : Z) (before : FileList.state) (h : outcome FileList.state) :
  FileList.codeInput (state_of (FileList.rerender base compare now before h))
  = FileList.codeInput (state_of h).
Proof.
  unfold FileList.rerender. destruct (_ && _)%bool; [reflexivity|].
  apply saveContent_cells.
Qed.

Lemma handleFilenameChange_same (base : string)
    (compare : Files.file -> Files.file -> JS.number)
    (value : string) (now : Z) (st : FileList.state) (w1 w2 : world) :
  storage w1 = storage w2 ->
  state_of (FileList.handleFilenameChange base compare value now st w1)
  = state_of (FileList.handleFilenameChange base compare value now st w2) /\
  storage (world_of (FileList.handleFilenameChange base compare value now st w1))
  = storage (world_of (FileList.handleFilenameChange base compare value now st w2)) /\
  FileList.codeInput (state_of (FileList.handleFilenameChange base compare value now st w1))
  = FileList.codeInput st.
Proof.
  intros E. unfold FileList.handleFilenameChange. rewrite E.
  destruct (_ && _)%bool; [|repeat split; assumption].
  destruct (FileList.loadSavedFiles _ _ _ _); repeat split.
Qed.

Lemma onFilenameChange_same (base : string)
    (compare : Files.file -> Files.file -> JS.number)
    (value : string) (now : Z) (st : FileList.state) (w1 w2 : world) :
  storage w1 = storage w2 ->
  state_of (FileList.onFilenameChange base compare value now st w1)
  = state_of (FileList.onFilenameChange base compare value now st w2) /\
  storage (world_of (FileList.onFilenameChange base compare value now st w1))
  = storage (world_of (FileList.onFilenameChange base compare value now st w2)).
Proof.
  intros E. unfold FileList.onFilenameChange.
  destruct (handleFilenameChange_same base compare value now st w1 w2 E) as (A & B & _).
  now apply rerender_same.
Qed.

(** The click in each editor against the click of the shared code. *)
Lemma markdown_onFileClick_same (file : Files.file) (now : Z)
    (st : FileList.state) (w : world) (shared : outcome FileList.state) :
  FileList.onFileClick MarkdownEditor.BASE_STORAGE_KEY MarkdownEditor.defaultContent
    Files.by_filename file now st w = Some shared ->
  exists o, MarkdownEditor.onFileClick file now st w = Some o /\
            same_files (fun c => c) o shared.
Proof.
  unfold FileList.onFileClick, MarkdownEditor.onFileClick, MarkdownEditor.handleFileClick.
  destruct (FileList.handleFileClick _ _ _ _ _ _) as [h|]; [|discriminate].
  intros H. injection H as <-. eexists. split; [reflexivity|].
  apply markdown_rerender_same.
Qed.

Lemma multi_onFileClick_same (file : Files.file) (now : Z)
    (st : MultiContentEditor.state) (w : world) (shared : outcome FileList.state) :
  FileList.onFileClick MultiContentEditor.BASE_STORAGE_KEY MultiContentEditor.defaultContent
    Files.by_lastModified file now (MultiContentEditor.cells st) w = Some shared ->
  exists o, MultiContentEditor.onFileClick file now st w = Some o /\
            same_files MultiContentEditor.cells o shared.
Proof.
  unfold FileList.onFileClick, MultiContentEditor.onFileClick,
    MultiContentEditor.handleFileClick.
  destruct (FileList.handleFileClick _ _ _ _ _ _) as [h|]; [|discriminate].
  intros H. injection H as <-. eexists. split; [reflexivity|].
  apply multi_rerender_same.
Qed.

Lemma chart_onFileClick_same (evaluate : string -> world -> option exn * world)
    (file : Files.file) (now : Z)
    (st : EChartsEditor.state) (w : world) (shared : outcome FileList.state) :
  FileList.onFileClick EChartsEditor.BASE_STORAGE_KEY EChartsEditor.defaultOptions
    Files.by_lastModified file now (EChartsEditor.cells st) w = Some shared ->
  leaves_storage evaluate (FileList.codeInput (state_of shared)) ->
  exists o, EChartsEditor.onFileClick evaluate file now st w = Some o /\
            same_files EChartsEditor.cells o shared.
Proof.
  unfold FileList.onFileClick, EChartsEditor.onFileClick, EChartsEditor.handleFileClick.
  destruct (FileList.handleFileClick _ _ _ _ _ _) as [h|]; [|discriminate].
  intros H. injection H as <-. rewrite rerender_text. intros L.
  eexists. split; [reflexivity|].
  now apply chart_rerender_same.
Qed.

(** X9. A click on another listed document whose stored text is a
    string opens it and stores it anew: the name and the text shown are
    those of the document, the default text where the stored text is
    empty; the edit time and the stored time are the time of the click;
    the name is the last-used one.  In the chart editor the save effect
    that follows the click runs the text shown as code, and the
    statement holds for a text that leaves the storage alone. *)
Theorem opening_a_file_saves_it_anew (file : Files.file) (text : string) (now : Z) :
  let name := Files.name file in
  let shown (default : string) := if (text =? "")%string then default else text in
  name <> "" -> name <> "last-filename" ->
  (forall (st : FileList.state) (w : world),
      stored_text (storage w) (FileList.storage_key MarkdownEditor.BASE_STORAGE_KEY name)
      = Some (Ok (JS.Str text)) ->
      name <> FileList.filename st ->
      exists o,
        MarkdownEditor.onFileClick file now st w = Some o /\
        opened MarkdownEditor.BASE_STORAGE_KEY name (shown MarkdownEditor.defaultContent) now
          (state_of o) (storage (world_of o)))
  /\
  (forall (st : MultiContentEditor.state) (w : world),
      stored_text (storage w) (FileList.storage_key MultiContentEditor.BASE_STORAGE_KEY name)
      = Some (Ok (JS.Str text)) ->
      name <> FileList.filename (MultiContentEditor.cells st) ->
      exists o,
        MultiContentEditor.onFileClick file now st w = Some o /\
        opened MultiContentEditor.BASE_STORAGE_KEY name
          (shown MultiContentEditor.defaultContent) now
          (MultiContentEditor.cells (state_of o)) (storage (world_of o)))
  /\
  (forall (evaluate : string -> world -> option exn * world)
          (st : EChartsEditor.state) (w : world),
      stored_text (storage w) (FileList.storage_key EChartsEditor.BASE_STORAGE_KEY name)
      = Some (Ok (JS.Str text)) ->
      name <> FileList.filename (EChartsEditor.cells st) ->
      leaves_storage evaluate (shown EChartsEditor.defaultOptions) ->
      exists o,
        EChartsEditor.onFileClick evaluate file now st w = Some o /\
        opened EChartsEditor.BASE_STORAGE_KEY name (shown EChartsEditor.defaultOptions) now
          (EChartsEditor.cells (state_of o)) (storage (world_of o))).
Proof.
  intros name shown N L. split; [|split].
  - intros st w S D.
    destruct (onFileClick_saves_anew MarkdownEditor.BASE_STORAGE_KEY
                MarkdownEditor.defaultContent Files.by_filename file text now st w S D N L)
      as (o' & E & P).
    destruct (markdown_onFileClick_same file now st w o' E) as (o & Eo & Sc & Ss).
    exists o. split; [exact Eo|]. unfold opened. cbn beta in Sc. rewrite Sc, Ss. exact P.
  - intros st w S D.
    destruct (onFileClick_saves_anew MultiContentEditor.BASE_STORAGE_KEY
                MultiContentEditor.defaultContent Files.by_lastModified file text now
                (MultiContentEditor.cells st) w S D N L) as (o' & E & P).
    destruct (multi_onFileClick_same file now st w o' E) as (o & Eo & Sc & Ss).
    exists o. split; [exact Eo|]. unfold opened. rewrite Sc, Ss. exact P.
  - intros evaluate st w S D Q.
    destruct (onFileClick_saves_anew EChartsEditor.BASE_STORAGE_KEY
                EChartsEditor.defaultOptions Files.by_lastModified file text now
                (EChartsEditor.cells st) w S D N L) as (o' & E & P).
    assert (Q' : leaves_storage evaluate (FileList.codeInput (state_of o'))).
    { destruct P as (_ & -> & _). exact Q. }
    destruct (chart_onFileClick_same evaluate file now st w o' E Q') as (o & Eo & Sc & Ss).
    exists o. split; [exact Eo|]. unfold opened. rewrite Sc, Ss. exact P.
Qed.

Lemma opening_a_file_saves_it_anew_witness :
  (exists o,
      MarkdownEditor.onFileClick notes_file 9 (cells_of "draft" "# Hi")
        (world_with [("markdown-editor-content-notes",
                      JSON.stringify {| JSON.text := "old"; JSON.lastModified := 5 |})])
      = Some o /\
      opened "markdown-editor-content" "notes" "old" 9 (state_of o) (storage (world_of o)))
  /\
  (exists o,
      MultiContentEditor.onFileClick notes_file 9 (multi_on "draft" "[]")
        (multi_world_with_notes (JSON.stringify {| JSON.text := ""; JSON.lastModified := 5 |}))
      = Some o /\
      opened "multi-content-editor" "notes" MultiContentEditor.defaultContent 9
        (MultiContentEditor.cells (state_of o)) (storage (world_of o)))
  /\
  (exists o,
      EChartsEditor.onFileClick evaluate_quietly notes_file 9 (chart_on "draft" "{}")
        (world_with [("echarts-editor-content-notes",
                      JSON.stringify {| JSON.text := "{a: 1}"; JSON.lastModified := 5 |})])
      = Some o /\
      opened "echarts-editor-content" "notes" "{a: 1}" 9
        (EChartsEditor.cells (state_of o)) (storage (world_of o))).
Proof.
  split; [|split].
  - apply (proj1 (opening_a_file_saves_it_anew notes_file "old" 9
                    ltac:(discriminate) ltac:(discriminate)));
      [vm_compute; reflexivity | discriminate].
  - apply (proj1 (proj2 (opening_a_file_saves_it_anew notes_file "" 9
                           ltac:(discriminate) ltac:(discriminate))));
      [vm_compute; reflexivity | discriminate].
  - apply (proj2 (proj2 (opening_a_file_saves_it_anew notes_file "{a: 1}" 9
                           ltac:(discriminate) ltac:(discriminate))));
      [vm_compute; reflexivity | discriminate | intros w; reflexivity].
Defined.

Lemma handleFileClick_unparseable (base default : string) (file : Files.file) (now : Z)
    (st : FileList.state) (w : world) (stored : string) (e : exn) :
  Storage.getItem (storage w) (FileList.storage_key base (Files.name file)) = Some stored ->
  stored <> "" ->
  JSON.parse stored = Throw e ->
  FileList.handleFileClick base default file now st w
  = Some {| state_of := st; world_of := w; thrown := Some e |}.
Proof.
  intros G N P. unfold FileList.handleFileClick, FileList.clickedContent.
  rewrite G. apply String.eqb_neq in N. rewrite N, P. reflexivity.
Qed.

(** X10. A click on a listed document that cannot be read.  Where the
    payload is not JSON the click throws and changes nothing.  Where it
    is the JSON [null], the name of the document is set before the
    handler throws, and the save effect stores the text of the editor
    over the entry.  Where the key is gone, the default text is shown
    and stored.  In the chart editor the save effect runs the text as
    code, and the last two statements hold for a text that leaves the
    storage alone. *)
Theorem opening_unreadable_or_missing_file (file : Files.file) (now : Z) :
  let name := Files.name file in
  (forall (st : FileList.state) (w : world),
      let key := FileList.storage_key MarkdownEditor.BASE_STORAGE_KEY name in
      (forall stored e,
          Storage.getItem (storage w) key = Some stored -> stored <> "" ->
          JSON.parse stored = Throw e ->
          MarkdownEditor.onFileClick file now st w
          = Some {| state_of := st; world_of := w; thrown := Some e |})
      /\
      (forall stored,
          Storage.getItem (storage w) key = Some stored -> stored <> "" ->
          JSON.parse stored = Ok JS.Null ->
          name <> FileList.filename st -> name <> "last-filename" ->
          exists o,
            MarkdownEditor.onFileClick file now st w = Some o /\
            shown_and_stored MarkdownEditor.BASE_STORAGE_KEY name (FileList.codeInput st) now
              (state_of o) (storage (world_of o)))
      /\
      (Storage.getItem (storage w) key = None ->
       name <> FileList.filename st -> name <> "last-filename" ->
       exists o,
         MarkdownEditor.onFileClick file now st w = Some o /\
         shown_and_stored MarkdownEditor.BASE_STORAGE_KEY name MarkdownEditor.defaultContent now
           (state_of o) (storage (world_of o))))
  /\
  (forall (st : MultiContentEditor.state) (w : world),
      let key := FileList.storage_key MultiContentEditor.BASE_STORAGE_KEY name in
      let c := MultiContentEditor.cells st in
      (forall stored e,
          Storage.getItem (storage w) key = Some stored -> stored <> "" ->
          JSON.parse stored = Throw e ->
          MultiContentEditor.onFileClick file now st w
          = Some {| state_of := st; world_of := w; thrown := Some e |})
      /\
      (forall stored,
          Storage.getItem (storage w) key = Some stored -> stored <> "" ->
          JSON.parse stored = Ok JS.Null ->
          name <> FileList.filename c -> name <> "last-filename" ->
          exists o,
            MultiContentEditor.onFileClick file now st w = Some o /\
            shown_and_stored MultiContentEditor.BASE_STORAGE_KEY name (FileList.codeInput c) now
              (MultiContentEditor.cells (state_of o)) (storage (world_of o)))
      /\
      (Storage.getItem (storage w) key = None ->
       name <> FileList.filename c -> name <> "last-filename" ->
       exists o,
         MultiContentEditor.onFileClick file now st w = Some o /\
         shown_and_stored MultiContentEditor.BASE_STORAGE_KEY name
           MultiContentEditor.defaultContent now
           (MultiContentEditor.cells (state_of o)) (storage (world_of o))))
  /\
  (forall (evaluate : string -> world -> option exn * world)
          (st : EChartsEditor.state) (w : world),
      let key := FileList.storage_key EChartsEditor.BASE_STORAGE_KEY name in
      let c := EChartsEditor.cells st in
      (forall stored e,
          Storage.getItem (storage w) key = Some stored -> stored <> "" ->
          JSON.parse stored = Throw e ->
          EChartsEditor.onFileClick evaluate file now st w
          = Some {| state_of := st; world_of := w; thrown := Some e |})
      /\
      (forall stored,
          Storage.getItem (storage w) key = Some stored -> stored <> "" ->
          JSON.parse stored = Ok JS.Null ->
          name <> FileList.filename c -> name <> "last-filename" ->
          leaves_storage evaluate (FileList.codeInput c) ->
          exists o,
            EChartsEditor.onFileClick evaluate file now st w = Some o /\
            shown_and_stored EChartsEditor.BASE_STORAGE_KEY name (FileList.codeInput c) now
              (EChartsEditor.cells (state_of o)) (storage (world_of o)))
      /\
      (Storage.getItem (storage w) key = None ->
       name <> FileList.filename c -> name <> "last-filename" ->
       leaves_storage evaluate EChartsEditor.defaultOptions ->
       exists o,
         EChartsEditor.onFileClick evaluate file now st w = Some o /\
         shown_and_stored EChartsEditor.BASE_STORAGE_KEY name EChartsEditor.defaultOptions now
           (EChartsEditor.cells (state_of o)) (storage (world_of o)))).
Proof.
  intros name. split; [|split].
  - intros st w key.
    destruct (onFileClick_unreadable MarkdownEditor.BASE_STORAGE_KEY
                MarkdownEditor.defaultContent Files.by_filename file now st w)
      as (_ & Null & Gone).
    split; [|split].
    + intros stored e G N P. unfold MarkdownEditor.onFileClick, MarkdownEditor.handleFileClick.
      rewrite (handleFileClick_unparseable _ _ file now st w stored e G N P).
      cbn [option_map]. unfold MarkdownEditor.rerender. cbn [state_of].
      now rewrite !String.eqb_refl.
    + intros stored G N P D L.
      destruct (Null stored G N P D L) as (o' & E & F & C & K).
      destruct (markdown_onFileClick_same file now st w o' E) as (o & Eo & Sc & Ss).
      exists o. split; [exact Eo|]. unfold shown_and_stored. cbn beta in Sc.
      rewrite Sc, Ss. auto.
    + intros G D L.
      destruct (Gone G D L) as (o' & E & F & C & K).
      destruct (markdown_onFileClick_same file now st w o' E) as (o & Eo & Sc & Ss).
      exists o. split; [exact Eo|]. unfold shown_and_stored. cbn beta in Sc.
      rewrite Sc, Ss. auto.
  - intros st w key c.
    destruct (onFileClick_unreadable MultiContentEditor.BASE_STORAGE_KEY
                MultiContentEditor.defaultContent Files.by_lastModified file now c w)
      as (_ & Null & Gone).
    split; [|split].
    + intros stored e G N P.
      unfold MultiContentEditor.onFileClick, MultiContentEditor.handleFileClick.
      rewrite (handleFileClick_unparseable _ _ file now _ w stored e G N P).
      cbn [option_map]. unfold MultiContentEditor.rerender, MultiContentEditor.lift,
        MultiContentEditor.codeInput.
      cbn [state_of world_of thrown MultiContentEditor.setCells MultiContentEditor.cells].
      rewrite !String.eqb_refl. cbn [andb fst snd]. now destruct st.
    + intros stored G N P D L.
      destruct (Null stored G N P D L) as (o' & E & F & C & K).
      destruct (multi_onFileClick_same file now st w o' E) as (o & Eo & Sc & Ss).
      exists o. split; [exact Eo|]. unfold shown_and_stored. rewrite Sc, Ss. auto.
    + intros G D L.
      destruct (Gone G D L) as (o' & E & F & C & K).
      destruct (multi_onFileClick_same file now st w o' E) as (o & Eo & Sc & Ss).
      exists o. split; [exact Eo|]. unfold shown_and_stored. rewrite Sc, Ss. auto.
  - intros evaluate st w key c.
    destruct (onFileClick_unreadable EChartsEditor.BASE_STORAGE_KEY
                EChartsEditor.defaultOptions Files.by_lastModified file now c w)
      as (_ & Null & Gone).
    split; [|split].
    + intros stored e G N P.
      unfold EChartsEditor.onFileClick, EChartsEditor.handleFileClick.
      rewrite (handleFileClick_unparseable _ _ file now _ w stored e G N P).
      cbn [option_map]. unfold EChartsEditor.rerender, EChartsEditor.lift.
      cbn [state_of world_of thrown EChartsEditor.cells].
      rewrite !String.eqb_refl. cbn [andb]. now destruct st.
    + intros stored G N P D L Q.
      destruct (Null stored G N P D L) as (o' & E & F & C & K).
      rewrite <- C in Q.
      destruct (chart_onFileClick_same evaluate file now st w o' E Q) as (o & Eo & Sc & Ss).
      exists o. split; [exact Eo|]. unfold shown_and_stored. rewrite Sc, Ss. auto.
    + intros G D L Q.
      destruct (Gone G D L) as (o' & E & F & C & K).
      rewrite <- C in Q.
      destruct (chart_onFileClick_same evaluate file now st w o' E Q) as (o & Eo & Sc & Ss).
      exists o. split; [exact Eo|]. unfold shown_and_stored. rewrite Sc, Ss. auto.
Qed.

Lemma opening_unreadable_or_missing_file_witness :
  MarkdownEditor.onFileClick notes_file 9 (cells_of "draft" "# Hi")
    (world_with [("markdown-editor-content-notes", "oops")])
  = Some {| state_of := cells_of "draft" "# Hi";
            world_of := world_with [("markdown-editor-content-notes", "oops")];
            thrown := Some (SyntaxError "Unexpected token 'oops'") |}
  /\
  (exists o,
      MultiContentEditor.onFileClick notes_file 9 (multi_on "draft" "[]")
        (multi_world_with_notes "null") = Some o /\
      shown_and_stored "multi-content-editor" "notes" "[]" 9
        (MultiContentEditor.cells (state_of o)) (storage (world_of o)))
  /\
  (exists o,
      EChartsEditor.onFileClick evaluate_quietly notes_file 9 (chart_on "draft" "{}")
        (world_with []) = Some o /\
      shown_and_stored "echarts-editor-content" "notes" EChartsEditor.defaultOptions 9
        (EChartsEditor.cells (state_of o)) (storage (world_of o))).
Proof.
  destruct (opening_unreadable_or_missing_file notes_file 9) as (Markdown & Multi & Chart).
  split; [|split].
  - apply (proj1 (Markdown (cells_of "draft" "# Hi")
                    (world_with [("markdown-editor-content-notes", "oops")])) "oops");
      [reflexivity | discriminate | reflexivity].
  - apply (proj1 (proj2 (Multi (multi_on "draft" "[]") (multi_world_with_notes "null"))) "null");
      [reflexivity | discriminate | reflexivity | discriminate | discriminate].
  - apply (proj2 (proj2 (Chart evaluate_quietly (chart_on "draft" "{}") (world_with []))));
      [reflexivity | discriminate | discriminate | intros w; reflexivity].
Defined.

(** The change of the name in each editor against that of the shared
    code. *)
Lemma multi_onFilenameChange_same (value : string) (now : Z)
    (st : MultiContentEditor.state) (w : world) :
  same_files MultiContentEditor.cells (MultiContentEditor.onFilenameChange value now st w)
    (FileList.onFilenameChange MultiContentEditor.BASE_STORAGE_KEY Files.by_lastModified
       value now (MultiContentEditor.cells st) w).
Proof.
  unfold MultiContentEditor.onFilenameChange, MultiContentEditor.handleFilenameChange.
  apply multi_rerender_same.
Qed.

Lemma markdown_onFilenameChange_same (value : string) (now : Z)
    (st : FileList.state) (w : world) :
  same_files (fun c => c) (MarkdownEditor.onFilenameChange value now st w)
    (FileList.onFilenameChange MarkdownEditor.BASE_STORAGE_KEY Files.by_filename
       value now st w).
Proof. apply markdown_rerender_same. Qed.

Lemma chart_onFilenameChange_same (evaluate : string -> world -> option exn * world)
    (value : string) (now : Z) (st : EChartsEditor.state) (w : world) :
  leaves_storage evaluate (FileList.codeInput (EChartsEditor.cells st)) ->
  same_files EChartsEditor.cells (EChartsEditor.onFilenameChange evaluate value now st w)
    (FileList.onFilenameChange EChartsEditor.BASE_STORAGE_KEY Files.by_lastModified
       value now (EChartsEditor.cells st) w).
Proof.
  intros L. unfold EChartsEditor.onFilenameChange, EChartsEditor.handleFilenameChange.
  apply chart_rerender_same.
  now rewrite (proj2 (proj2 (handleFilenameChange_same _ _ value now _ w w eq_refl))).
Qed.

(** Two changes of the name in an editor against two of the shared
    code. *)
Lemma twice_same {S : Type} (cells : S -> FileList.state)
    (base : string) (compare : Files.file -> Files.file -> JS.number)
    (v2 : string) (t2 : Z) (o1 o2 : outcome S) (shared1 : outcome FileList.state) :
  same_files cells o1 shared1 ->
  same_files cells o2
    (FileList.onFilenameChange base compare v2 t2 (cells (state_of o1)) (world_of o1)) ->
  same_files cells o2
    (FileList.onFilenameChange base compare v2 t2 (state_of shared1) (world_of shared1)).
Proof.
  intros [C1 S1] [C2 S2]. rewrite C1 in C2, S2.
  destruct (onFilenameChange_same base compare v2 t2 (state_of shared1)
              (world_of o1) (world_of shared1) S1) as [A B].
  split; congruence.
Qed.

(** X12. A document renamed from [a] to [b] and then to [c] leaves
    nothing under the key of [b]: the open document is [c], and the
    text is stored under its key.  In the chart editor the save effect
    after each change runs the text as code, and the statement holds
    for a text that leaves the storage alone. *)
Theorem renaming_through_a_name_removes_it (v1 v2 : string) (t1 t2 : Z) :
  let b := JS.trim v1 in
  let c := JS.trim v2 in
  b <> "" -> c <> "" -> c <> b -> b <> "last-filename" -> c <> "last-filename" ->
  (forall (st : FileList.state) (w : world),
      b <> FileList.filename st ->
      let o1 := MarkdownEditor.onFilenameChange v1 t1 st w in
      let o2 := MarkdownEditor.onFilenameChange v2 t2 (state_of o1) (world_of o1) in
      passed_through MarkdownEditor.BASE_STORAGE_KEY b c (FileList.codeInput st)
        (state_of o2) (storage (world_of o2)))
  /\
  (forall (st : MultiContentEditor.state) (w : world),
      b <> FileList.filename (MultiContentEditor.cells st) ->
      let o1 := MultiContentEditor.onFilenameChange v1 t1 st w in
      let o2 := MultiContentEditor.onFilenameChange v2 t2 (state_of o1) (world_of o1) in
      passed_through MultiContentEditor.BASE_STORAGE_KEY b c
        (FileList.codeInput (MultiContentEditor.cells st))
        (MultiContentEditor.cells (state_of o2)) (storage (world_of o2)))
  /\
  (forall (evaluate : string -> world -> option exn * world)
          (st : EChartsEditor.state) (w : world),
      b <> FileList.filename (EChartsEditor.cells st) ->
      leaves_storage evaluate (FileList.codeInput (EChartsEditor.cells st)) ->
      let o1 := EChartsEditor.onFilenameChange evaluate v1 t1 st w in
      let o2 := EChartsEditor.onFilenameChange evaluate v2 t2 (state_of o1) (world_of o1) in
      passed_through EChartsEditor.BASE_STORAGE_KEY b c
        (FileList.codeInput (EChartsEditor.cells st))
        (EChartsEditor.cells (state_of o2)) (storage (world_of o2))).
Proof.
  intros b c Nb Nc D Lb Lc. split; [|split].
  - intros st w Da o1 o2.
    pose proof (onFilenameChange_twice MarkdownEditor.BASE_STORAGE_KEY Files.by_filename
                  v1 v2 t1 t2 st w Nb Da Nc D Lb Lc) as P.
    destruct (twice_same (fun x => x) MarkdownEditor.BASE_STORAGE_KEY Files.by_filename
                v2 t2 o1 o2 _ (markdown_onFilenameChange_same v1 t1 st w)
                (markdown_onFilenameChange_same v2 t2 (state_of o1) (world_of o1)))
      as [Sc Ss].
    unfold passed_through. cbn beta in Sc. rewrite Sc, Ss. exact P.
  - intros st w Da o1 o2.
    pose proof (onFilenameChange_twice MultiContentEditor.BASE_STORAGE_KEY
                  Files.by_lastModified v1 v2 t1 t2 (MultiContentEditor.cells st) w
                  Nb Da Nc D Lb Lc) as P.
    destruct (twice_same MultiContentEditor.cells MultiContentEditor.BASE_STORAGE_KEY
                Files.by_lastModified v2 t2 o1 o2 _
                (multi_onFilenameChange_same v1 t1 st w)
                (multi_onFilenameChange_same v2 t2 (state_of o1) (world_of o1)))
      as [Sc Ss].
    unfold passed_through. rewrite Sc, Ss. exact P.
  - intros evaluate st w Da Q o1 o2.
    pose proof (onFilenameChange_twice EChartsEditor.BASE_STORAGE_KEY
                  Files.by_lastModified v1 v2 t1 t2 (EChartsEditor.cells st) w
                  Nb Da Nc D Lb Lc) as P.
    pose proof (chart_onFilenameChange_same evaluate v1 t1 st w Q) as S1.
    assert (Q1 : leaves_storage evaluate
                   (FileList.codeInput (EChartsEditor.cells (state_of o1)))).
    { unfold o1. rewrite (proj1 S1). unfold FileList.onFilenameChange. rewrite rerender_text.
      now rewrite (proj2 (proj2 (handleFilenameChange_same _ _ v1 t1 _ w w eq_refl))). }
    destruct (twice_same EChartsEditor.cells EChartsEditor.BASE_STORAGE_KEY
                Files.by_lastModified v2 t2 o1 o2 _ S1
                (chart_onFilenameChange_same evaluate v2 t2 (state_of o1) (world_of o1) Q1))
      as [Sc Ss].
    unfold passed_through. rewrite Sc, Ss. exact P.
Qed.

Lemma renaming_through_a_name_removes_it_witness :
  (let o1 := MarkdownEditor.onFilenameChange "b" 8 (cells_of "a" "# Hi") (world_with []) in
   let o2 := MarkdownEditor.onFilenameChange "c" 9 (state_of o1) (world_of o1) in
   passed_through "markdown-editor-content" "b" "c" "# Hi" (state_of o2) (storage (world_of o2)))
  /\
  (let o1 := MultiContentEditor.onFilenameChange "b" 8 (multi_on "draft" "[]") multi_world in
   let o2 := MultiContentEditor.onFilenameChange "c" 9 (state_of o1) (world_of o1) in
   passed_through "multi-content-editor" "b" "c" "[]"
     (MultiContentEditor.cells (state_of o2)) (storage (world_of o2)))
  /\
  (let o1 := EChartsEditor.onFilenameChange evaluate_quietly " b" 8 (chart_on "a" "{}")
               (world_with []) in
   let o2 := EChartsEditor.onFilenameChange evaluate_quietly "c " 9 (state_of o1) (world_of o1) in
   passed_through "echarts-editor-content" "b" "c" "{}"
     (EChartsEditor.cells (state_of o2)) (storage (world_of o2))).
Proof.
  split; [|split].
  - apply (proj1 (renaming_through_a_name_removes_it "b" "c" 8 9
                    ltac:(discriminate) ltac:(discriminate) ltac:(discriminate)
                    ltac:(discriminate) ltac:(discriminate))).
    discriminate.
  - apply (proj1 (proj2 (renaming_through_a_name_removes_it "b" "c" 8 9
                    ltac:(discriminate) ltac:(discriminate) ltac:(discriminate)
                    ltac:(discriminate) ltac:(discriminate)))).
    discriminate.
  - apply (proj2 (proj2 (renaming_through_a_name_removes_it " b" "c " 8 9
                    ltac:(discriminate) ltac:(discriminate) ltac:(discriminate)
                    ltac:(discriminate) ltac:(discriminate))));
      [discriminate | intros w; reflexivity].
Defined.

(** ** The listing: which documents, in which order *)

Lemma visit_names (base : string) (s : Storage.t) (now : Z) (keys : list string) :
  forall files,
    Files.visit base s now keys = Ok files ->
    map Files.name files = map (shown_name base) (filter (listed base) keys).
Proof.
  induction keys as [|k keys IH]; intros files H.
  - injection H as <-. reflexivity.
  - rewrite visit_unfold in H. simpl filter.
    destruct (listed base k); [|now apply IH].
    destruct (JSON.parse _) as [v|]; simpl in H; [|discriminate].
    destruct (Files.visit base s now keys) as [fs|]; simpl in H; [|discriminate].
    injection H as <-. simpl. f_equal. now apply IH.
Qed.

Lemma visit_ok (base : string) (s : Storage.t) (now : Z) (keys : list string) :
  is_ok (Files.visit base s now keys)
  = forallb (fun k => is_ok (JSON.parse (payload s k))) (filter (listed base) keys).
Proof.
  induction keys as [|k keys IH]; [reflexivity|].
  rewrite visit_unfold. simpl filter.
  destruct (listed base k); [|exact IH]. simpl forallb. unfold payload at 1.
  destruct (JSON.parse _) as [v|]; simpl; [|reflexivity].
  rewrite <- IH. now destruct (Files.visit base s now keys).
Qed.

Lemma by_filename_NaN (a b : Files.file) : Files.by_filename a b = JS.NaN.
Proof. reflexivity. Qed.

Lemma sort_by_filename (l : list Files.file) : Files.sort Files.by_filename l = Ok l.
Proof.
  induction l as [|x l IH]; [reflexivity|]. simpl. rewrite IH. simpl.
  destruct l as [|y l]; [reflexivity|].
  now rewrite insert_unfold, by_filename_NaN.
Qed.

Lemma minus_not_abrupt (x y : JS.number) (e : exn) :
  JS.minus x y = JS.Abrupt e -> x = JS.Abrupt e \/ y = JS.Abrupt e.
Proof.
  destruct x as [|a|n|e1], y as [|b|m|e2]; simpl; try discriminate; auto.
  destruct (Bool.eqb n m); discriminate.
Qed.

Lemma by_lastModified_abrupt (a b : Files.file) :
  (exists e, Files.by_lastModified a b = JS.Abrupt e)
  <-> (convertible (Files.lastModified a) && convertible (Files.lastModified b))%bool = false.
Proof.
  unfold Files.by_lastModified, JS.sub, convertible.
  change (Files.prop b "lastModified") with (Files.lastModified b).
  change (Files.prop a "lastModified") with (Files.lastModified a).
  destruct (JS.to_number (Files.lastModified b)) as [|y|m|e2] eqn:B,
           (JS.to_number (Files.lastModified a)) as [|x|n|e1] eqn:A; simpl;
    split; intros H;
    try reflexivity; try discriminate H; try (eexists; reflexivity);
    destruct H as [e H]; try discriminate H;
    destruct (Bool.eqb m n); discriminate H.
Qed.

Lemma insert_convertible (x : Files.file) (l : list Files.file) :
  convertible (Files.lastModified x) = true ->
  forallb (fun f => convertible (Files.lastModified f)) l = true ->
  is_ok (Files.insert Files.by_lastModified x l) = true.
Proof.
  intros Cx. induction l as [|y l IH]; intros Cl; [reflexivity|].
  simpl in Cl. apply andb_true_iff in Cl as [Cy Cl].
  rewrite insert_unfold.
  destruct (Files.by_lastModified x y) as [|q|n|e] eqn:E.
  - reflexivity.
  - destruct (Files.positive (JS.Fin q)); [|reflexivity].
    specialize (IH Cl). now destruct (Files.insert Files.by_lastModified x l).
  - destruct (Files.positive (JS.Infinite n)); [|reflexivity].
    specialize (IH Cl). now destruct (Files.insert Files.by_lastModified x l).
  - assert (A : exists e, Files.by_lastModified x y = JS.Abrupt e) by (now exists e).
    apply by_lastModified_abrupt in A. rewrite Cx, Cy in A. discriminate A.
Qed.

Lemma forallb_permutation {A : Type} (f : A -> bool) (l l' : list A) :
  Permutation l l' -> forallb f l = forallb f l'.
Proof.
  intros P. apply eq_true_iff_eq. rewrite !forallb_forall. split; intros H x I; apply H.
  - eapply Permutation_in; [apply Permutation_sym, P | exact I].
  - eapply Permutation_in; [exact P | exact I].
Qed.

Lemma sort_convertible (l : list Files.file) :
  forallb (fun f => convertible (Files.lastModified f)) l = true ->
  is_ok (Files.sort Files.by_lastModified l) = true.
Proof.
  induction l as [|x l IH]; intros C; [reflexivity|].
  cbn [forallb] in C. apply andb_true_iff in C as [Cx Cl].
  cbn [Files.sort]. specialize (IH Cl).
  destruct (Files.sort Files.by_lastModified l) as [sorted|e] eqn:S; [|discriminate IH].
  cbn [bind]. apply insert_convertible; [exact Cx|].
  now rewrite (forallb_permutation _ _ _ (sort_permutation _ _ _ S)).
Qed.

Lemma sorted_convertible (l l' : list Files.file) :
  Files.sort Files.by_lastModified l = Ok l' ->
  (List.length l <= 1)%nat \/
  forallb (fun f => convertible (Files.lastModified f)) l = true.
Proof.
  revert l'. induction l as [|x l IH]; intros l' H; [left; simpl; lia|].
  cbn [Files.sort] in H.
  destruct (Files.sort Files.by_lastModified l) as [sorted|e] eqn:S; [|discriminate H].
  cbn [bind] in H.
  destruct l as [|y l]; [left; simpl; lia|]. right.
  assert (P := sort_permutation _ _ _ S).
  destruct sorted as [|z sorted].
  { apply Permutation_nil in P. discriminate P. }
  rewrite insert_unfold in H.
  assert (N : (convertible (Files.lastModified x) && convertible (Files.lastModified z))%bool
              = true).
  { apply not_false_iff_true. intros F. apply by_lastModified_abrupt in F as [e F].
    rewrite F in H. discriminate H. }
  apply andb_true_iff in N as [Cx Cz].
  cbn [forallb]. rewrite Cx. cbn [andb].
  destruct (IH _ eq_refl) as [L|C]; [|exact C].
  destruct l as [|y' l]; [|simpl in L; lia].
  injection S as <-. cbn [forallb]. now rewrite Cz.
Qed.

(** The sort by [lastModified] throws exactly when there are two files
    or more and the time of one of them cannot be converted. *)
Lemma sort_by_lastModified_ok (l : list Files.file) :
  is_ok (Files.sort Files.by_lastModified l)
  = ((List.length l <=? 1)%nat
     || forallb (fun f => convertible (Files.lastModified f)) l)%bool.
Proof.
  destruct (Files.sort Files.by_lastModified l) as [l'|e] eqn:S.
  - symmetry. apply orb_true_iff.
    destruct (sorted_convertible _ _ S) as [L|C]; [left; now apply Nat.leb_le | now right].
  - symmetry. apply orb_false_iff. split.
    + apply Nat.leb_gt. destruct l as [|x [|y l]]; try discriminate S. simpl. lia.
    + apply not_true_iff_false. intros C. apply sort_convertible in C.
      rewrite S in C. discriminate C.
Qed.

Lemma visit_times (base : string) (s : Storage.t) (now : Z) (keys : list string) :
  forall files,
    Files.visit base s now keys = Ok files ->
    map Files.lastModified files = map (listed_time s now) (filter (listed base) keys).
Proof.
  induction keys as [|k keys IH]; intros files H.
  - injection H as <-. reflexivity.
  - rewrite visit_unfold in H. simpl filter.
    destruct (listed base k); [|now apply IH].
    unfold listed_time at 1, payload.
    cbn [map].
    destruct (JSON.parse _) as [v|]; simpl in H; [|discriminate].
    destruct (Files.visit base s now keys) as [fs|]; simpl in H; [|discriminate].
    injection H as <-. simpl. f_equal. now apply IH.
Qed.

Lemma forallb_through_map {A B : Type} (f : B -> bool) (g : A -> B) (l : list A) :
  forallb f (map g l) = forallb (fun x => f (g x)) l.
Proof. induction l as [|x l IH]; simpl; [reflexivity | now rewrite IH]. Qed.

(** X13. The listing throws when a payload it parses is not JSON text,
    and when the sort does: the comparator of the multi-content and the
    chart editor throws on a [lastModified] that cannot be converted to
    a number, so with two documents or more one such time makes the
    listing fail.  The comparator of the markdown editor never throws.
    When the listing succeeds it shows each key it looks at once, by the
    name that is the key without the first [P-] in it, and nothing
    else: the sort only reorders. *)
Theorem listing_shows_each_document_once (base : string) (s : Storage.t) (now : Z) :
  let documents := filter (listed base) (Storage.keys s) in
  let readable := forallb (fun k => is_ok (JSON.parse (payload s k))) documents in
  is_ok (FileList.loadSavedFiles base Files.by_filename s now) = readable
  /\
  is_ok (FileList.loadSavedFiles base Files.by_lastModified s now)
  = (readable
     && ((List.length documents <=? 1)%nat
         || forallb (fun k => convertible (listed_time s now k)) documents))%bool
  /\
  forall compare files,
    FileList.loadSavedFiles base compare s now = Ok files ->
    Permutation (map Files.name files) (map (shown_name base) documents).
Proof.
  intros documents readable. subst documents readable.
  unfold FileList.loadSavedFiles, Files.loadSavedFiles. split; [|split].
  - rewrite <- (visit_ok base s now).
    destruct (Files.visit base s now (Storage.keys s)); [|reflexivity].
    simpl. now rewrite sort_by_filename.
  - rewrite <- (visit_ok base s now).
    destruct (Files.visit base s now (Storage.keys s)) as [fs|] eqn:V; [|reflexivity].
    cbn [bind is_ok andb]. rewrite sort_by_lastModified_ok.
    assert (T := visit_times base s now _ fs V).
    assert (L : List.length fs
                = List.length (filter (listed base) (Storage.keys s))).
    { rewrite <- (length_map Files.lastModified fs), T. apply length_map. }
    rewrite L. f_equal.
    rewrite <- (forallb_through_map convertible Files.lastModified fs), T.
    apply forallb_through_map.
  - intros compare files H.
    destruct (Files.visit base s now (Storage.keys s)) as [fs|] eqn:V; [|discriminate].
    simpl in H. rewrite <- (visit_names base s now _ fs V).
    apply Permutation_map, (sort_permutation _ _ _ H).
Qed.

Lemma listing_shows_each_document_once_witness :
  exists files,
    MultiContentEditor.loadSavedFiles (three_documents "multi-content-editor" 10 30 20) 40
    = Ok files /\
    Permutation (map Files.name files) ["x"; "y"; "z"].
Proof.
  assert (E : exists files,
             MultiContentEditor.loadSavedFiles
               (three_documents "multi-content-editor" 10 30 20) 40 = Ok files)
    by (vm_compute; eexists; reflexivity).
  destruct E as [files E]. exists files. split; [exact E|].
  exact (proj2 (proj2 (listing_shows_each_document_once "multi-content-editor" _ 40))
           Files.by_lastModified files E).
Defined.

(** Two documents, one with a time that is an object with a [toString]
    of its own: the listing of the multi-content editor throws a
    [TypeError]; with that document alone it succeeds. *)
Example unconvertible_time_fails_listing :
  MultiContentEditor.loadSavedFiles
    [("multi-content-editor-a", JS.dq "{'text':'','lastModified':{'toString':1}}");
     ("multi-content-editor-b", JS.dq "{'text':'','lastModified':5}")] 40
  = Throw JS.cannot_convert
  /\
  MultiContentEditor.loadSavedFiles
    [("multi-content-editor-a", JS.dq "{'text':'','lastModified':{'toString':1}}")] 40
  = Ok [{| Files.name := "a";
           Files.lastModified := JS.Object [("toString", JS.Number 1)] |}].
Proof. split; reflexivity. Qed.

(** X14. The file-list markdown editor sorts by
    [b.filename - a.filename], a difference of two properties no file
    record has: the comparator gives [NaN] for every pair and the sort
    moves nothing.  Its list is in the order of the keys in storage,
    whatever the times of the documents. *)
Theorem markdown_listing_is_in_key_order
    (s : Storage.t) (now : Z) (files : list Files.file) :
  MarkdownEditor.loadSavedFiles s now = Ok files ->
  (forall a b, Files.by_filename a b = JS.NaN) /\
  Files.visit MarkdownEditor.BASE_STORAGE_KEY s now (Storage.keys s) = Ok files /\
  map Files.name files
  = map (shown_name MarkdownEditor.BASE_STORAGE_KEY)
      (filter (listed MarkdownEditor.BASE_STORAGE_KEY) (Storage.keys s)).
Proof.
  unfold MarkdownEditor.loadSavedFiles, FileList.loadSavedFiles, Files.loadSavedFiles.
  intros H. split; [reflexivity|].
  destruct (Files.visit MarkdownEditor.BASE_STORAGE_KEY s now (Storage.keys s))
    as [fs|] eqn:V; [|discriminate].
  simpl in H. rewrite sort_by_filename in H. injection H as <-.
  split; [reflexivity|]. now apply (visit_names _ s now).
Qed.

Lemma markdown_listing_is_in_key_order_witness :
  names (MarkdownEditor.loadSavedFiles (three_documents "markdown-editor-content" 10 30 20) 40)
  = Ok ["x"; "y"; "z"].
Proof.
  assert (E : exists files,
             MarkdownEditor.loadSavedFiles
               (three_documents "markdown-editor-content" 10 30 20) 40 = Ok files)
    by (vm_compute; eexists; reflexivity).
  destruct E as [files E].
  destruct (markdown_listing_is_in_key_order _ _ _ E) as (_ & _ & N).
  rewrite E. unfold names. simpl. now rewrite N.
Defined.

(** ** The preview: containers, failures, the default content *)

Lemma render_item_container (md : string -> string) (index c : nat) (item : JS.value) :
  MultiContentEditor.render_item md index item = Ok (MultiContentEditor.ChartContainer c) ->
  is_chart item = true /\ c = index.
Proof.
  unfold MultiContentEditor.render_item, is_chart.
  destruct (JS.get item "kind") as [kind|] eqn:K; simpl; [|discriminate].
  rewrite (get_get_opt _ _ _ K).
  destruct (JS.is_string kind "chart").
  - intros H. injection H as <-. auto.
  - destruct (JS.is_string kind "markdown").
    + destruct (JS.get item "data") as [data|]; simpl; [|discriminate].
      destruct (JS.get data "text") as [[]|]; simpl; discriminate.
    + destruct (MultiContentEditor.valid_child kind); discriminate.
Qed.

Lemma render_items_nth (md : string -> string) (items : list JS.value) :
  forall index es,
    MultiContentEditor.render_items md index items = Ok es ->
    List.length es = List.length items /\
    forall j item, nth_error items j = Some item ->
                   exists e, nth_error es j = Some e /\
                             MultiContentEditor.render_item md (index + j) item = Ok e.
Proof.
  induction items as [|x items IH]; intros index es H; simpl in H.
  - injection H as <-. split; [reflexivity|]. intros [|j] item; discriminate.
  - destruct (MultiContentEditor.render_item md index x) as [e|] eqn:R; simpl in H;
      [|discriminate].
    destruct (MultiContentEditor.render_items md (S index) items) as [es'|] eqn:RS;
      simpl in H; [|discriminate].
    injection H as <-. destruct (IH _ _ RS) as [L N]. split; [simpl; now rewrite L|].
    intros [|j] item I; simpl in I.
    + injection I as <-. exists e. rewrite Nat.add_0_r. auto.
    + destruct (N j item I) as (e' & E1 & E2). exists e'. split; [exact E1|].
      now replace (index + S j)%nat with (S index + j)%nat by lia.
Qed.

(** The chart containers of a page that rendered are at the positions
    of the chart blocks, each with the id of its position. *)
Lemma rendered_containers (md : string -> string) (items : list JS.value)
    (page : list MultiContentEditor.element) :
  MultiContentEditor.render md (JS.Array items) = Ok page ->
  forall i,
    (exists c, nth_error page i = Some (MultiContentEditor.ChartContainer c))
    <-> (exists item, nth_error items i = Some item /\ is_chart item = true).
Proof.
  unfold MultiContentEditor.render. intros R i.
  destruct (render_items_nth md items 0 page R) as [L N]. split.
  - intros [c E].
    destruct (nth_error items i) as [item|] eqn:I.
    + exists item. split; [reflexivity|].
      destruct (N i item I) as (e & E' & RI). simpl in RI.
      rewrite E in E'. injection E' as <-.
      exact (proj1 (render_item_container md i c item RI)).
    + apply nth_error_None in I. rewrite <- L in I. apply nth_error_None in I. congruence.
  - intros (item & I & C). exists i.
    exact (render_items_chart md items 0 page i item R I C).
Qed.

Lemma rendered_container_id (md : string -> string) (items : list JS.value)
    (page : list MultiContentEditor.element) (i c : nat) :
  MultiContentEditor.render md (JS.Array items) = Ok page ->
  nth_error page i = Some (MultiContentEditor.ChartContainer c) -> c = i.
Proof.
  unfold MultiContentEditor.render. intros R E.
  destruct (render_items_nth md items 0 page R) as [L N].
  destruct (nth_error items i) as [item|] eqn:I.
  - destruct (N i item I) as (e & E' & RI). simpl in RI.
    rewrite E in E'. injection E' as <-.
    exact (proj2 (render_item_container md i c item RI)).
  - apply nth_error_None in I. rewrite <- L in I. apply nth_error_None in I. congruence.
Qed.

(** No element carries the id: no container at that position, no
    markup that holds it. *)
Lemma find_id_none (ids : string -> list nat) (k : nat)
    (page : list MultiContentEditor.element) :
  forall (slots : list DOM.slot) (position : nat),
    Forall2 shows_as page slots ->
    (forall n c, nth_error page n = Some (MultiContentEditor.ChartContainer c) ->
                 (position + n)%nat <> k) ->
    (forall n html, nth_error page n = Some (MultiContentEditor.Prose html) ->
                    ~ In k (ids html)) ->
    MultiContentEditor.find_id ids k position slots = None.
Proof.
  induction page as [|e page IH]; intros slots position F C U; inversion F as [|? s ? rest Sh F']; subst;
    [reflexivity|].
  cbn [MultiContentEditor.find_id].
  assert (R : MultiContentEditor.find_id ids k (S position) rest = None).
  { apply IH; [exact F' | |].
    - intros n c E. specialize (C (S n) c E). lia.
    - intros n html E. exact (U (S n) html E). }
  destruct e as [i|html|label kind]; simpl in Sh.
  - rewrite Sh. specialize (C 0%nat i eq_refl). rewrite Nat.add_0_r in C.
    apply Nat.eqb_neq in C. now rewrite C.
  - destruct Sh as [serial Sh]. rewrite Sh.
    assert (Q : existsb (Nat.eqb k) (ids html) = false).
    { apply not_true_iff_false. intros X. apply existsb_exists in X as (x & I & K).
      apply Nat.eqb_eq in K. subst x. exact (U 0%nat html eq_refl I). }
    now rewrite Q.
  - now rewrite Sh.
Qed.

(** The first markup that holds the id, with no container of that id
    ahead of it, gives the element found. *)
Lemma find_id_inside (ids : string -> list nat) (k n : nat) :
  forall (page : list MultiContentEditor.element) (slots : list DOM.slot)
         (position : nat) (html : string),
    Forall2 shows_as page slots ->
    nth_error page n = Some (MultiContentEditor.Prose html) ->
    In k (ids html) ->
    (forall p c, (p < n)%nat ->
                 nth_error page p = Some (MultiContentEditor.ChartContainer c) ->
                 (position + p)%nat <> k) ->
    (forall p html', (p < n)%nat ->
                     nth_error page p = Some (MultiContentEditor.Prose html') ->
                     ~ In k (ids html')) ->
    exists s serial,
      nth_error slots n = Some s /\ DOM.shows s = DOM.Markup html serial /\
      MultiContentEditor.find_id ids k position slots = Some (DOM.Inside serial k).
Proof.
  induction n as [|n IH]; intros page slots position html F E I C U;
    inversion F as [|e s ? rest Sh F']; subst; try discriminate E.
  - injection E as ->. simpl in Sh. destruct Sh as [serial Sh].
    exists s, serial. split; [reflexivity|]. split; [exact Sh|].
    cbn [MultiContentEditor.find_id]. rewrite Sh.
    assert (Q : existsb (Nat.eqb k) (ids html) = true).
    { apply existsb_exists. exists k. split; [exact I | apply Nat.eqb_refl]. }
    now rewrite Q.
  - cbn [nth_error] in E.
    destruct (IH l rest (S position) html F' E I) as (s' & serial & N & Sh' & R).
    + intros p c L P. specialize (C (S p) c). cbn [nth_error] in C.
      assert (X := C ltac:(lia) P). lia.
    + intros p html' L P. apply (U (S p) html'); [lia | exact P].
    + exists s', serial. split; [exact N|]. split; [exact Sh'|].
      cbn [MultiContentEditor.find_id].
      destruct e as [i|html0|label kind]; simpl in Sh.
      * rewrite Sh. specialize (C 0%nat i ltac:(lia) eq_refl). rewrite Nat.add_0_r in C.
        apply Nat.eqb_neq in C. now rewrite C.
      * destruct Sh as [serial0 Sh]. rewrite Sh.
        assert (Q : existsb (Nat.eqb k) (ids html0) = false).
        { apply not_true_iff_false. intros X. apply existsb_exists in X as (x & Ix & K).
          apply Nat.eqb_eq in K. subst x. exact (U 0%nat html0 ltac:(lia) eq_refl Ix). }
        now rewrite Q.
      * now rewrite Sh.
Qed.

(** X15. When the list of blocks renders and React has committed it,
    the preview has one box for each block, and the element
    [getElementById] finds for the id [chart-i] is the first of these
    in document order: the container of block [i] when that block is a
    chart block, and an element of the markup of a markdown block that
    holds that id.  So the deferred callback finds for a chart block its
    own container when no markdown block ahead of it holds the
    container's id, an element of the markup when one does, and for an
    id that nothing carries it finds nothing. *)
Theorem chart_containers_match_positions
    (md : string -> string) (ids : string -> list nat) (items : list JS.value)
    (page : list MultiContentEditor.element) (d : DOM.t) :
  MultiContentEditor.render md (JS.Array items) = Ok page ->
  let shown := MultiContentEditor.commit page d in
  List.length (DOM.slots shown) = List.length items
  /\
  (forall i item,
      nth_error items i = Some item ->
      (is_chart item = true <->
       nth_error page i = Some (MultiContentEditor.ChartContainer i)))
  /\
  (forall i,
      nth_error page i = Some (MultiContentEditor.ChartContainer i) ->
      (forall p html, (p < i)%nat ->
                      nth_error page p = Some (MultiContentEditor.Prose html) ->
                      ~ In i (ids html)) ->
      exists element,
        container shown i = Some element /\
        MultiContentEditor.getElementById ids i shown = Some element)
  /\
  (forall i p html,
      nth_error page p = Some (MultiContentEditor.Prose html) ->
      In i (ids html) ->
      (forall q html', (q < p)%nat ->
                       nth_error page q = Some (MultiContentEditor.Prose html') ->
                       ~ In i (ids html')) ->
      (p < i)%nat \/ nth_error page i <> Some (MultiContentEditor.ChartContainer i) ->
      exists serial,
        MultiContentEditor.getElementById ids i shown = Some (DOM.Inside serial i) /\
        option_map DOM.shows (nth_error (DOM.slots shown) p)
        = Some (DOM.Markup html serial))
  /\
  (forall i,
      nth_error page i <> Some (MultiContentEditor.ChartContainer i) ->
      (forall p html, nth_error page p = Some (MultiContentEditor.Prose html) ->
                      ~ In i (ids html)) ->
      MultiContentEditor.getElementById ids i shown = None).
Proof.
  intros R shown.
  assert (Sh : Forall2 shows_as page (DOM.slots shown)) by apply commit_slots_shape.
  assert (L : List.length (DOM.slots shown) = List.length items).
  { subst shown. cbn [MultiContentEditor.commit DOM.slots]. rewrite commit_slots_length.
    exact (render_items_length md items 0 page R). }
  split; [exact L|]. split; [|split; [|split]].
  - intros i item I. split.
    + intros C. exact (render_items_chart md items 0 page i item R I C).
    + intros E. destruct (proj1 (rendered_containers md items page R i)) as (it & I' & C);
        [now exists i|]. congruence.
  - intros i E U. unfold MultiContentEditor.getElementById.
    pose proof (find_id_container ids i page (DOM.slots shown) 0 i Sh E U) as F.
    cbn [Nat.add] in F. unfold container.
    destruct (nth_error (DOM.slots shown) i) as [s|] eqn:N.
    + eexists. split; [reflexivity | exact F].
    + apply nth_error_None in N. rewrite L in N.
      assert (X : nth_error page i <> None) by congruence.
      apply nth_error_Some in X. rewrite (render_items_length md items 0 page R) in X. lia.
  - intros i p html E I U H. unfold MultiContentEditor.getElementById.
    destruct (find_id_inside ids i p page (DOM.slots shown) 0 html Sh E I)
      as (s & serial & N & Shs & F).
    + intros q c Lt Q. cbn [Nat.add]. intros ->.
      pose proof (rendered_container_id md items page _ _ R Q) as ->.
      destruct H as [H|H]; [lia | contradiction].
    + exact U.
    + exists serial. split; [exact F|]. now rewrite N, <- Shs.
  - intros i NC U. unfold MultiContentEditor.getElementById.
    apply (find_id_none ids i page (DOM.slots shown) 0 Sh); [|exact U].
    intros n c E. cbn [Nat.add]. intros ->.
    pose proof (rendered_container_id md items page _ _ R E) as ->. contradiction.
Qed.

Lemma chart_containers_match_positions_witness :
  let shown := MultiContentEditor.commit
                 [MultiContentEditor.Prose decoy_markup;
                  MultiContentEditor.ChartContainer 1;
                  MultiContentEditor.ChartContainer 2] DOM.empty in
  MultiContentEditor.getElementById decoy_ids 2 shown = container shown 2 /\
  container shown 2 = Some (DOM.Inner 4) /\
  MultiContentEditor.getElementById decoy_ids 1 shown = Some (DOM.Inside 1 1) /\
  MultiContentEditor.getElementById decoy_ids 0 shown = None.
Proof.
  intros shown.
  destruct (chart_containers_match_positions md_plain decoy_ids
              [decoy_block; empty_chart_block; empty_chart_block] _ DOM.empty eq_refl)
    as (_ & _ & Own & Taken & Nothing).
  split; [|split; [reflexivity | split]].
  - destruct (Own 2%nat eq_refl) as (element & C & G).
    + intros [|[|p]] html Lt E; try lia; try discriminate E.
      injection E as <-. simpl. intuition discriminate.
    + exact (eq_trans G (eq_sym C)).
  - destruct (Taken 1%nat 0%nat decoy_markup eq_refl) as (serial & G & M).
    + simpl. auto.
    + intros q html' Lt. lia.
    + left. lia.
    + simpl in M. injection M as <-. exact G.
  - apply (Nothing 0%nat); [discriminate|].
    intros [|[|[|p]]] html E; try discriminate E; [|destruct p; discriminate E].
    injection E as <-. simpl. intuition discriminate.
Defined.

Lemma is_ok_render_item (md : string -> string) (i j : nat) (item : JS.value) :
  is_ok (MultiContentEditor.render_item md i item)
  = is_ok (MultiContentEditor.render_item md j item).
Proof.
  unfold MultiContentEditor.render_item.
  destruct (JS.get item "kind") as [kind|]; simpl; [|reflexivity].
  now destruct (JS.is_string kind "chart").
Qed.

Lemma is_ok_render_items (md : string -> string) (items : list JS.value) : forall index,
  is_ok (MultiContentEditor.render_items md index items)
  = forallb (fun item => is_ok (MultiContentEditor.render_item md 0 item)) items.
Proof.
  induction items as [|x items IH]; intros index; [reflexivity|]. simpl.
  rewrite <- (is_ok_render_item md index 0 x), <- (IH (S index)).
  destruct (MultiContentEditor.render_item md index x); simpl; [|reflexivity].
  now destruct (MultiContentEditor.render_items md (S index) items).
Qed.

(** On a preview without a box the loop of the deferred callback makes
    no instance. *)
Lemma forEach_blank (so : JS.value -> bool) (ids : string -> list nat) (page : DOM.t)
    (items : list JS.value) :
  DOM.slots page = [] ->
  forall index acc r,
    snd (MultiContentEditor.forEach so ids page index items acc r) = r /\
    forall l, fst (MultiContentEditor.forEach so ids page index items acc r) = Ok l -> l = acc.
Proof.
  intros B. induction items as [|x items IH]; intros index acc r; simpl.
  - split; [reflexivity|]. intros l H. now injection H.
  - destruct (JS.get x "kind") as [kind|]; simpl; [|split; [reflexivity|discriminate]].
    assert (G : MultiContentEditor.getElementById ids index page = None)
      by (unfold MultiContentEditor.getElementById; now rewrite B).
    rewrite G. destruct (JS.is_string kind "chart"); apply IH.
Qed.

(** X16. The preview is rendered as a whole or not at all: the list
    renders exactly when each block renders on its own, and one block
    that does not (a markdown block without a text, a block that is
    [null], a kind that is an object) takes the whole preview down,
    the blocks that would render included.  The deferred callback then
    finds no container and creates no chart. *)
Theorem preview_renders_as_a_whole (md : string -> string) (items : list JS.value) :
  is_ok (MultiContentEditor.render md (JS.Array items))
  = forallb (fun item => is_ok (MultiContentEditor.render_item md 0 item)) items
  /\
  forall item,
    In item items ->
    is_ok (MultiContentEditor.render_item md 0 item) = false ->
    MultiContentEditor.view md (JS.Array items) = [] /\
    forall so ids parsed st w,
      MultiContentEditor.contentList st = JS.Array items ->
      incl (ECharts.live (registry (snd (MultiContentEditor.initCharts md so ids parsed st w))))
           (ECharts.live (registry w)).
Proof.
  split; [apply is_ok_render_items|].
  intros item I F.
  assert (V : MultiContentEditor.view md (JS.Array items) = []).
  { unfold MultiContentEditor.view.
    destruct (MultiContentEditor.render md (JS.Array items)) as [page|] eqn:R;
      [|reflexivity].
    assert (O : is_ok (MultiContentEditor.render md (JS.Array items)) = true)
      by now rewrite R.
    unfold MultiContentEditor.render in O. rewrite is_ok_render_items in O.
    rewrite forallb_forall in O. rewrite (O item I) in F. discriminate. }
  split; [exact V|].
  intros so ids parsed st w C. unfold MultiContentEditor.initCharts. rewrite C, V.
  set (page := MultiContentEditor.commit [] (document w)).
  destruct parsed as [| | | | |its|]; try (intros x H; exact H).
  destruct (forEach_blank so ids page its eq_refl 0%nat [] (ECharts.begin_pass (registry w)))
    as [S _].
  destruct (MultiContentEditor.forEach so ids page 0 its [] (ECharts.begin_pass (registry w)))
    as [[l|e] r]; simpl in S; subst r.
  - unfold MultiContentEditor.setCharts. cbn [snd registry set_registry set_document].
    rewrite dispose_all_live. intros x H. apply filter_In in H. exact (proj1 H).
  - intros x H. exact H.
Qed.

Lemma preview_renders_as_a_whole_witness :
  MultiContentEditor.render_item md_plain 0 heading_block = Ok (MultiContentEditor.Prose "# Hi")
  /\ MultiContentEditor.view md_plain (JS.Array [heading_block; object_kind_block]) = [].
Proof.
  split; [reflexivity|].
  destruct (preview_renders_as_a_whole md_plain [heading_block; object_kind_block])
    as [_ H].
  destruct (H object_kind_block) as [V _].
  - simpl. auto.
  - reflexivity.
  - exact V.
Defined.

(** The charts management effect on the default content. *)
Lemma chartsEffect_default
    (md : string -> string) (st : MultiContentEditor.state) (w : world) :
  MultiContentEditor.codeInput st = MultiContentEditor.defaultContent ->
  let r := MultiContentEditor.chartsEffect st w in
  MultiContentEditor.parseError (fst r) = "" /\
  MultiContentEditor.charts (fst r) = [] /\
  MultiContentEditor.cells (fst r) = MultiContentEditor.cells st /\
  frames (snd r) = (frames w ++ [MultiContentEditor.contentList (fst r)])%list /\
  (exists options,
      MultiContentEditor.contentList (fst r)
      = JS.Array
          [JS.Object [("kind", JS.Str "chart"); ("data", options)];
           JS.Object [("kind", JS.Str "markdown");
                      ("data", JS.Object [("text", JS.Str default_analysis)])]]) /\
  MultiContentEditor.render md (MultiContentEditor.contentList (fst r))
  = Ok [MultiContentEditor.ChartContainer 0; MultiContentEditor.Prose (md default_analysis)].
Proof.
  intros C r. subst r. unfold MultiContentEditor.chartsEffect. rewrite C.
  destruct (JSON.parse MultiContentEditor.defaultContent) as [v|e] eqn:P;
    vm_compute in P; [|discriminate].
  injection P as <-. cbn [MultiContentEditor.setCharts].
  repeat (split; [reflexivity|]). split; [|reflexivity].
  eexists. reflexivity.
Qed.

(** X17. The default content, which a new file, a file without a
    stored text and the first mount start from, is JSON text for a
    chart block followed by a markdown block: the charts management
    effect reports no error on it and queues the chart creation, and
    the preview shows a chart container and the rendered text.  So it
    is after New File, whatever text, error and charts the editor had. *)
Theorem default_content_is_well_formed (md : string -> string) :
  (forall (st : MultiContentEditor.state) (w : world),
      MultiContentEditor.codeInput st = MultiContentEditor.defaultContent ->
      let r := MultiContentEditor.chartsEffect st w in
      MultiContentEditor.parseError (fst r) = "" /\
      frames (snd r) = (frames w ++ [MultiContentEditor.contentList (fst r)])%list /\
      (exists options,
          MultiContentEditor.contentList (fst r)
          = JS.Array
              [JS.Object [("kind", JS.Str "chart"); ("data", options)];
               JS.Object [("kind", JS.Str "markdown");
                          ("data", JS.Object [("text", JS.Str default_analysis)])]]) /\
      MultiContentEditor.render md (MultiContentEditor.contentList (fst r))
      = Ok [MultiContentEditor.ChartContainer 0;
            MultiContentEditor.Prose (md default_analysis)])
  /\
  (forall (now : Z) (st : MultiContentEditor.state) (w : world),
      MultiContentEditor.codeInput st <> MultiContentEditor.defaultContent ->
      let o := MultiContentEditor.onNewFile now st w in
      MultiContentEditor.codeInput (state_of o) = MultiContentEditor.defaultContent /\
      MultiContentEditor.parseError (state_of o) = "" /\
      MultiContentEditor.charts (state_of o) = [] /\
      MultiContentEditor.render md (MultiContentEditor.contentList (state_of o))
      = Ok [MultiContentEditor.ChartContainer 0;
            MultiContentEditor.Prose (md default_analysis)]).
Proof.
  split.
  - intros st w C r.
    destruct (chartsEffect_default md st w C) as (E & _ & _ & F & O & R).
    auto.
  - intros now st w N o. subst o.
    unfold MultiContentEditor.onNewFile, MultiContentEditor.rerender.
    set (h := MultiContentEditor.handleNewFile now st w).
    assert (C : MultiContentEditor.codeInput (state_of h) = MultiContentEditor.defaultContent).
    { subst h. unfold MultiContentEditor.handleNewFile, MultiContentEditor.lift,
        MultiContentEditor.codeInput. cbn [state_of MultiContentEditor.setCells
        MultiContentEditor.cells].
      exact (proj1 (proj2 (handleNewFile_spec MultiContentEditor.BASE_STORAGE_KEY
                             MultiContentEditor.defaultContent Files.by_lastModified
                             now (MultiContentEditor.cells st) w))). }
    rewrite C. apply not_eq_sym in N. apply String.eqb_neq in N. rewrite N.
    rewrite andb_false_r.
    destruct (chartsEffect_default md (state_of h) (world_of h) C)
      as (E & Ch & Ce & _ & _ & R).
    destruct (saveContent_keeps now
                (fst (MultiContentEditor.chartsEffect (state_of h) (world_of h)))
                (snd (MultiContentEditor.chartsEffect (state_of h) (world_of h))))
      as (K1 & K2 & K3 & K4 & _).
    rewrite K1, K2, K3, K4. repeat split; try assumption.
    unfold MultiContentEditor.codeInput. rewrite Ce. exact C.
Qed.

Lemma default_content_is_well_formed_witness :
  let o := MultiContentEditor.onNewFile 7 (multi_on "draft" "[]") multi_world in
  FileList.filename (MultiContentEditor.cells (state_of o)) = "untitled-7" /\
  MultiContentEditor.parseError (state_of o) = "" /\
  MultiContentEditor.render md_plain (MultiContentEditor.contentList (state_of o))
  = Ok [MultiContentEditor.ChartContainer 0; MultiContentEditor.Prose default_analysis].
Proof.
  destruct (proj2 (default_content_is_well_formed md_plain) 7 (multi_on "draft" "[]")
              multi_world) as (_ & E & _ & R).
  - discriminate.
  - split; [reflexivity | split; [exact E | exact R]].
Defined.






(** Such an instance outlives its container.  The two charts of the
    first text are refused; the text then becomes the empty list, which
    removes the boxes, and then the first text again, which makes new
    boxes: the new instances are on the new containers, and the two
    instances of the first pass are still live on elements that are no
    longer part of the page. *)
Example refused_chart_outlives_its_container :
  let r1 := MultiContentEditor.render_pass md_plain refuses_all no_ids (two_charts "0") 0
              (multi_on "draft" "") (world_with []) in
  let r2 := MultiContentEditor.render_pass md_plain refuses_all no_ids "[]" 1
              (fst r1) (snd r1) in
  let r3 := MultiContentEditor.render_pass md_plain refuses_all no_ids (two_charts "0") 2
              (fst r2) (snd r2) in
  map (container (document (snd r3))) [0; 1]%nat = [Some (DOM.Inner 8); Some (DOM.Inner 10)] /\
  map ECharts.dom (ECharts.live (registry (snd r3)))
  = [DOM.Inner 0; DOM.Inner 2; DOM.Inner 8; DOM.Inner 10].
Proof. split; reflexivity. Qed.

(** ** The key spaces of the editors *)

Lemma prefix_split (p : string) : forall s,
  prefix p s = true -> exists rest, s = (p ++ rest)%string.
Proof.
  induction p as [|a p IH]; intros s H.
  - now exists s.
  - destruct s as [|b s]; [discriminate|]. cbn [prefix] in H.
    destruct (ascii_dec a b) as [<-|]; [|discriminate].
    destruct (IH s H) as [rest ->]. now exists rest.
Qed.

Lemma prefixes_apart (a b key : string) :
  In a editor_prefixes -> In b editor_prefixes -> a <> b ->
  JS.startsWith key a = true -> JS.startsWith key b = false.
Proof.
  unfold editor_prefixes, JS.startsWith.
  intros [<-|[<-|[<-|[]]]] [<-|[<-|[<-|[]]]] N H; try (now contradiction N);
    apply prefix_split in H; destruct H as [rest ->]; reflexivity.
Qed.

Lemma startsWith_key (base name : string) :
  JS.startsWith (FileList.storage_key base name) base = true.
Proof. apply prefix_app. Qed.

Lemma startsWith_last (base : string) :
  JS.startsWith (FileList.last_filename_key base) base = true.
Proof. apply prefix_app. Qed.

Lemma unseen_refl (base : string) (s : Storage.t) : unseen base s s.
Proof. split; auto. Qed.

Lemma unseen_trans (base : string) (s1 s2 s3 : Storage.t) :
  unseen base s1 s2 -> unseen base s2 s3 -> unseen base s1 s3.
Proof.
  intros [F1 G1] [F2 G2]. split.
  - now rewrite F2.
  - intros k K. now rewrite G2, G1.
Qed.

Lemma unseen_setItem (base : string) (s : Storage.t) (k v : string) :
  JS.startsWith k base = false -> unseen base s (Storage.setItem s k v).
Proof.
  intros K. split.
  - now apply filter_keys_setItem.
  - intros k' K'. apply getItem_setItem_other. intros ->. congruence.
Qed.

Lemma unseen_removeItem (base : string) (s : Storage.t) (k : string) :
  JS.startsWith k base = false -> unseen base s (Storage.removeItem s k).
Proof.
  intros K. split.
  - now apply filter_keys_removeItem.
  - intros k' K'. apply getItem_removeItem_other. intros ->. congruence.
Qed.

Lemma filter_listed (base : string) (keys : list string) :
  filter (listed base) keys
  = filter (fun k => negb (JS.endsWith k "last-filename"))
      (filter (fun k => JS.startsWith k base) keys).
Proof.
  induction keys as [|k keys IH]; [reflexivity|]. simpl. unfold listed at 1.
  destruct (JS.startsWith k base); simpl; [|exact IH].
  now destruct (JS.endsWith k "last-filename"); simpl; rewrite IH.
Qed.

Lemma unseen_same_documents (base : string) (s s' : Storage.t) :
  unseen base s s' -> same_documents base s s'.
Proof.
  intros [F G]. repeat split.
  - intros compare now. unfold FileList.loadSavedFiles, Files.loadSavedFiles.
    rewrite (visit_filter base s'), (visit_filter base s), !filter_listed, F.
    rewrite (visit_ext base s' s); [reflexivity|].
    intros k _ L. apply G. unfold listed in L. now apply andb_prop in L.
  - unfold FileList.initialFilename. now rewrite (G _ (startsWith_last base)).
  - intros default name. unfold FileList.initialContent.
    now rewrite (G _ (startsWith_key base name)).
Qed.

(** X19. The markdown editor, the chart editor and the multi-content
    editor keep their documents apart: no key starts with the prefixes
    of two of them, and whatever one of them writes or removes (in its
    save effect, its interval, a rename, New File or a delete), each of
    the others lists the same files and starts from the same name and
    text as before. *)
Theorem editors_keep_documents_apart (a b : string) :
  In a editor_prefixes -> In b editor_prefixes -> a <> b ->
  (forall key, JS.startsWith key a = true -> JS.startsWith key b = false)
  /\
  forall (compare : Files.file -> Files.file -> JS.number) (default value : string)
         (confirm : bool) (file : Files.file) (now : Z) (st : FileList.state) (w : world),
    same_documents b (storage w)
      (storage (world_of (FileList.saveContent a compare now st w))) /\
    same_documents b (storage w) (storage (snd (FileList.autoSave a now st w))) /\
    same_documents b (storage w)
      (storage (world_of (FileList.handleFilenameChange a compare value now st w))) /\
    same_documents b (storage w)
      (storage (world_of (FileList.handleNewFile a default compare now st w))) /\
    same_documents b (storage w)
      (storage (world_of (FileList.handleDeleteFile a default compare confirm file now st w))).
Proof.
  intros A B N.
  assert (P : forall key, JS.startsWith key a = true -> JS.startsWith key b = false)
    by (intros key; now apply prefixes_apart).
  split; [exact P|].
  assert (K : forall name, JS.startsWith (FileList.storage_key a name) b = false)
    by (intros name; apply P, startsWith_key).
  assert (L : JS.startsWith (FileList.last_filename_key a) b = false)
    by (apply P, startsWith_last).
  assert (Put : forall name text t s, unseen b s (FileList.put a name text t s))
    by (intros; apply unseen_setItem, K).
  intros compare default value confirm file now st w.
  assert (New : forall t s w0, unseen b (storage w0)
                  (storage (world_of (FileList.handleNewFile a default compare t s w0)))).
  { intros t s w0.
    destruct (handleNewFile_spec a default compare t s w0) as (_ & _ & _ & S).
    rewrite S. apply Put. }
  split; [|split; [|split; [|split]]]; apply unseen_same_documents.
  - destruct (saveContent_spec a compare now st w) as (_ & _ & _ & S). rewrite S.
    eapply unseen_trans; [apply Put | apply unseen_setItem, L].
  - unfold FileList.autoSave. destruct (now - FileList.lastEditTime st <? 30000);
      [|apply unseen_refl]. unfold Timers.setTimeout. cbn [snd storage set_storage set_timers].
    apply Put.
  - unfold FileList.handleFilenameChange.
    destruct (negb _ && negb _)%bool; [|apply unseen_refl].
    assert (U : unseen b (storage w)
                  (Storage.removeItem
                     (FileList.put a (JS.trim value) (FileList.codeInput st) now (storage w))
                     (FileList.storage_key a (FileList.filename st))))
      by (eapply unseen_trans; [apply Put | apply unseen_removeItem, K]).
    destruct (FileList.loadSavedFiles _ _ _ _); exact U.
  - apply New.
  - unfold FileList.handleDeleteFile. destruct confirm; [|apply unseen_refl].
    assert (R : unseen b (storage w)
                  (Storage.removeItem (storage w)
                     (FileList.storage_key a (Files.name file))))
      by apply unseen_removeItem, K.
    destruct (Files.name file =? FileList.filename st)%string.
    + assert (U : unseen b (storage w)
                    (storage (world_of (FileList.handleNewFile a default compare now st
                       (set_storage (Storage.removeItem (storage w)
                          (FileList.storage_key a (Files.name file))) w)))))
        by (eapply unseen_trans; [exact R | apply New]).
      destruct (thrown _); [exact U|].
      destruct (FileList.loadSavedFiles _ _ _ _); exact U.
    + cbn [thrown state_of world_of]. destruct (FileList.loadSavedFiles _ _ _ _); exact R.
Qed.

Lemma editors_keep_documents_apart_witness :
  same_documents "echarts-editor-content" (storage multi_world)
    (storage (world_of (MultiContentEditor.saveContent 7 (multi_on "draft" "[1]")
                          multi_world))).
Proof.
  destruct (editors_keep_documents_apart "multi-content-editor" "echarts-editor-content")
    as [_ H].
  - simpl. auto.
  - simpl. auto.
  - discriminate.
  - exact (proj1 (H Files.by_lastModified "" "" true notes_file 7
                    (cells_of "draft" "[1]") multi_world)).
Defined.

(** ** The open document in the list *)

Lemma visit_In (base : string) (s : Storage.t) (now : Z) (keys : list string) :
  forall files key,
    In key keys -> listed base key = true ->
    Files.visit base s now keys = Ok files ->
    exists parsed,
      JSON.parse (payload s key) = Ok parsed /\
      In {| Files.name := shown_name base key;
            Files.lastModified := JS.or_else (JS.get_opt parsed "lastModified")
                                    (JS.Number (inject_Z now)) |} files.
Proof.
  induction keys as [|k keys IH]; intros files key I L V; [destruct I|].
  rewrite visit_unfold in V.
  destruct (listed base k) eqn:Lk.
  - fold (payload s k) in V.
    destruct (JSON.parse (payload s k)) as [v|] eqn:P; simpl in V; [|discriminate].
    destruct (Files.visit base s now keys) as [fs|] eqn:Vs; simpl in V; [|discriminate].
    injection V as <-. destruct I as [->|I].
    + exists v. split; [exact P|]. now left.
    + destruct (IH fs key I L eq_refl) as (parsed & Pk & Ik).
      exists parsed. split; [exact Pk|]. now right.
  - destruct I as [->|I]; [congruence|]. now apply IH.
Qed.

Lemma or_else_same (v : JS.value) : JS.or_else v v = v.
Proof. unfold JS.or_else. now destruct (JS.truthy v). Qed.

(** X20. After a save effect that ends without an exception the list
    of files shows the open document, with the time of the save as its
    [lastModified], and the status reads [Saved!].  This holds for every
    document whose key does not end with [last-filename]. *)
Theorem open_document_is_listed
    (base : string) (compare : Files.file -> Files.file -> JS.number)
    (now : Z) (st : FileList.state) (w : world) :
  let o := FileList.saveContent base compare now st w in
  thrown o = None ->
  JS.endsWith (FileList.storage_key base (FileList.filename st)) "last-filename" = false ->
  In {| Files.name := FileList.filename st;
        Files.lastModified := JS.Number (inject_Z now) |}
     (FileList.savedFiles (state_of o)) /\
  FileList.saveStatus (state_of o) = "Saved!".
Proof.
  intros o T E. subst o. unfold FileList.saveContent in *.
  set (key := FileList.storage_key base (FileList.filename st)) in *.
  set (s2 := Storage.setItem
               (FileList.put base (FileList.filename st) (FileList.codeInput st) now
                  (storage w))
               (FileList.last_filename_key base) (FileList.filename st)) in *.
  destruct (FileList.loadSavedFiles base compare s2 now) as [files|e] eqn:LS;
    [|discriminate T].
  unfold Timers.setTimeout. cbn [state_of FileList.savedFiles FileList.saveStatus
    FileList.setSaveStatus FileList.setSavedFiles].
  split; [|reflexivity].
  assert (K : key <> FileList.last_filename_key base).
  { intros H. rewrite H in E. unfold FileList.last_filename_key in E.
    rewrite (endsWith_app base "-last-filename" "last-filename") in E by reflexivity.
    discriminate. }
  assert (G : Storage.getItem s2 key
              = Some (JSON.stringify {| JSON.text := FileList.codeInput st;
                                        JSON.lastModified := now |})).
  { subst s2. rewrite getItem_setItem_other by exact K. apply getItem_setItem_same. }
  assert (L : listed base key = true).
  { unfold listed. rewrite E. unfold key, FileList.storage_key, JS.startsWith.
    now rewrite prefix_app. }
  unfold FileList.loadSavedFiles, Files.loadSavedFiles in LS.
  destruct (Files.visit base s2 now (Storage.keys s2)) as [fs|] eqn:V; [|discriminate].
  cbn [bind] in LS.
  destruct (visit_In base s2 now _ fs key (getItem_in_keys _ _ _ G) L V) as (parsed & P & I).
  unfold payload in P. rewrite G, parse_stringify in P. injection P as <-.
  change (JS.get_opt (content_value _) "lastModified")
    with (JS.Number (inject_Z now)) in I.
  rewrite or_else_same in I.
  unfold shown_name, key in I. rewrite name_of_storage_key in I.
  eapply Permutation_in; [apply Permutation_sym, (sort_permutation _ _ _ LS) | exact I].
Qed.

Lemma open_document_is_listed_witness :
  let o := MultiContentEditor.saveContent 7 (multi_on "draft" "[1]") multi_world in
  thrown o = None /\
  In {| Files.name := "draft"; Files.lastModified := JS.Number (inject_Z 7) |}
     (FileList.savedFiles (MultiContentEditor.cells (state_of o))).
Proof.
  split; [reflexivity|].
  apply (open_document_is_listed "multi-content-editor" Files.by_lastModified 7
           (cells_of "draft" "[1]") multi_world); reflexivity.
Defined.
